(** * mlexpy: the experiment controller of [mlexpy/experiment.py]

    A shallow embedding of [ExperimentBase], [ClassifierExperimentBase] and
    [RegressionExperimentBase].  Python objects are values of [pyobj],
    exceptions are the [Raised] outcomes of [py_result], instance attributes
    that [__init__] may leave unset are [option] fields, dictionaries are
    insertion-ordered association lists, and [print]/[logger.info] append to
    the [world] that every method threads through. *)

From Stdlib Require Import List String Ascii Bool ZArith Lia Arith.
From Stdlib Require Import Floats.SpecFloat DecimalString Permutation.
Import ListNotations.
Local Open Scope string_scope.
Local Open Scope list_scope.

Set Implicit Arguments.
Local Set Warnings "-register-all".

(** ** Python values, exceptions and outcomes *)

Module Py.

(** The exceptions raised in [experiment.py], and the ones its operations on
    attributes, indices and dictionaries raise. *)
Inductive exn : Type :=
| ValueError (msg : string)
| NotImplementedError (msg : string)
| AttributeError (attr : string)
| IndexError
| KeyError (key : string)
| TypeError.

Inductive py_result (A : Type) : Type :=
| Returned (a : A)
| Raised (e : exn).

Arguments Returned {A} a.
Arguments Raised {A} e.

Definition is_ValueError (e : exn) : bool :=
  match e with ValueError _ => true | _ => false end.

(** The builtin values that flow through the controller: labels,
    predictions, baseline values and metric scores. *)
Inductive pyobj : Type :=
| PyNone
| PyBool (b : bool)
| PyInt (z : Z)
| PyFloat (f : spec_float)
| PyStr (s : string)
| PyList (xs : list pyobj)
| PyArray (xs : list spec_float).   (* a one-dimensional float64 ndarray *)

Definition float_nonzero (f : spec_float) : bool :=
  match f with S754_zero _ => false | _ => true end.

(** [bool(x)], the test behind [if x] and [not x].  numpy refuses to give a
    truth value to an array of more than one element. *)
Definition truth_value (x : pyobj) : py_result bool :=
  match x with
  | PyNone => Returned false
  | PyBool b => Returned b
  | PyInt z => Returned (negb (Z.eqb z 0))
  | PyFloat f => Returned (float_nonzero f)
  | PyStr s => Returned (negb (String.eqb s ""))
  | PyList xs => Returned (match xs with [] => false | _ :: _ => true end)
  | PyArray [] => Returned false
  | PyArray [f] => Returned (float_nonzero f)
  | PyArray (_ :: _ :: _) =>
      Raised (ValueError "The truth value of an array with more than one element is ambiguous. Use a.any() or a.all()")
  end.

(** [if not x] on an [Optional[...]] argument whose non-[None] values are
    all truthy (callables, [Path] objects). *)
Definition not_opt {A : Type} (x : option A) : bool :=
  match x with None => true | Some _ => false end.

(** [needle in hay] on strings. *)
Fixpoint contains (needle hay : string) : bool :=
  if String.prefix needle hay then true
  else match hay with
       | EmptyString => false
       | String _ rest => contains needle rest
       end.

Definition nl : string := String (ascii_of_nat 10) EmptyString.

(** *** Insertion-ordered dictionaries *)

Section Dict.
Variable V : Type.

Definition dict : Type := list (string * V).

Definition keys (d : dict) : list string := map fst d.

Fixpoint dict_get (k : string) (d : dict) : option V :=
  match d with
  | [] => None
  | (k', v) :: rest => if String.eqb k k' then Some v else dict_get k rest
  end.

(** [d[k] = v]: an existing key keeps its position, a new one goes last. *)
Fixpoint dict_set (k : string) (v : V) (d : dict) : dict :=
  match d with
  | [] => [(k, v)]
  | (k', v') :: rest =>
      if String.eqb k k' then (k', v) :: rest
      else (k', v') :: dict_set k v rest
  end.

(** [del d[k]]. *)
Fixpoint dict_remove (k : string) (d : dict) : dict :=
  match d with
  | [] => []
  | (k', v') :: rest =>
      if String.eqb k k' then rest else (k', v') :: dict_remove k rest
  end.

Definition dict_del (k : string) (d : dict) : py_result dict :=
  match dict_get k d with
  | None => Raised (KeyError k)
  | Some _ => Returned (dict_remove k d)
  end.

(** A dictionary literal or a sequence of assignments. *)
Definition dict_update (writes : list (string * V)) (d : dict) : dict :=
  fold_left (fun acc kv => dict_set (fst kv) (snd kv) acc) writes d.

End Dict.

End Py.
Import Py.

(** ** IEEE 754 binary64

    numpy's float64 values and their arithmetic, through the specification
    of floating-point operations of the Standard Library. *)

Definition float64 : Type := spec_float.

Module Float64.
Definition prec : Z := 53.
Definition emax : Z := 1024.
Definition pzero : float64 := S754_zero false.
Definition add := SFadd prec emax.
Definition sub := SFsub prec emax.
Definition mul := SFmul prec emax.
Definition div := SFdiv prec emax.
Definition abs := SFabs.
(** The conversion of a count to float64. *)
Definition of_nat (n : nat) : float64 :=
  binary_normalize prec emax (Z.of_nat n) 0 false.
Definition is_finite (x : float64) : bool :=
  match x with S754_zero _ | S754_finite _ _ _ => true | _ => false end.

End Float64.

(** One train/test partition produced by a split generator: the row indices
    of the training part and of the validation part. *)
Definition fold : Type := (list nat * list nat)%type.

(** [pathlib.Path] as its segments; [p / s] appends one (the operands the
    controller joins are relative names of one segment). *)
Definition Path : Type := list string.
Definition Path_of_str (s : string) : Path := [s].
Definition Path_div (p : Path) (s : string) : Path := p ++ [s].
Definition Path_str (p : Path) : string := String.concat "/" p.

(** A scoring function of the metric registry: [metric(labels, prediction)]
    or [metric(labels, prediction, average=...)]. *)
Definition metric : Type := pyobj -> pyobj -> option string -> py_result pyobj.

(** A two-dimensional [np.ndarray] of floats, of shape
    [(length nd_rows, ncols)]. *)
Record ndarray2 : Type := {
  nd_rows : list (list float64);
  ncols : nat
}.

(** [len(a)] *)
Definition nd_len (a : ndarray2) : nat := List.length (nd_rows a).

Definition nat_str (n : nat) : string :=
  NilEmpty.string_of_uint (Nat.to_uint n).

(** [str(a.shape)] *)
Definition shape_str (a : ndarray2) : string :=
  "(" ++ nat_str (nd_len a) ++ ", " ++ nat_str (ncols a) ++ ")".

(** [a[:, j]]: the index is checked against the second dimension. *)
Definition nd_column (j : nat) (a : ndarray2) : py_result (list float64) :=
  if Nat.leb (ncols a) j then Raised IndexError
  else Returned (map (fun r => nth j r (S754_zero false)) (nd_rows a)).

(** ** External collaborators

    numpy, scikit-learn, joblib and the plotting libraries are outside the
    repository.  The controller only hands values to them, so they are taken
    as an interface; every statement below holds for each implementation of
    it. *)

Class External : Type := {
  (** a pandas table of observations *)
  table : Type;
  (** a model object, with [hasattr(model, "save_model")] and
      [hasattr(model, "load_model") and model] *)
  estimator : Type;
  has_save_model : estimator -> bool;
  has_load_model : estimator -> bool;
  (** the state held by one [np.random.RandomState] object *)
  RandomState : Type;
  (** [np.random.RandomState(seed)] *)
  RandomState_seed : Z -> RandomState;
  (** one iteration of [StratifiedShuffleSplit]: the fold drawn from a
      generator state for the given test fraction and labels, and the state
      the generator is left in; labels that cannot be stratified are
      refused with an exception *)
  shuffle_split : RandomState -> float64 -> pyobj ->
                  py_result (fold * RandomState);
  (** [str(x)] as an f-string renders it *)
  py_str : pyobj -> string;
  (** the rendering of a user-supplied function in an f-string *)
  callable_str : string -> string;
  (** the rendering of a model object in an f-string *)
  estimator_str : estimator -> string;
  (** [sys.path[-1]] *)
  sys_path_last : string;
  (** a parameter space handed to a search *)
  param_space : Type;
  (** what a user-supplied model-IO function returns when called *)
  custom_result : string -> option estimator -> py_result (option estimator);
  (** what [model.load_model(path)] and [joblib.load(path)] return *)
  native_load_result : estimator -> Path -> py_result (option estimator);
  joblib_load_result : Path -> py_result (option estimator);
  (** fitting a search object on the folds its split generator yields: the
      best estimator and the report of [cv_report] *)
  search_result : bool -> estimator -> param_space -> Z -> string ->
                  list fold -> table -> pyobj -> py_result (estimator * string);
  (** [roc_auc_score(y_true, y_score)] on a score vector *)
  roc_auc_score : pyobj -> list float64 -> py_result pyobj;
  (** [roc_auc_score(y_true, y_score, average="weighted", multi_class="ovr")]
      on a probability matrix *)
  roc_auc_score_ovr_weighted : pyobj -> ndarray2 -> py_result pyobj;
  (** whether [RocCurveDisplay.from_estimator(estimator, X, y)] returns a
      display or raises *)
  roc_curve_display : estimator -> table -> pyobj -> py_result unit;
  (** [pd.get_dummies(labels, drop_first=False).values]: one indicator
      column for each distinct label *)
  get_dummies : pyobj -> py_result ndarray2;
  (** [roc_curve(y_true, y_score)]: the false and the true positive rates
      (the thresholds are not used) *)
  roc_curve : list float64 -> list float64 ->
              py_result (list float64 * list float64);
  (** [auc(fpr, tpr)] *)
  auc : list float64 -> list float64 -> py_result float64;
  (** [round(x, 2)] as an f-string renders it *)
  round2_str : float64 -> string;
  (** the scoring functions of scikit-learn in the classifier registry *)
  f1_score : metric;
  log_loss : metric;
  balanced_accuracy_score : metric;
  accuracy_score : metric;
  confusion_matrix : metric;
  classification_report : metric
}.

(** [Optional[Union[str, Path]]] *)
Inductive dir_arg : Type :=
| DirStr (s : string)
| DirPath (p : Path).

Definition not_dir (d : option dir_arg) : bool :=
  match d with
  | None => true
  | Some (DirStr s) => String.eqb s ""
  | Some (DirPath _) => false
  end.

(** What a model-IO slot of the controller can hold: one of the two bound
    default methods, or a function supplied by the caller (by its name). *)
Inductive model_io : Type :=
| default_store_model_method
| default_load_model_method
| custom_function (name : string).

(** The [random_state] argument of a split generator: a seed, or a reference
    to a [RandomState] object living on the heap. *)
Inductive random_state_arg : Type :=
| RandomState_int (seed : Z)
| RandomState_instance (ref : nat).

Record StratifiedShuffleSplit : Type := {
  n_splits : Z;
  test_size : float64;
  random_state : random_state_arg
}.

(** Calls that leave the process: to the file system, to a user-supplied
    function, to the search and plotting libraries. *)
Inductive effect `{External} : Type :=
| make_directory (p : Path)
| save_model_native (m : estimator) (p : Path)
| joblib_dump (m : estimator) (p : Path)
| load_model_native (m : estimator) (p : Path)
| joblib_load (p : Path)
| call_custom (name : string) (m : option estimator)
| build_GridSearchCV (scoring : string) (cv : StratifiedShuffleSplit)
| build_RandomizedSearchCV (n_iter : Z) (scoring : string)
    (cv : StratifiedShuffleSplit)
| search_fit
| RocCurveDisplay_from_estimator (m : estimator)
| RocCurveDisplay_plot
| plt_subplots (figsize : Z * Z)
| ax_plot_diagonal                 (* [ax.plot([0, 1], [0, 1], "k--")] *)
| ax_set_xlim
| ax_set_ylim
| ax_set_xlabel (s : string)
| ax_set_ylabel (s : string)
| ax_set_title (s : string)
| ax_plot (xs ys : list float64) (label : string)
| ax_legend
| ax_grid
| sns_despine
| plt_show.

Record world `{External} : Type := {
  stdout : list string;           (* lines written by [print] *)
  logged : list string;           (* lines written by [logger.info] *)
  heap : list RandomState;        (* the RandomState objects, by reference *)
  dirs : list Path;               (* the directories that exist *)
  effects : list effect
}.

(** ** The monad of methods: state passing with exceptions *)

Section Monad.
Context `{External}.

Definition M (A : Type) : Type := world -> py_result A * world.

Definition ret {A} (a : A) : M A := fun w => (Returned a, w).

Definition raise {A} (e : exn) : M A := fun w => (Raised e, w).

Definition bind {A B} (m : M A) (k : A -> M B) : M B :=
  fun w => match m w with
           | (Returned a, w') => k a w'
           | (Raised e, w') => (Raised e, w')
           end.

(** The outcome of a pure call, raised or returned. *)
Definition lift {A} (r : py_result A) : M A := fun w => (r, w).

(** [try: m  except ValueError: h] *)
Definition except_ValueError {A} (m : M A) (h : M A) : M A :=
  fun w => match m w with
           | (Raised e, w') => if is_ValueError e then h w' else (Raised e, w')
           | r => r
           end.

Definition print (s : string) : M unit :=
  fun w => (Returned tt,
            {| stdout := stdout w ++ [s]; logged := logged w;
               heap := heap w; dirs := dirs w; effects := effects w |}).

Definition logger_info (s : string) : M unit :=
  fun w => (Returned tt,
            {| stdout := stdout w; logged := logged w ++ [s];
               heap := heap w; dirs := dirs w; effects := effects w |}).

Definition perform (e : effect) : M unit :=
  fun w => (Returned tt,
            {| stdout := stdout w; logged := logged w;
               heap := heap w; dirs := dirs w;
               effects := effects w ++ [e] |}).

(** The seeds [np.random.RandomState] takes: from 0 to 2**32 - 1. *)
Definition seed_in_range (seed : Z) : bool :=
  Z.leb 0 seed && Z.ltb seed 4294967296.

Definition seed_message : string := "Seed must be between 0 and 2**32 - 1".

(** [np.random.RandomState(seed)]: the allocation of a fresh [RandomState]
    object, whose reference is returned; a seed out of range is refused. *)
Definition new_RandomState (seed : Z) : M nat :=
  fun w =>
    if seed_in_range seed then
      (Returned (List.length (heap w)),
       {| stdout := stdout w; logged := logged w;
          heap := heap w ++ [RandomState_seed seed];
          dirs := dirs w; effects := effects w |})
    else (Raised (ValueError seed_message), w).

Fixpoint heap_store (r : nat) (s : RandomState) (h : list RandomState)
  : list RandomState :=
  match h, r with
  | [], _ => []
  | _ :: rest, O => s :: rest
  | x :: rest, S r' => x :: heap_store r' s rest
  end.

Definition set_heap (h : list RandomState) : M unit :=
  fun w => (Returned tt,
            {| stdout := stdout w; logged := logged w;
               heap := h; dirs := dirs w; effects := effects w |}).

Definition get_heap : M (list RandomState) :=
  fun w => (Returned (heap w), w).

Definition is_dir (p : Path) : M bool :=
  fun w => (Returned (existsb (fun q => if list_eq_dec string_dec p q
                                        then true else false) (dirs w)), w).

Definition add_dir (p : Path) : M unit :=
  fun w => (Returned tt,
            {| stdout := stdout w; logged := logged w;
               heap := heap w; dirs := dirs w ++ [p];
               effects := effects w |}).

End Monad.

Declare Scope py_scope.
Delimit Scope py_scope with py.
Notation "x <- m ;; k" := (bind m (fun x => k))
  (at level 100, m at next level, right associativity) : py_scope.
Notation "m ;;; k" := (bind m (fun _ => k))
  (at level 100, right associativity) : py_scope.
Local Open Scope py_scope.

(** ** The controller *)

Record MLSetup `{External} : Type := {
  obs : table;
  labels : pyobj
}.

Record ExperimentSetup `{External} : Type := {
  train_data : MLSetup;
  test_data : MLSetup
}.

(** numpy adds the elements of an array up in an order of its own (pairwise,
    in blocks): [reduces_to l r] when [r] is obtained by adding all the
    elements of [l], each once, in some order and association. *)
Inductive reduces_to : list float64 -> float64 -> Prop :=
| reduce_one (x : float64) : reduces_to [x] x
| reduce_add (l l1 l2 : list float64) (a b : float64) :
    Permutation l (l1 ++ l2) ->
    reduces_to l1 a -> reduces_to l2 b ->
    reduces_to l (Float64.add a b).

(** [a.mean()]: the sum divided by the number of elements. *)
Definition mean_with (sum : list float64 -> float64) (l : list float64)
  : float64 :=
  Float64.div (sum l) (Float64.of_nat (List.length l)).

(** [(y_true - y_pred) ** 2], elementwise *)
Definition squared_errors (y_true y_pred : list float64) : list float64 :=
  map (fun yp => let d := Float64.sub (fst yp) (snd yp) in Float64.mul d d)
      (combine y_true y_pred).

(** [np.abs(y_pred - y_true)], elementwise *)
Definition absolute_errors (y_true y_pred : list float64) : list float64 :=
  map (fun yp => Float64.abs (Float64.sub (snd yp) (fst yp)))
      (combine y_true y_pred).

Definition all_finite (l : list float64) : bool :=
  forallb Float64.is_finite l.

(** The floats of a list of Python floats. *)
Fixpoint floats_of (items : list pyobj) : option (list float64) :=
  match items with
  | [] => Some []
  | PyFloat f :: rest =>
      match floats_of rest with
      | Some fs => Some (f :: fs)
      | None => None
      end
  | _ :: _ => None
  end.

(** The float64 array scikit-learn makes of a sequence of floats: a
    one-dimensional float array is taken as it is, a list of floats is
    converted. *)
Definition float_array (x : pyobj) : option (list float64) :=
  match x with
  | PyArray xs => Some xs
  | PyList items => floats_of items
  | _ => None
  end.

(** The two scoring functions of the regression registry.  scikit-learn
    computes [np.average(output_errors)] of the one-column
    [output_errors = np.average(errors, axis=0)] on sequences of floats of
    one length, not empty and free of NaN and infinities (other inputs are
    rejected or converted first, which is left open here). *)
Class SklearnRegression : Type := {
  np_sum : list float64 -> float64;
  np_sum_reduces : forall l, l <> [] -> reduces_to l (np_sum l);
  mean_squared_error : metric;
  mean_absolute_error : metric;
  mean_squared_error_spec : forall y_true y_pred a b,
    float_array y_true = Some a -> float_array y_pred = Some b ->
    List.length a = List.length b -> a <> [] ->
    all_finite a = true -> all_finite b = true ->
    mean_squared_error y_true y_pred None =
    Returned (PyFloat (mean_with np_sum
                         [mean_with np_sum (squared_errors a b)]));
  mean_absolute_error_spec : forall y_true y_pred a b,
    float_array y_true = Some a -> float_array y_pred = Some b ->
    List.length a = List.length b -> a <> [] ->
    all_finite a = true -> all_finite b = true ->
    mean_absolute_error y_true y_pred None =
    Returned (PyFloat (mean_with np_sum
                         [mean_with np_sum (absolute_errors a b)]))
}.

(** The instance attributes of a controller.  [store_model], [load_model]
    and [baseline_value] are assigned on some paths of the constructors
    only; [None] is an attribute that was never assigned. *)
Record Experiment `{External} : Type := {
  testing : MLSetup;
  training : MLSetup;
  processor : pyobj;
  test_cv_split : float64;
  rnd : nat;
  cv_split_count : Z;
  metric_dict : dict metric;
  standard_metric : string;
  process_tag : string;
  model_tag : string;
  store_model : option model_io;
  load_model : option model_io;
  model_dir : Path;
  baseline_value : option pyobj
}.

(** What a model object does when the controller calls it, and the truth
    value of a parameter space ([if params:] is false for [None] and for an
    empty dictionary). *)
Class ModelOps `{External} : Type := {
  params_truthy : param_space -> bool;
  (** [model.fit(obs, labels)]: the model as fitted *)
  fit_result : estimator -> table -> pyobj -> py_result estimator;
  (** [model.predict(obs)] and [model.predict_proba(obs)] *)
  predict_result : estimator -> table -> py_result pyobj;
  predict_proba_result : estimator -> table -> py_result ndarray2
}.

(** The literal [0.4]. *)
Definition float_0_4 : float64 := S754_finite false 7205759403792794 (-54).

Module ExperimentBase.
Section Methods.
Context `{External}.

Definition __init__
    (train_setup test_setup : MLSetup)
    (cv_split_count : Z) (rnd_int : Z)
    (model_dir : option dir_arg)
    (model_storage_function model_loading_function : option string)
    (model_tag process_tag : string) : M Experiment :=
  rnd_ref <- new_RandomState rnd_int ;;
  (* Setup model io *)
  store_slot <-
    (if not_opt model_storage_function then
       logger_info "No model storage function provided. Using the default class method (joblib, or .store_model native method)." ;;;
       ret (Some default_store_model_method)
     else
       logger_info ("Set the model storage function as: "
                    ++ match model_storage_function with
                       | Some f => callable_str f | None => "None" end) ;;;
       ret (option_map custom_function model_storage_function)) ;;
  (* the second branch assigns [self.store_model] again and leaves
     [self.load_model] unassigned *)
  slots <-
    (if not_opt model_loading_function then
       logger_info "No model loading function provided. Using the default class method (joblib, or .load_model native method)." ;;;
       ret (store_slot, Some default_load_model_method)
     else
       logger_info ("Set the model loading function as: "
                    ++ match model_loading_function with
                       | Some f => callable_str f | None => "None" end) ;;;
       ret (option_map custom_function model_loading_function, None)) ;;
  dir <-
    (if not_dir model_dir then
       logger_info ("No model location provided. Creating a .models/ at: "
                    ++ sys_path_last) ;;;
       ret (Path_div (Path_div (Path_of_str sys_path_last) ".models")
              process_tag)
     else
       match model_dir with
       | Some (DirStr s) =>
           logger_info ("setting the model path to " ++ s
             ++ ". (Converting from string to pathlib.Path)") ;;;
           ret (Path_div (Path_of_str s) process_tag)
       | Some (DirPath p) =>
           logger_info ("setting the model path to " ++ Path_str p
             ++ ". (Converting from string to pathlib.Path)") ;;;
           ret (Path_div p process_tag)
       | None => ret (Path_of_str process_tag)
       end) ;;
  ret {| testing := test_setup;
         training := train_setup;
         processor := PyNone;
         test_cv_split := float_0_4;
         rnd := rnd_ref;
         cv_split_count := cv_split_count;
         metric_dict := [];
         standard_metric := "";
         process_tag := process_tag;
         model_tag := model_tag;
         store_model := fst slots;
         load_model := snd slots;
         model_dir := dir;
         baseline_value := None |}.

Definition make_storage_dir (self : Experiment) : M unit :=
  d <- is_dir (model_dir self) ;;
  if negb d then
    perform (make_directory (model_dir self)) ;;; add_dir (model_dir self)
  else ret tt.

Definition default_store_model (self : Experiment) (model : estimator)
  : M unit :=
  make_storage_dir self ;;;
  model_path <-
    (if has_save_model model then
       logger_info ("Found a save_model method in " ++ estimator_str model) ;;;
       let model_path := Path_div (model_dir self) (model_tag self ++ ".json") in
       perform (save_model_native model model_path) ;;; ret model_path
     else
       logger_info ("Saving the " ++ estimator_str model
                    ++ " model using joblib.") ;;;
       let model_path := Path_div (model_dir self) (model_tag self ++ ".joblib") in
       perform (joblib_dump model model_path) ;;; ret model_path) ;;
  logger_info ("Dumped " ++ model_tag self ++ " to: " ++ Path_str model_path).

Definition default_load_model (self : Experiment) (model : option estimator)
  : M (option estimator) :=
  loaded <-
    (match model with
     | Some m =>
         if has_load_model m then
           logger_info ("Found a load_model method in " ++ estimator_str m) ;;;
           let model_path := Path_div (model_dir self) (model_tag self ++ ".json") in
           logger_info ("Loading " ++ model_tag self ++ " from: "
                        ++ Path_str model_path) ;;;
           perform (load_model_native m model_path) ;;;
           r <- lift (native_load_result m model_path) ;;
           ret (r, model_path)
         else
           let model_path := Path_div (model_dir self) (model_tag self ++ ".joblib") in
           logger_info ("Loading " ++ model_tag self ++ " from: "
                        ++ Path_str model_path) ;;;
           perform (joblib_load model_path) ;;;
           r <- lift (joblib_load_result model_path) ;;
           ret (r, model_path)
     | None =>
         let model_path := Path_div (model_dir self) (model_tag self ++ ".joblib") in
         logger_info ("Loading " ++ model_tag self ++ " from: "
                      ++ Path_str model_path) ;;;
         perform (joblib_load model_path) ;;;
         r <- lift (joblib_load_result model_path) ;;
         ret (r, model_path)
     end) ;;
  logger_info ("Retrieved " ++ model_tag self ++ " from: "
               ++ Path_str (snd loaded)) ;;;
  ret (fst loaded).

(** Calling whatever an IO slot holds: [self.store_model(model)] and
    [self.load_model(model)]. *)
Definition call_slot (self : Experiment) (attr : string)
    (slot : option model_io) (model : option estimator)
  : M (option estimator) :=
  match slot with
  | None => raise (AttributeError attr)
  | Some default_store_model_method =>
      match model with
      | Some m => default_store_model self m ;;; ret None
      | None => raise TypeError
      end
  | Some default_load_model_method => default_load_model self model
  | Some (custom_function f) =>
      perform (call_custom f model) ;;; lift (custom_result f model)
  end.

Definition call_store_model (self : Experiment) (model : option estimator) :=
  call_slot self "store_model" (store_model self) model.

Definition call_load_model (self : Experiment) (model : option estimator) :=
  call_slot self "load_model" (load_model self) model.

Definition evaluate_predictions (self : Experiment)
    (full_setup : ExperimentSetup) (predictions class_probabilities : pyobj)
    (baseline_prediction : bool) : M (dict pyobj) :=
  raise (NotImplementedError
           "This needs to be implemented in the child class.").

(** Creates an object to be passed to cv_eval, allowing for identical
    splits everytime cv_eval is used (the docstring of the method).  The
    generator is handed the controller's own [RandomState] object. *)
Definition cv_splits (self : Experiment) (n_splits : Z)
  : StratifiedShuffleSplit :=
  {| n_splits := n_splits;
     test_size := test_cv_split self;
     random_state := RandomState_instance (rnd self) |}.

(** [n] successive folds drawn from one generator state: the folds, or the
    exception of the first draw that is refused, and the state the
    generator is left in. *)
Fixpoint draw_folds (n : nat) (s : RandomState) (ts : float64) (y : pyobj)
  : py_result (list fold) * RandomState :=
  match n with
  | O => (Returned [], s)
  | S k =>
      match shuffle_split s ts y with
      | Raised e => (Raised e, s)
      | Returned (f, s1) =>
          let (r, s2) := draw_folds k s1 ts y in
          (match r with
           | Returned fs => Returned (f :: fs)
           | Raised e => Raised e
           end, s2)
      end
  end.

(** [list(cv.split(X, y))].  scikit-learn resolves [random_state] with
    [check_random_state]: a seed makes a fresh generator at every call, a
    [RandomState] object is used as it is and left advanced. *)
Definition split (cv : StratifiedShuffleSplit) (y : pyobj) : M (list fold) :=
  match random_state cv with
  | RandomState_int seed =>
      if seed_in_range seed then
        lift (fst (draw_folds (Z.to_nat (n_splits cv))
                     (RandomState_seed seed) (test_size cv) y))
      else raise (ValueError seed_message)
  | RandomState_instance r =>
      h <- get_heap ;;
      match nth_error h r with
      | Some s =>
          let (drawn, s') :=
            draw_folds (Z.to_nat (n_splits cv)) s (test_size cv) y in
          set_heap (heap_store r s' h) ;;; lift drawn
      | None => raise (AttributeError "random_state")
      end
  end.

Definition no_standard_metric_message : string :=
  "No standard_metric has been set. This is likely because the ExperimentBase is being called, instead of being inherited. Try using the ClassifierExpirament or RegressionExpirament, or build a child class to inherit the ExpiramentBase.".

(** Run grid cross_validation search over the parameter space.  If no
    GirdSearch model provided run random search.  The search object is
    fitted on the folds its split generator yields. *)
Definition cv_search (self : Experiment) (data_setup : MLSetup)
    (ml_model : estimator) (parameters : param_space)
    (cv_model : string) (random_iterations : Z) : M estimator :=
  if String.eqb (standard_metric self) "" then
    raise (NotImplementedError no_standard_metric_message)
  else
    let cv := cv_splits self (cv_split_count self) in
    let grid := String.eqb cv_model "grid_search" in
    (if grid then
       perform (build_GridSearchCV (standard_metric self) cv)
     else
       perform (build_RandomizedSearchCV random_iterations
                  (standard_metric self) cv)) ;;;
    logger_info ("Beginning CV search using " ++ cv_model ++ " ...") ;;;
    folds <- split cv (labels data_setup) ;;
    perform search_fit ;;;
    found <- lift (search_result grid ml_model parameters random_iterations
                     (standard_metric self) folds (obs data_setup)
                     (labels data_setup)) ;;
    logger_info (snd found) ;;;
    ret (fst found).

Definition set_metric_dict (self : Experiment) (d : dict metric)
  : Experiment :=
  {| testing := testing self; training := training self;
     processor := processor self; test_cv_split := test_cv_split self;
     rnd := rnd self; cv_split_count := cv_split_count self;
     metric_dict := d;
     standard_metric := standard_metric self;
     process_tag := process_tag self; model_tag := model_tag self;
     store_model := store_model self; load_model := load_model self;
     model_dir := model_dir self; baseline_value := baseline_value self |}.

Definition set_standard_metric (self : Experiment) (s : string)
  : Experiment :=
  {| testing := testing self; training := training self;
     processor := processor self; test_cv_split := test_cv_split self;
     rnd := rnd self; cv_split_count := cv_split_count self;
     metric_dict := metric_dict self;
     standard_metric := s;
     process_tag := process_tag self; model_tag := model_tag self;
     store_model := store_model self; load_model := load_model self;
     model_dir := model_dir self; baseline_value := baseline_value self |}.

Definition set_baseline_value (self : Experiment) (b : pyobj)
  : Experiment :=
  {| testing := testing self; training := training self;
     processor := processor self; test_cv_split := test_cv_split self;
     rnd := rnd self; cv_split_count := cv_split_count self;
     metric_dict := metric_dict self;
     standard_metric := standard_metric self;
     process_tag := process_tag self; model_tag := model_tag self;
     store_model := store_model self; load_model := load_model self;
     model_dir := model_dir self; baseline_value := Some b |}.

(** Add the provided metric to the metric_dict *)
Definition add_metric (self : Experiment) (m : metric) (name : string)
  : Experiment :=
  set_metric_dict self (dict_set name m (metric_dict self)).

Definition remove_metric (self : Experiment) (name : string)
  : py_result Experiment :=
  match dict_del name (metric_dict self) with
  | Returned d => Returned (set_metric_dict self d)
  | Raised e => Raised e
  end.

(** Reading [self.baseline_value]. *)
Definition get_baseline_value (self : Experiment) : M pyobj :=
  match baseline_value self with
  | Some b => ret b
  | None => raise (AttributeError "baseline_value")
  end.

(** The methods that call the model: [process_data], [train_model] and
    [predict]. *)
Context `{!ModelOps}.

Definition process_data (self : Experiment) (process_method_str : string)
    (from_file : bool) : M ExperimentSetup :=
  raise (NotImplementedError
           "This needs to be implemented in the child class.").

(** Here perform all data processing using models loaded from storage. *)
Definition process_data_from_stored_models (self : Experiment)
  : M ExperimentSetup :=
  process_data self "process_data" true.

(** [if params:] on an [Optional[Dict[str, Any]]] *)
Definition params_given (params : option param_space) : bool :=
  match params with
  | Some p => params_truthy p
  | None => false
  end.

Definition train_model (self : Experiment) (model : estimator)
    (full_setup : ExperimentSetup) (cv_model : string) (cv_iterations : Z)
    (params : option param_space) : M estimator :=
  model <-
    (match params with
     | Some p =>
         if params_truthy p then
           cv_search self (train_data full_setup) model p cv_model
             cv_iterations
         else
           logger_info "Performing standard model training." ;;;
           lift (fit_result model (obs (train_data full_setup))
                   (labels (train_data full_setup)))
     | None =>
         logger_info "Performing standard model training." ;;;
         lift (fit_result model (obs (train_data full_setup))
                 (labels (train_data full_setup)))
     end) ;;
  logger_info "Model trained" ;;;
  ret model.

Definition predict (self : Experiment) (full_setup : ExperimentSetup)
    (model : estimator) (proba : bool) : M (pyobj + ndarray2) :=
  if proba then
    a <- lift (predict_proba_result model (obs (test_data full_setup))) ;;
    ret (inr a)
  else
    y <- lift (predict_result model (obs (test_data full_setup))) ;;
    ret (inl y).

End Methods.
End ExperimentBase.

Module ClassifierExperimentBase.
Section Methods.
Context `{External}.

Definition __init__
    (train_setup test_setup : MLSetup)
    (cv_split_count : Z) (rnd_int : Z)
    (model_dir : option dir_arg)
    (model_storage_function model_loading_function : option string)
    (model_tag process_tag : string) : M Experiment :=
  self <- ExperimentBase.__init__ train_setup test_setup cv_split_count
            rnd_int model_dir model_storage_function
            model_loading_function model_tag process_tag ;;
  let self := ExperimentBase.set_baseline_value self PyNone in
  let self := ExperimentBase.set_standard_metric self "f1_macro" in
  ret (ExperimentBase.set_metric_dict self
         [("f1", f1_score);
          ("log_loss", log_loss);
          ("balanced_accuracy", balanced_accuracy_score);
          ("accuracy", accuracy_score);
          ("confusion_matrix", confusion_matrix);
          ("classification_report", classification_report)]).

Definition no_baseline_message : string :=
  "No baseline value was provided to the class and a baseline evaluation was called. Either set a baseline value or pass baseline_prediction=False to evaluate_predictions method.".

(** The first statement of [evaluate_predictions]: which value is scored. *)
Definition select_prediction (self : Experiment) (predictions : pyobj)
    (baseline_prediction : bool) : M pyobj :=
  if baseline_prediction then
    b <- ExperimentBase.get_baseline_value self ;;
    t <- lift (truth_value b) ;;
    if negb t then raise (ValueError no_baseline_message)
    else ret b
  else ret predictions.

(** The body of the loop over [self.metric_dict.items()]. *)
Definition score_metric (labels evaluation_prediction class_probabilities
    : pyobj) (name : string) (m : metric) (result_dict : dict pyobj)
  : M (dict pyobj) :=
  if contains "f1" name then
    macro <- lift (m labels evaluation_prediction (Some "macro")) ;;
    let result_dict := dict_set (name ++ "_macro") macro result_dict in
    micro <- lift (m labels evaluation_prediction (Some "micro")) ;;
    let result_dict := dict_set (name ++ "_micro") micro result_dict in
    weighted <- lift (m labels evaluation_prediction (Some "weighted")) ;;
    ret (dict_set (name ++ "_weighted") weighted result_dict)
  else
    except_ValueError
      (score <- lift (m labels evaluation_prediction None) ;;
       ret (dict_set name score result_dict))
      (* See if we would succeed with using the class probabilities *)
      (except_ValueError
         (score <- lift (m labels class_probabilities None) ;;
          ret (dict_set name score result_dict))
         (print ("Unknown issues with the " ++ name
                 ++ " metric evaluation.") ;;;
          ret result_dict)).

Fixpoint score_metrics (labels evaluation_prediction class_probabilities
    : pyobj) (items : dict metric) (result_dict : dict pyobj)
  : M (dict pyobj) :=
  match items with
  | [] => ret result_dict
  | (name, m) :: rest =>
      result_dict <- score_metric labels evaluation_prediction
                       class_probabilities name m result_dict ;;
      score_metrics labels evaluation_prediction class_probabilities rest
        result_dict
  end.

Fixpoint print_scores (items : dict pyobj) : M unit :=
  match items with
  | [] => ret tt
  | (name, score) :: rest =>
      print (nl ++ "The " ++ name ++ " score is: " ++ nl ++ " "
             ++ py_str score ++ ".") ;;;
      print_scores rest
  end.

(** Evaluate all predictions, and return the results in a dict *)
Definition evaluate_predictions (self : Experiment)
    (labels predictions class_probabilities : pyobj)
    (baseline_prediction : bool) : M (dict pyobj) :=
  evaluation_prediction <-
    select_prediction self predictions baseline_prediction ;;
  (* First test the predictions in the metric dictionary... *)
  result_dict <- score_metrics labels evaluation_prediction
                   class_probabilities (metric_dict self) [] ;;
  print_scores result_dict ;;;
  ret result_dict.

(** The binary branch of [evaluate_roc_metrics]: the probability estimates
    correspond to the probability of the class with the greater label. *)
Definition roc_binary_branch (full_setup : ExperimentSetup)
    (class_probabilities : ndarray2) (model : estimator) : M (dict pyobj) :=
  logger_info "Computing the binary AU-ROC curve scores." ;;;
  y_score <- lift (nd_column 1 class_probabilities) ;;
  score <- lift (roc_auc_score (labels (test_data full_setup)) y_score) ;;
  let result_dict := dict_set "roc_auc_score" score [] in
  print (nl ++ "The ROC AUC score is: " ++ py_str score) ;;;
  perform (RocCurveDisplay_from_estimator model) ;;;
  lift (roc_curve_display model (obs (test_data full_setup))
          (labels (test_data full_setup))) ;;;
  perform RocCurveDisplay_plot ;;;
  perform plt_show ;;;
  ret result_dict.

(** The first loop of [plot_multiclass_roc]: the curve of every class, of
    its indicator column against its probability column, and the area
    under it. *)
Fixpoint class_curves (y_test_dummies class_probabilities : ndarray2)
    (classes : list nat)
  : py_result (list (list float64 * list float64 * float64)) :=
  match classes with
  | [] => Returned []
  | i :: rest =>
      match nd_column i y_test_dummies with
      | Raised e => Raised e
      | Returned y_i =>
          match nd_column i class_probabilities with
          | Raised e => Raised e
          | Returned p_i =>
              match roc_curve y_i p_i with
              | Raised e => Raised e
              | Returned (fpr, tpr) =>
                  match auc fpr tpr with
                  | Raised e => Raised e
                  | Returned roc_auc =>
                      match class_curves y_test_dummies class_probabilities
                              rest with
                      | Raised e => Raised e
                      | Returned curves =>
                          Returned ((fpr, tpr, roc_auc) :: curves)
                      end
                  end
              end
          end
      end
  end.

Definition curve_label (roc_auc : float64) (i : nat) : string :=
  "ROC curve (area = " ++ round2_str roc_auc ++ ") for label " ++ nat_str i.

(** The second loop of [plot_multiclass_roc], from class [i] on. *)
Fixpoint plot_class_curves (i : nat)
    (curves : list (list float64 * list float64 * float64)) : M unit :=
  match curves with
  | [] => ret tt
  | (fpr, tpr, roc_auc) :: rest =>
      perform (ax_plot fpr tpr (curve_label roc_auc i)) ;;;
      plot_class_curves (S i) rest
  end.

(** [plot_multiclass_roc]; the method makes no use of [self]. *)
Definition plot_multiclass_roc (labels : pyobj)
    (class_probabilities : ndarray2) (fig_size : Z * Z) : M unit :=
  let class_count := ncols class_probabilities in
  (* First, calculate all of the explicit class roc curves... *)
  y_test_dummies <- lift (get_dummies labels) ;;
  curves <- lift (class_curves y_test_dummies class_probabilities
                    (seq 0 class_count)) ;;
  (* Construct all plots *)
  perform (plt_subplots fig_size) ;;;
  perform ax_plot_diagonal ;;;
  perform ax_set_xlim ;;;
  perform ax_set_ylim ;;;
  perform (ax_set_xlabel "False Positive Rate") ;;;
  perform (ax_set_ylabel "True Positive Rate") ;;;
  perform (ax_set_title "Receiver operating characteristic evaluation") ;;;
  plot_class_curves 0 curves ;;;
  perform ax_legend ;;;
  perform ax_grid ;;;
  perform sns_despine ;;;
  perform plt_show.

(** The multiclass branch of [evaluate_roc_metrics]. *)
Definition roc_multiclass_branch (full_setup : ExperimentSetup)
    (class_probabilities : ndarray2) : M (dict pyobj) :=
  logger_info "Computing the multi-class AU-ROC curve scores." ;;;
  score <- lift (roc_auc_score_ovr_weighted
                   (labels (test_data full_setup)) class_probabilities) ;;
  let result_dict := dict_set "roc_auc_score" score [] in
  print (nl ++ "The multi-class weighted ROC AUC score is: "
         ++ py_str score) ;;;
  plot_multiclass_roc (labels (test_data full_setup)) class_probabilities
    (8, 8)%Z ;;;
  ret result_dict.

Definition one_record_message (class_probabilities : ndarray2) : string :=
  "The class_probabilities passed to evaluate_roc_metrics is only 1 record class_probabilities.shape = "
  ++ shape_str class_probabilities.

(** Perform any roc metric evaluation here.  [len(class_probabilities[0])]
    is the second dimension of the array. *)
Definition evaluate_roc_metrics (self : Experiment)
    (full_setup : ExperimentSetup) (class_probabilities : ndarray2)
    (model : estimator) : M (dict pyobj) :=
  (* First, check that there are more than 1 predictions *)
  if Nat.leb (nd_len class_probabilities) 1 then
    raise (ValueError (one_record_message class_probabilities))
  else
    (* Need to determine if using a multiclass or binary classification
       experiment *)
    if Nat.leb (ncols class_probabilities) 2 then
      roc_binary_branch full_setup class_probabilities model
    else
      roc_multiclass_branch full_setup class_probabilities.

End Methods.
End ClassifierExperimentBase.

Module RegressionExperimentBase.
Section Methods.
Context `{External} `{SklearnRegression}.

Definition __init__
    (train_setup test_setup : MLSetup)
    (cv_split_count : Z) (rnd_int : Z)
    (model_dir : option dir_arg)
    (model_storage_function model_loading_function : option string)
    (model_tag process_tag : string) : M Experiment :=
  self <- ExperimentBase.__init__ train_setup test_setup cv_split_count
            rnd_int model_dir model_storage_function
            model_loading_function model_tag process_tag ;;
  let self := ExperimentBase.set_baseline_value self PyNone in
  let self := ExperimentBase.set_standard_metric self
                "neg_root_mean_squared_error" in
  ret (ExperimentBase.set_metric_dict self
         [("mse", mean_squared_error);
          ("mae", mean_absolute_error)]).

Definition no_baseline_message : string :=
  "No baseline value was provided to the class and a baseline evaluation was called. Either set a baseline value or pass baseline_prediction=False to evaluate_predictions method.".

Definition select_prediction (self : Experiment) (predictions : pyobj)
    (baseline_prediction : bool) : M pyobj :=
  if baseline_prediction then
    b <- ExperimentBase.get_baseline_value self ;;
    t <- lift (truth_value b) ;;
    if negb t then raise (ValueError no_baseline_message)
    else ret b
  else ret predictions.

(** The loop over [self.metric_dict.items()]. *)
Fixpoint score_metrics (labels evaluation_prediction : pyobj)
    (items : dict metric) (result_dict : dict pyobj) : M (dict pyobj) :=
  match items with
  | [] => ret result_dict
  | (name, m) :: rest =>
      score <- lift (m labels evaluation_prediction None) ;;
      let result_dict := dict_set name score result_dict in
      print (nl ++ "The " ++ name ++ " is: " ++ py_str score) ;;;
      score_metrics labels evaluation_prediction rest result_dict
  end.

(** Evaluate all predictions, and return the results in a dict *)
Definition evaluate_predictions (self : Experiment)
    (labels predictions class_probabilities : pyobj)
    (baseline_prediction : bool) : M (dict pyobj) :=
  evaluation_prediction <-
    select_prediction self predictions baseline_prediction ;;
  (* First test the predictions in the metric dictionary... *)
  score_metrics labels evaluation_prediction (metric_dict self) [].

End Methods.
End RegressionExperimentBase.

(** ** A concrete instance of the collaborators

    Small stand-ins on which the definitions above can be run: a linear
    congruential generator in the place of numpy's, a split that rotates the
    row indices by the number drawn, and scoring functions with fixed
    outcomes. *)

Module Sample.

Definition lcg_next (s : Z) : Z := (141 * s + 3) mod 256.

Definition py_len (x : pyobj) : nat :=
  match x with
  | PyList xs => List.length xs
  | PyArray xs => List.length xs
  | PyStr s => String.length s
  | _ => 0
  end.

Definition rotate (k : nat) (l : list nat) : list nat :=
  skipn k l ++ firstn k l.

(** A shuffle split without stratification: two fifths of the rows, taken
    after a rotation by the number drawn, are the validation part. *)
Definition rotate_split (s : Z) (ts : float64) (y : pyobj) : fold * Z :=
  let n := py_len y in
  let s' := lcg_next s in
  let rows := rotate (Z.to_nat (s' mod Z.of_nat n)) (seq 0 n) in
  let n_test := (2 * n + 4) / 5 in
  ((skipn n_test rows, firstn n_test rows), s').

(** ... which refuses labels of fewer than two rows. *)
Definition checked_rotate_split (s : Z) (ts : float64) (y : pyobj)
  : py_result (fold * Z) :=
  if Nat.ltb (py_len y) 2 then
    Raised (ValueError "The least populated class in y has only 1 member")
  else Returned (rotate_split s ts y).

Definition constant_metric (v : pyobj) : metric := fun _ _ _ => Returned v.

Definition failing_metric (e : exn) : metric := fun _ _ _ => Raised e.

(** A metric that accepts a list of probability rows only. *)
Definition probability_metric (v : pyobj) : metric :=
  fun _ prediction _ =>
    match prediction with
    | PyList (PyList _ :: _) => Returned v
    | _ => Raised (ValueError "y_pred must hold probabilities")
    end.

Definition external : External :=
  {| table := unit;
     estimator := unit;
     has_save_model := fun _ => false;
     has_load_model := fun _ => false;
     RandomState := Z;
     RandomState_seed := fun seed => seed;
     shuffle_split := checked_rotate_split;
     py_str := fun _ => "<value>";
     callable_str := fun name => ("<function " ++ name ++ ">")%string;
     estimator_str := fun _ => "Model()";
     sys_path_last := "/usr/lib/python3/site-packages";
     param_space := unit;
     custom_result := fun _ m => Returned m;
     native_load_result := fun m _ => Returned (Some m);
     joblib_load_result := fun _ => Returned (Some tt);
     search_result := fun _ m _ _ _ _ _ _ => Returned (m, "report");
     roc_auc_score := fun _ scores =>
       Returned (PyFloat (hd (S754_zero false) scores));
     roc_auc_score_ovr_weighted :=
       fun _ _ => Returned (PyFloat (S754_zero false));
     roc_curve_display := fun _ _ _ => Returned tt;
     get_dummies := fun _ =>
       Returned {| nd_rows := [[S754_zero false; S754_zero false;
                                S754_zero false]];
                   ncols := 3 |};
     roc_curve := fun y_true y_score => Returned (y_true, y_score);
     auc := fun _ _ => Returned (S754_zero false);
     round2_str := fun _ => "0.0";
     f1_score := constant_metric (PyFloat (S754_zero false));
     log_loss := probability_metric (PyFloat (S754_zero false));
     balanced_accuracy_score := constant_metric (PyFloat (S754_zero false));
     accuracy_score := constant_metric (PyFloat (S754_zero false));
     confusion_matrix := constant_metric (PyList []);
     classification_report := constant_metric (PyStr "report") |}.

Definition empty_world : @world external :=
  @Build_world external [] [] [] [] [].

Definition setup : @MLSetup external :=
  @Build_MLSetup external tt
    (PyList [PyInt 0; PyInt 1; PyInt 0; PyInt 1; PyInt 0;
             PyInt 1; PyInt 0; PyInt 1; PyInt 0; PyInt 1]).

Definition full_setup : @ExperimentSetup external :=
  @Build_ExperimentSetup external setup setup.

(** Left-to-right summation, and the two regression metrics computed with
    it on arrays. *)
Definition sum_left (l : list float64) : float64 :=
  match l with
  | [] => Float64.pzero
  | x :: xs => fold_left Float64.add xs x
  end.

Definition not_finite_message : string :=
  "Input contains NaN, infinity or a value too large for dtype('float64').".

(** Both refuse, as scikit-learn does, input that holds a NaN or an
    infinity. *)
Definition mse_on_arrays : metric :=
  fun y_true y_pred _ =>
    match float_array y_true, float_array y_pred with
    | Some a, Some b =>
        if all_finite a && all_finite b then
          Returned (PyFloat (mean_with sum_left
                               [mean_with sum_left (squared_errors a b)]))
        else Raised (ValueError not_finite_message)
    | _, _ => Raised TypeError
    end.

Definition mae_on_arrays : metric :=
  fun y_true y_pred _ =>
    match float_array y_true, float_array y_pred with
    | Some a, Some b =>
        if all_finite a && all_finite b then
          Returned (PyFloat (mean_with sum_left
                               [mean_with sum_left (absolute_errors a b)]))
        else Raised (ValueError not_finite_message)
    | _, _ => Raised TypeError
    end.

(** A controller with a given registry, standard metric and baseline. *)
Definition controller (registry : dict metric) (standard : string)
    (baseline : pyobj) : @Experiment external :=
  @Build_Experiment external setup setup PyNone float_0_4 0 5 registry
    standard "_development" "_development"
    (Some default_store_model_method) (Some default_load_model_method)
    ["models"; "_development"] (Some baseline).

Definition one : float64 := S754_finite false 4503599627370496 (-52).
Definition half : float64 := S754_finite false 4503599627370496 (-53).

Definition probabilities : ndarray2 :=
  {| nd_rows := [[half; half]; [S754_zero false; one];
                 [one; S754_zero false]];
     ncols := 2 |}.

(** The same column 1 behind another column 0. *)
Definition other_probabilities : ndarray2 :=
  {| nd_rows := [[one; half]; [one; one]; [half; S754_zero false]];
     ncols := 2 |}.

Definition single_record : ndarray2 :=
  {| nd_rows := [[half; half]]; ncols := 2 |}.

Definition probability_rows : pyobj :=
  PyList [PyList [PyFloat half; PyFloat half];
          PyList [PyFloat one; PyFloat (S754_zero false)]].

Definition hard_labels : pyobj := PyList [PyInt 0; PyInt 1].

Definition sample_registry : dict metric :=
  [("f1", constant_metric (PyFloat one));
   ("log_loss", probability_metric (PyFloat half));
   ("broken", failing_metric (ValueError "unsupported target"));
   ("accuracy", constant_metric (PyFloat one))].

Definition ten_labels : pyobj := labels setup.

(** The controller the base constructor makes from [rnd_int=100] in the
    empty world, and the world it leaves. *)
Definition seeded : py_result (@Experiment external) * @world external :=
  @ExperimentBase.__init__ external setup setup 5 100 None None None
    "_development" "_development" empty_world.

Definition seeded_controller : @Experiment external :=
  match fst seeded with
  | Returned self => self
  | Raised _ => controller [] "" PyNone
  end.

Definition first_call : py_result (list fold) * @world external :=
  ExperimentBase.split (ExperimentBase.cv_splits seeded_controller 2)
    ten_labels (snd seeded).

Definition second_call : py_result (list fold) * @world external :=
  ExperimentBase.split (ExperimentBase.cv_splits seeded_controller 2)
    ten_labels (snd first_call).

(** The interface of the regression metrics, met by left-to-right sums. *)
Definition regression : SklearnRegression.
Proof.
  refine {| np_sum := sum_left;
            mean_squared_error := mse_on_arrays;
            mean_absolute_error := mae_on_arrays;
            np_sum_reduces := _;
            mean_squared_error_spec := _;
            mean_absolute_error_spec := _ |}.
  2, 3: (intros y_true y_pred a b Ha Hb _ _ Hfa Hfb;
         unfold mse_on_arrays, mae_on_arrays;
         rewrite Ha, Hb, Hfa, Hfb; reflexivity).
  assert (Hfold : forall xs acc a,
             reduces_to acc a ->
             reduces_to (acc ++ xs) (fold_left Float64.add xs a)).
  { induction xs as [|x xs IH]; intros acc a Ha; cbn.
    - now rewrite app_nil_r.
    - change (x :: xs) with ([x] ++ xs). rewrite app_assoc. apply IH.
      apply reduce_add with acc [x];
        [reflexivity | assumption | constructor]. }
  intros [|x xs] Hne; [congruence|]. cbn.
  apply (Hfold xs [x]). constructor.
Defined.

(** The mapping and the world an evaluation returns. *)
Definition returned_mapping
    (res : py_result (dict pyobj) * @world external) : dict pyobj :=
  match fst res with Returned r => r | Raised _ => [] end.

Definition returns_mapping (o : py_result (dict pyobj)) : bool :=
  match o with Returned _ => true | Raised _ => false end.

Definition sample_evaluation : py_result (dict pyobj) * @world external :=
  @ClassifierExperimentBase.evaluate_predictions external
    (controller sample_registry "f1_macro" PyNone)
    hard_labels hard_labels probability_rows false empty_world.

(** Two metrics, one named as the macro average of the other. *)
Definition clashing_registry : dict metric :=
  [("f1", constant_metric (PyFloat one));
   ("f1_macro", constant_metric (PyFloat half))].

Definition clashing_evaluation : py_result (dict pyobj) * @world external :=
  @ClassifierExperimentBase.evaluate_predictions external
    (controller clashing_registry "f1_macro" PyNone)
    hard_labels hard_labels probability_rows false empty_world.

End Sample.

(** ** Functions used to state the properties *)

Section Statements.
Context `{External}.
Variables labels ep probs : pyobj.

(** The keys under which a registered name can register results. *)
Definition f1_keys (name : string) : list string :=
  [(name ++ "_macro")%string; (name ++ "_micro")%string;
   (name ++ "_weighted")%string].

Definition written_keys (name : string) : list string :=
  if contains "f1" name then f1_keys name else [name].

Definition unknown_issues (name : string) : string :=
  ("Unknown issues with the " ++ name ++ " metric evaluation.")%string.

(** What one iteration of the loop assigns to [result_dict] and prints,
    read off the metric's outcomes. *)
Definition metric_writes (name : string) (m : metric)
  : py_result (list (string * pyobj) * list string) :=
  if contains "f1" name then
    match m labels ep (Some "macro") with
    | Raised e => Raised e
    | Returned macro =>
        match m labels ep (Some "micro") with
        | Raised e => Raised e
        | Returned micro =>
            match m labels ep (Some "weighted") with
            | Raised e => Raised e
            | Returned weighted =>
                Returned ([((name ++ "_macro")%string, macro);
                           ((name ++ "_micro")%string, micro);
                           ((name ++ "_weighted")%string, weighted)], [])
            end
        end
    end
  else
    match m labels ep None with
    | Returned score => Returned ([(name, score)], [])
    | Raised e =>
        if is_ValueError e then
          match m labels probs None with
          | Returned score => Returned ([(name, score)], [])
          | Raised e' =>
              if is_ValueError e' then Returned ([], [unknown_issues name])
              else Raised e'
          end
        else Raised e
    end.

Definition add_stdout (out : list string) (w : world) : world :=
  {| stdout := stdout w ++ out; logged := logged w; heap := heap w;
     dirs := dirs w; effects := effects w |}.

(** The assignments and the printed lines of the whole loop, up to the
    first metric that raises. *)
Fixpoint loop_writes (items : dict metric)
  : py_result (list (string * pyobj)) * list string :=
  match items with
  | [] => (Returned [], [])
  | (name, m) :: rest =>
      match metric_writes name m with
      | Raised e => (Raised e, [])
      | Returned (ws, out) =>
          let (r, out') := loop_writes rest in
          (match r with
           | Returned ws' => Returned (ws ++ ws')
           | Raised e => Raised e
           end, out ++ out')
      end
  end.

Definition returns (r : py_result pyobj) : bool :=
  match r with Returned _ => true | Raised _ => false end.

(** An outcome that is a result or a value-domain failure. *)
Definition value_domain (r : py_result pyobj) : bool :=
  match r with Returned _ => true | Raised e => is_ValueError e end.

(** A registry entry whose scoring calls raise nothing but [ValueError],
    and, where the name contains "f1" and the calls are not guarded,
    nothing at all. *)
Definition well_behaved (item : string * metric) : bool :=
  let (name, m) := item in
  if contains "f1" name then
    returns (m labels ep (Some "macro"))
    && returns (m labels ep (Some "micro"))
    && returns (m labels ep (Some "weighted"))
  else
    value_domain (m labels ep None) && value_domain (m labels probs None).

Definition score_line (item : string * pyobj) : string :=
  (nl ++ "The " ++ fst item ++ " score is: " ++ nl ++ " "
   ++ py_str (snd item) ++ ".")%string.

End Statements.

Definition all_pzero (l : list float64) : Prop :=
  Forall (fun x => x = Float64.pzero) l.

(** ** Functions used to state the further properties *)

Section MoreStatements.
Context `{External}.

(** The directory [__init__] starts from: the argument, or
    [sys.path[-1] / ".models"] when it is [None] or the empty string. *)
Definition resolved_base (dir : option dir_arg) : Path :=
  match dir with
  | Some (DirStr s) =>
      if String.eqb s "" then
        Path_div (Path_of_str sys_path_last) ".models"
      else Path_of_str s
  | Some (DirPath p) => p
  | None => Path_div (Path_of_str sys_path_last) ".models"
  end.

Definition dir_exists (p : Path) (w : world) : bool :=
  existsb (fun q => if list_eq_dec string_dec p q then true else false)
    (dirs w).

(** The file [default_store_model] writes and the call that writes it. *)
Definition store_path (self : Experiment) (model : estimator) : Path :=
  Path_div (model_dir self)
    (model_tag self ++ (if has_save_model model then ".json" else ".joblib")).

Definition store_effect (self : Experiment) (model : estimator) : effect :=
  if has_save_model model then save_model_native model (store_path self model)
  else joblib_dump model (store_path self model).

(** The file [default_load_model] reads and the call that reads it. *)
Definition load_path (self : Experiment) (model : option estimator) : Path :=
  Path_div (model_dir self)
    (model_tag self
     ++ match model with
        | Some m => if has_load_model m then ".json" else ".joblib"
        | None => ".joblib"
        end).

Definition load_effect (self : Experiment) (model : option estimator)
  : effect :=
  match model with
  | Some m =>
      if has_load_model m then load_model_native m (load_path self model)
      else joblib_load (load_path self model)
  | None => joblib_load (load_path self model)
  end.

Definition add_logged (lines : list string) (w : world) : world :=
  {| stdout := stdout w; logged := logged w ++ lines; heap := heap w;
     dirs := dirs w; effects := effects w |}.

Definition add_effects (calls : list effect) (w : world) : world :=
  {| stdout := stdout w; logged := logged w; heap := heap w;
     dirs := dirs w; effects := effects w ++ calls |}.

(** The calls that draw the curves of the classes from [i] on, and the
    calls of one multiclass figure. *)
Fixpoint curve_calls (i : nat)
    (curves : list (list float64 * list float64 * float64)) : list effect :=
  match curves with
  | [] => []
  | (fpr, tpr, roc_auc) :: rest =>
      ax_plot fpr tpr (ClassifierExperimentBase.curve_label roc_auc i)
      :: curve_calls (S i) rest
  end.

Definition multiclass_figure (fig_size : Z * Z)
    (curves : list (list float64 * list float64 * float64)) : list effect :=
  [plt_subplots fig_size; ax_plot_diagonal; ax_set_xlim; ax_set_ylim;
   ax_set_xlabel "False Positive Rate"; ax_set_ylabel "True Positive Rate";
   ax_set_title "Receiver operating characteristic evaluation"]
  ++ curve_calls 0 curves
  ++ [ax_legend; ax_grid; sns_despine; plt_show].

(** The line the regression loop prints for a score. *)
Definition regression_line (item : string * pyobj) : string :=
  (nl ++ "The " ++ fst item ++ " is: " ++ py_str (snd item))%string.

(** The ways in which one iteration of the classifier loop lets an
    exception [e] out: an unguarded call of an "f1" entry raises it, or a
    guarded call raises it and it is no [ValueError]. *)
Definition aborts_with (labels ep probs : pyobj) (name : string)
    (m : metric) (e : exn) : Prop :=
  (contains "f1" name = true
   /\ (m labels ep (Some "macro") = Raised e
       \/ (returns (m labels ep (Some "macro")) = true
           /\ m labels ep (Some "micro") = Raised e)
       \/ (returns (m labels ep (Some "macro")) = true
           /\ returns (m labels ep (Some "micro")) = true
           /\ m labels ep (Some "weighted") = Raised e)))
  \/
  (contains "f1" name = false
   /\ is_ValueError e = false
   /\ (m labels ep None = Raised e
       \/ (exists msg, m labels ep None = Raised (ValueError msg)
                       /\ m labels probs None = Raised e))).

(** A diagnostic of the classifier loop for one of the given names. *)
Definition is_diagnostic (names : list string) (line : string) : Prop :=
  exists name, In name names /\ line = unknown_issues name.

(** A registry entry and the score its metric returns on the labels and
    the scored value, under the entry's name. *)
Definition scored_as (labels ep : pyobj) (item : string * metric)
    (res : string * pyobj) : Prop :=
  fst res = fst item /\ snd item labels ep None = Returned (snd res).

(** The search object [cv_search] builds for a strategy name. *)
Definition search_built (self : Experiment) (cv_model : string)
    (random_iterations : Z) : effect :=
  let cv := {| n_splits := cv_split_count self;
               test_size := test_cv_split self;
               random_state := RandomState_instance (rnd self) |} in
  if String.eqb cv_model "grid_search" then
    build_GridSearchCV (standard_metric self) cv
  else
    build_RandomizedSearchCV random_iterations (standard_metric self) cv.

End MoreStatements.

(** ** More concrete data *)

Module MoreSample.
Import Sample.

Definition model_ops : @ModelOps external :=
  @Build_ModelOps external (fun _ => true) (fun m _ _ => Returned m)
    (fun _ _ => Returned PyNone) (fun _ _ => Returned probabilities).

(** [sample_registry] with its first two entries exchanged. *)
Definition reordered_registry : dict metric :=
  [("log_loss", probability_metric (PyFloat half));
   ("f1", constant_metric (PyFloat one));
   ("broken", failing_metric (ValueError "unsupported target"));
   ("accuracy", constant_metric (PyFloat one))].

(** A registry whose second metric raises [TypeError]. *)
Definition aborting_registry : dict metric :=
  [("broken", failing_metric (ValueError "unsupported target"));
   ("report", failing_metric TypeError);
   ("accuracy", constant_metric (PyFloat one))].

Definition regression_registry : dict metric :=
  [("mse", constant_metric (PyFloat half));
   ("mae", constant_metric (PyFloat one))].

Definition failing_regression_registry : dict metric :=
  [("mse", constant_metric (PyFloat half));
   ("mape", failing_metric TypeError);
   ("mae", constant_metric (PyFloat one))].

Definition single_column : ndarray2 :=
  {| nd_rows := [[half]; [one]]; ncols := 1 |}.

Definition roc_evaluation : py_result (dict pyobj) * @world external :=
  @ClassifierExperimentBase.evaluate_roc_metrics external
    (controller [] "f1_macro" PyNone) full_setup probabilities tt
    empty_world.

Definition three_class_probabilities : ndarray2 :=
  {| nd_rows := [[half; half; S754_zero false];
                 [S754_zero false; one; S754_zero false]];
     ncols := 3 |}.

(** Four columns, for labels that have three indicator columns. *)
Definition wide_probabilities : ndarray2 :=
  {| nd_rows := [[half; half; S754_zero false; S754_zero false];
                 [S754_zero false; one; S754_zero false; S754_zero false]];
     ncols := 4 |}.

(** A second controller, made with the seed of [seeded] in the world that
    [seeded] left. *)
Definition second_seeded
  : py_result (@Experiment external) * @world external :=
  @ExperimentBase.__init__ external setup setup 5 100 None None None
    "_development" "_development" (snd seeded).

(** The controller the classifier constructor makes in the empty world. *)
Definition fresh_classifier_init
  : py_result (@Experiment external) * @world external :=
  @ClassifierExperimentBase.__init__ external setup setup 5 100 None None
    None "_development" "_development" empty_world.

Definition fresh_classifier : @Experiment external :=
  match fst fresh_classifier_init with
  | Returned self => self
  | Raised _ => controller [] "" PyNone
  end.

Definition fresh_evaluation : py_result (dict pyobj) * @world external :=
  @ClassifierExperimentBase.evaluate_predictions external fresh_classifier
    hard_labels hard_labels probability_rows false empty_world.

End MoreSample.

(** * Properties *)

(** ** The constructor and the model-IO slots *)

Section ConstructorFacts.
Context `{External}.

(** A seed that numpy refuses ends the constructor where the generator is
    made: nothing was logged or allocated, no controller exists. *)
Lemma base_init_refuses_seed (train test : MLSetup) (n seed : Z)
    (dir : option dir_arg) (storage loading : option string)
    (mtag ptag : string) (w : world) :
  seed_in_range seed = false ->
  ExperimentBase.__init__ train test n seed dir storage loading mtag ptag w
  = (Raised (ValueError seed_message), w).
Proof.
  intros Hseed. unfold ExperimentBase.__init__, bind, new_RandomState.
  now rewrite Hseed.
Qed.

(** With a seed numpy takes, [ExperimentBase.__init__] returns, whatever
    the other arguments. *)
Lemma base_init_returns (train test : MLSetup) (n seed : Z)
    (dir : option dir_arg) (storage loading : option string)
    (mtag ptag : string) (w : world) :
  seed_in_range seed = true ->
  exists self w',
    ExperimentBase.__init__ train test n seed dir storage loading mtag ptag w
    = (Returned self, w')
    /\ standard_metric self = ""
    /\ metric_dict self = []
    /\ baseline_value self = None
    /\ rnd self = List.length (heap w)
    /\ heap w' = heap w ++ [RandomState_seed seed]
    /\ load_model self
       = (if not_opt loading then Some default_load_model_method else None)
    /\ store_model self
       = (if not_opt loading
          then (if not_opt storage then Some default_store_model_method
                else option_map custom_function storage)
          else option_map custom_function loading).
Proof.
  intros Hseed.
  unfold ExperimentBase.__init__, bind, new_RandomState. rewrite Hseed.
  destruct storage as [g|], loading as [f|]; cbn [not_opt];
    unfold logger_info, ret; cbn [option_map fst snd];
    destruct (not_dir dir) eqn:Hd;
    try (destruct dir as [[s|p]|]; cbn in Hd; try discriminate);
    cbn; do 2 eexists; repeat split; reflexivity.
Qed.

(** C1, on the code: a custom loading function is assigned to
    [self.store_model], whatever storage function was given, and
    [self.load_model] is never assigned, so that calling the load strategy
    raises [AttributeError] and the custom loader runs when the store
    strategy is called.  This holds of every construction that returns: the
    one way in which the constructor does not return is a seed that numpy
    refuses, and then no controller exists. *)
Theorem init_binds_custom_loader_to_store_slot
    (train test : MLSetup) (n seed : Z) (dir : option dir_arg)
    (storage : option string) (loader : string) (mtag ptag : string)
    (w : world) :
  if seed_in_range seed then
    exists self w',
      ExperimentBase.__init__ train test n seed dir storage (Some loader)
        mtag ptag w = (Returned self, w')
      /\ store_model self = Some (custom_function loader)
      /\ load_model self = None
      /\ (forall m w1,
            ExperimentBase.call_load_model self m w1
            = (Raised (AttributeError "load_model"), w1))
      /\ (forall m w1,
            effects (snd (ExperimentBase.call_store_model self m w1))
            = effects w1 ++ [call_custom loader m])
  else
    ExperimentBase.__init__ train test n seed dir storage (Some loader)
      mtag ptag w = (Raised (ValueError seed_message), w).
Proof.
  destruct (seed_in_range seed) eqn:Hseed;
    [|now apply base_init_refuses_seed].
  destruct (base_init_returns train test n seed dir storage (Some loader)
              mtag ptag w Hseed)
    as (self & w' & Hinit & _ & _ & _ & _ & _ & Hload & Hstore).
  cbn in Hload, Hstore.
  exists self, w'. repeat split; try assumption.
  - intros m w1. unfold ExperimentBase.call_load_model. rewrite Hload.
    reflexivity.
  - intros m w1. unfold ExperimentBase.call_store_model. rewrite Hstore.
    cbn. unfold bind, perform, lift. cbn.
    destruct (custom_result loader m); reflexivity.
Qed.

(** When no loading function is given the two slots are resolved as
    documented: the store slot from the storage argument, the load slot with
    the default. *)
Lemma init_without_loader_keeps_slots_apart
    (train test : MLSetup) (n seed : Z) (dir : option dir_arg)
    (storage : option string) (mtag ptag : string) (w : world) :
  seed_in_range seed = true ->
  exists self w',
    ExperimentBase.__init__ train test n seed dir storage None mtag ptag w
    = (Returned self, w')
    /\ load_model self = Some default_load_model_method
    /\ store_model self
       = match storage with
         | Some g => Some (custom_function g)
         | None => Some default_store_model_method
         end.
Proof.
  intros Hseed.
  destruct (base_init_returns train test n seed dir storage None mtag ptag w
              Hseed)
    as (self & w' & Hinit & _ & _ & _ & _ & _ & Hload & Hstore).
  cbn in Hload, Hstore. exists self, w'.
  destruct storage; cbn in Hstore; auto.
Qed.

End ConstructorFacts.

Section SpecializationFacts.
Context `{External} `{SklearnRegression}.

Lemma classifier_init_returns (train test : MLSetup) (n seed : Z)
    (dir : option dir_arg) (storage loading : option string)
    (mtag ptag : string) (w : world) :
  seed_in_range seed = true ->
  exists self w',
    ClassifierExperimentBase.__init__ train test n seed dir storage loading
      mtag ptag w = (Returned self, w')
    /\ standard_metric self = "f1_macro"
    /\ baseline_value self = Some PyNone
    /\ metric_dict self
       = [("f1", f1_score); ("log_loss", log_loss);
          ("balanced_accuracy", balanced_accuracy_score);
          ("accuracy", accuracy_score);
          ("confusion_matrix", confusion_matrix);
          ("classification_report", classification_report)].
Proof.
  intros Hseed. unfold ClassifierExperimentBase.__init__, bind.
  destruct (base_init_returns train test n seed dir storage loading mtag
              ptag w Hseed) as (self & w' & -> & _).
  do 2 eexists. repeat split; reflexivity.
Qed.

Lemma regression_init_returns (train test : MLSetup) (n seed : Z)
    (dir : option dir_arg) (storage loading : option string)
    (mtag ptag : string) (w : world) :
  seed_in_range seed = true ->
  exists self w',
    RegressionExperimentBase.__init__ train test n seed dir storage loading
      mtag ptag w = (Returned self, w')
    /\ standard_metric self = "neg_root_mean_squared_error"
    /\ baseline_value self = Some PyNone
    /\ metric_dict self
       = [("mse", mean_squared_error); ("mae", mean_absolute_error)].
Proof.
  intros Hseed. unfold RegressionExperimentBase.__init__, bind.
  destruct (base_init_returns train test n seed dir storage loading mtag
              ptag w Hseed) as (self & w' & -> & _).
  do 2 eexists. repeat split; reflexivity.
Qed.

End SpecializationFacts.

(** ** Cross-validation search *)

Section SearchFacts.
Context `{External}.

(** The guard of [cv_search]. *)
Lemma cv_search_guard
    (self : Experiment) (data_setup : MLSetup) (ml_model : estimator)
    (parameters : param_space) (cv_model : string) (random_iterations : Z)
    (w : world) :
  String.eqb (standard_metric self) "" = true ->
  ExperimentBase.cv_search self data_setup ml_model parameters cv_model
    random_iterations w
  = (Raised (NotImplementedError ExperimentBase.no_standard_metric_message),
     w).
Proof.
  intros Hm. unfold ExperimentBase.cv_search. rewrite Hm. reflexivity.
Qed.

(** C8: on a controller whose [standard_metric] is the empty string,
    [cv_search] raises [NotImplementedError] at once: the world is returned
    as it was given, so no search object was built, no generator drawn from
    and nothing fitted. *)
Theorem cv_search_without_standard_metric_fails_fast
    (self : Experiment) (data_setup : MLSetup) (ml_model : estimator)
    (parameters : param_space) (cv_model : string) (random_iterations : Z)
    (w : world) :
  standard_metric self = "" ->
  ExperimentBase.cv_search self data_setup ml_model parameters cv_model
    random_iterations w
  = (Raised (NotImplementedError ExperimentBase.no_standard_metric_message),
     w).
Proof.
  intros Hm. unfold ExperimentBase.cv_search.
  replace (String.eqb (standard_metric self) "") with true
    by (symmetry; apply String.eqb_eq; exact Hm).
  reflexivity.
Qed.

(** A controller made by the base class constructor is such a controller. *)
Lemma cv_search_on_base_class_fails_fast
    (train test : MLSetup) (n seed : Z) (dir : option dir_arg)
    (storage loading : option string) (mtag ptag : string) (w0 : world) :
  seed_in_range seed = true ->
  exists self w1,
    ExperimentBase.__init__ train test n seed dir storage loading mtag ptag
      w0 = (Returned self, w1)
    /\ forall data_setup ml_model parameters cv_model random_iterations w,
         ExperimentBase.cv_search self data_setup ml_model parameters
           cv_model random_iterations w
         = (Raised (NotImplementedError
                      ExperimentBase.no_standard_metric_message), w).
Proof.
  intros Hseed.
  destruct (base_init_returns train test n seed dir storage loading mtag
              ptag w0 Hseed) as (self & w1 & Hinit & Hm & _).
  exists self, w1. split; [assumption|]. intros.
  apply cv_search_guard. now rewrite Hm.
Qed.

(** Splitting draws from a generator and does nothing else. *)
Lemma split_frame (cv : StratifiedShuffleSplit) (y : pyobj) (w : world) :
  stdout (snd (ExperimentBase.split cv y w)) = stdout w
  /\ logged (snd (ExperimentBase.split cv y w)) = logged w
  /\ dirs (snd (ExperimentBase.split cv y w)) = dirs w
  /\ effects (snd (ExperimentBase.split cv y w)) = effects w.
Proof.
  unfold ExperimentBase.split.
  destruct (random_state cv) as [seed|r].
  - destruct (seed_in_range seed); cbn; auto.
  - unfold bind, get_heap, set_heap, lift, raise.
    destruct (nth_error (heap w) r) as [s|]; [|cbn; auto].
    destruct (ExperimentBase.draw_folds _ s _ y) as [drawn s'].
    cbn. auto.
Qed.

(** With a standard metric set, the guard lets the call through: the search
    object is built first. *)
Lemma cv_search_first_effect
    (self : Experiment) (data_setup : MLSetup) (ml_model : estimator)
    (parameters : param_space) (cv_model : string) (random_iterations : Z)
    (w : world) :
  standard_metric self <> "" ->
  exists rest,
    effects (snd (ExperimentBase.cv_search self data_setup ml_model
                    parameters cv_model random_iterations w))
    = effects w ++ search_built self cv_model random_iterations :: rest.
Proof.
  intros Hm. unfold ExperimentBase.cv_search, search_built.
  destruct (String.eqb (standard_metric self) "") eqn:He.
  { apply String.eqb_eq in He. contradiction. }
  set (cv := ExperimentBase.cv_splits self (cv_split_count self)).
  change {| n_splits := cv_split_count self;
            test_size := test_cv_split self;
            random_state := RandomState_instance (rnd self) |} with cv.
  set (built := if String.eqb cv_model "grid_search"
                then build_GridSearchCV (standard_metric self) cv
                else build_RandomizedSearchCV random_iterations
                       (standard_metric self) cv).
  assert (Hbuild :
    (if String.eqb cv_model "grid_search"
     then perform (build_GridSearchCV (standard_metric self) cv)
     else perform (build_RandomizedSearchCV random_iterations
                     (standard_metric self) cv))
    = perform built).
  { unfold built. now destruct (String.eqb cv_model "grid_search"). }
  rewrite Hbuild. clearbody built. clear Hbuild.
  unfold bind at 1, perform at 1. unfold bind at 1, logger_info at 1.
  unfold bind at 1.
  match goal with
  | |- context [ExperimentBase.split cv ?y ?w1] =>
      pose proof (split_frame cv y w1) as (_ & _ & _ & Heff);
      destruct (ExperimentBase.split cv y w1) as [[folds|e] w2]
  end; cbn [snd effects] in Heff.
  - unfold bind, perform, lift, logger_info, ret.
    destruct (search_result _ ml_model parameters random_iterations
                (standard_metric self) folds (obs data_setup)
                (labels data_setup)) as [[m r]|ex];
      cbn; rewrite Heff, <- app_assoc; cbn; eauto.
  - cbn. rewrite Heff. eauto.
Qed.

(** With a standard metric set, the guard lets the call through: a search
    object is built first. *)
Lemma cv_search_with_standard_metric_builds_search
    (self : Experiment) (data_setup : MLSetup) (ml_model : estimator)
    (parameters : param_space) (cv_model : string) (random_iterations : Z)
    (w : world) :
  standard_metric self <> "" ->
  exists e rest,
    effects (snd (ExperimentBase.cv_search self data_setup ml_model
                    parameters cv_model random_iterations w))
    = effects w ++ e :: rest
    /\ (e = build_GridSearchCV (standard_metric self)
              (ExperimentBase.cv_splits self (cv_split_count self))
        \/ e = build_RandomizedSearchCV random_iterations
                 (standard_metric self)
                 (ExperimentBase.cv_splits self (cv_split_count self))).
Proof.
  intros Hm.
  destruct (cv_search_first_effect self data_setup ml_model parameters
              cv_model random_iterations w Hm) as (rest & Heff).
  exists (search_built self cv_model random_iterations), rest.
  split; [exact Heff|]. unfold search_built.
  destruct (String.eqb cv_model "grid_search"); auto.
Qed.

End SearchFacts.

(** ** ROC evaluation *)

Section RocFacts.
Context `{External}.

(** C6: an array of one record or fewer makes [evaluate_roc_metrics] raise
    its [ValueError] at once and return nothing; with more than one record
    the check passes and the call is the binary branch (second dimension at
    most 2) or the multiclass branch. *)
Theorem evaluate_roc_metrics_needs_more_than_one_record
    (self : Experiment) (full_setup : ExperimentSetup)
    (class_probabilities : ndarray2) (model : estimator) (w : world) :
  (nd_len class_probabilities <= 1 ->
   ClassifierExperimentBase.evaluate_roc_metrics self full_setup
     class_probabilities model w
   = (Raised (ValueError
                (ClassifierExperimentBase.one_record_message
                   class_probabilities)), w))
  /\
  (1 < nd_len class_probabilities ->
   ClassifierExperimentBase.evaluate_roc_metrics self full_setup
     class_probabilities model w
   = if Nat.leb (ncols class_probabilities) 2
     then ClassifierExperimentBase.roc_binary_branch full_setup
            class_probabilities model w
     else ClassifierExperimentBase.roc_multiclass_branch full_setup
            class_probabilities w).
Proof.
  unfold ClassifierExperimentBase.evaluate_roc_metrics. split; intros Hlen.
  - apply Nat.leb_le in Hlen. rewrite Hlen. reflexivity.
  - apply Nat.leb_gt in Hlen. rewrite Hlen.
    destruct (Nat.leb (ncols class_probabilities) 2); reflexivity.
Qed.

(** What the binary branch returns, when it returns. *)
Lemma roc_binary_branch_returned
    (full_setup : ExperimentSetup) (class_probabilities : ndarray2)
    (model : estimator) (w w' : world) (r : dict pyobj) :
  ClassifierExperimentBase.roc_binary_branch full_setup class_probabilities
    model w = (Returned r, w') ->
  exists y_score score,
    nd_column 1 class_probabilities = Returned y_score
    /\ roc_auc_score (labels (test_data full_setup)) y_score = Returned score
    /\ r = [("roc_auc_score", score)].
Proof.
  unfold ClassifierExperimentBase.roc_binary_branch, bind, logger_info, lift,
    print, perform, ret.
  destruct (nd_column 1 class_probabilities) as [y_score|e]; [|discriminate].
  destruct (roc_auc_score (labels (test_data full_setup)) y_score)
    as [score|e] eqn:Hscore; [|discriminate].
  destruct (roc_curve_display model (obs (test_data full_setup))
              (labels (test_data full_setup))); [|discriminate].
  intros Heq. inversion Heq. exists y_score, score. auto.
Qed.

(** C4: in the binary case (second dimension at most 2) the outcome of
    [evaluate_roc_metrics] is the same for two arrays of one shape that
    agree on column 1, whatever their columns 0 hold; a returned mapping is
    [roc_auc_score] of the true test labels and column 1; and the mapping is
    returned: with more than one record, a column 1 to take, and
    [roc_auc_score] and the display of the curve returning, the call returns
    that score under "roc_auc_score", having printed it and made the three
    calls that draw and show the curve. *)
Theorem binary_roc_auc_uses_column_one_only
    (self : Experiment) (full_setup : ExperimentSetup)
    (class_probabilities : ndarray2) (model : estimator) (w : world) :
  ncols class_probabilities <= 2 ->
  (forall other : ndarray2,
     nd_len other = nd_len class_probabilities ->
     ncols other = ncols class_probabilities ->
     nd_column 1 other = nd_column 1 class_probabilities ->
     ClassifierExperimentBase.evaluate_roc_metrics self full_setup other
       model w
     = ClassifierExperimentBase.evaluate_roc_metrics self full_setup
         class_probabilities model w)
  /\
  (forall r w',
     ClassifierExperimentBase.evaluate_roc_metrics self full_setup
       class_probabilities model w = (Returned r, w') ->
     exists y_score score,
       nd_column 1 class_probabilities = Returned y_score
       /\ roc_auc_score (labels (test_data full_setup)) y_score
          = Returned score
       /\ r = [("roc_auc_score", score)])
  /\
  (forall y_score score,
     1 < nd_len class_probabilities ->
     nd_column 1 class_probabilities = Returned y_score ->
     roc_auc_score (labels (test_data full_setup)) y_score = Returned score ->
     roc_curve_display model (obs (test_data full_setup))
       (labels (test_data full_setup)) = Returned tt ->
     ClassifierExperimentBase.evaluate_roc_metrics self full_setup
       class_probabilities model w
     = (Returned [("roc_auc_score", score)],
        {| stdout := stdout w
                     ++ [(nl ++ "The ROC AUC score is: "
                          ++ py_str score)%string];
           logged := logged w
                     ++ ["Computing the binary AU-ROC curve scores."];
           heap := heap w;
           dirs := dirs w;
           effects := effects w
                      ++ [RocCurveDisplay_from_estimator model;
                          RocCurveDisplay_plot; plt_show] |})).
Proof.
  intros Hw. apply Nat.leb_le in Hw. split; [|split].
  - intros other Hlen Hcols Hcol.
    unfold ClassifierExperimentBase.evaluate_roc_metrics,
      ClassifierExperimentBase.one_record_message, shape_str.
    rewrite Hlen, Hcols, Hw.
    destruct (Nat.leb (nd_len class_probabilities) 1); [reflexivity|].
    unfold ClassifierExperimentBase.roc_binary_branch, bind.
    cbn. unfold lift. rewrite Hcol. reflexivity.
  - intros r w'.
    unfold ClassifierExperimentBase.evaluate_roc_metrics. rewrite Hw.
    destruct (Nat.leb (nd_len class_probabilities) 1); [discriminate|].
    apply roc_binary_branch_returned.
  - intros y_score score Hlen Hcol Hscore Hdisplay.
    unfold ClassifierExperimentBase.evaluate_roc_metrics. rewrite Hw.
    apply Nat.leb_gt in Hlen. rewrite Hlen.
    unfold ClassifierExperimentBase.roc_binary_branch, bind, logger_info,
      lift, print, perform, ret.
    rewrite Hcol, Hscore. cbn. rewrite Hdisplay. cbn.
    rewrite <- !app_assoc. reflexivity.
Qed.

End RocFacts.

(** ** The baseline check of [evaluate_predictions] *)

Section BaselineFacts.
Context `{External} `{SklearnRegression}.

(** The two specializations select the scored value with the same
    statements. *)
Lemma select_prediction_same (self : Experiment) (predictions : pyobj)
    (baseline_prediction : bool) :
  RegressionExperimentBase.select_prediction self predictions
    baseline_prediction
  = ClassifierExperimentBase.select_prediction self predictions
      baseline_prediction.
Proof. reflexivity. Qed.

(** The selection reads the controller only: it leaves the world alone. *)
Lemma select_prediction_world (self : Experiment) (predictions : pyobj)
    (baseline_prediction : bool) (w : world) :
  snd (ClassifierExperimentBase.select_prediction self predictions
         baseline_prediction w) = w.
Proof.
  unfold ClassifierExperimentBase.select_prediction,
    ExperimentBase.get_baseline_value, bind, lift, raise, ret.
  destruct baseline_prediction; [|reflexivity].
  destruct (baseline_value self) as [b|]; [|reflexivity].
  destruct (truth_value b) as [[|]|]; reflexivity.
Qed.

(** A falsy baseline value makes the selection raise. *)
Lemma select_prediction_falsy (self : Experiment) (b predictions : pyobj)
    (w : world) :
  baseline_value self = Some b ->
  truth_value b = Returned false ->
  ClassifierExperimentBase.select_prediction self predictions true w
  = (Raised (ValueError ClassifierExperimentBase.no_baseline_message), w).
Proof.
  intros Hb Ht.
  unfold ClassifierExperimentBase.select_prediction,
    ExperimentBase.get_baseline_value, bind, lift.
  rewrite Hb. cbn. rewrite Ht. reflexivity.
Qed.

(** A truthy baseline value is the value selected. *)
Lemma select_prediction_truthy (self : Experiment) (b predictions : pyobj)
    (w : world) :
  baseline_value self = Some b ->
  truth_value b = Returned true ->
  ClassifierExperimentBase.select_prediction self predictions true w
  = (Returned b, w).
Proof.
  intros Hb Ht.
  unfold ClassifierExperimentBase.select_prediction,
    ExperimentBase.get_baseline_value, bind, lift.
  rewrite Hb. cbn. rewrite Ht. reflexivity.
Qed.

(** A falsy baseline makes both specializations raise at once. *)
Lemma falsy_baseline_raises
    (self : Experiment) (b labels predictions class_probabilities : pyobj)
    (w : world) :
  baseline_value self = Some b ->
  truth_value b = Returned false ->
  ClassifierExperimentBase.evaluate_predictions self labels predictions
    class_probabilities true w
  = (Raised (ValueError ClassifierExperimentBase.no_baseline_message), w)
  /\
  RegressionExperimentBase.evaluate_predictions self labels predictions
    class_probabilities true w
  = (Raised (ValueError RegressionExperimentBase.no_baseline_message), w).
Proof.
  intros Hb Ht. split.
  - unfold ClassifierExperimentBase.evaluate_predictions, bind.
    rewrite (select_prediction_falsy self predictions w Hb Ht). reflexivity.
  - unfold RegressionExperimentBase.evaluate_predictions, bind.
    rewrite select_prediction_same.
    rewrite (select_prediction_falsy self predictions w Hb Ht). reflexivity.
Qed.

(** C10: the baseline check tests the truth value of the configured
    baseline.  In both specializations, a call with
    [baseline_prediction=True] on a controller whose baseline value is
    configured (not [None]) but falsy, as the number 0 or an empty sequence
    are, raises the "no baseline" [ValueError], the world untouched. *)
Theorem falsy_baseline_raises_no_baseline_error
    (self : Experiment) (b labels predictions class_probabilities : pyobj)
    (w : world) :
  baseline_value self = Some b ->
  b <> PyNone ->
  truth_value b = Returned false ->
  ClassifierExperimentBase.evaluate_predictions self labels predictions
    class_probabilities true w
  = (Raised (ValueError ClassifierExperimentBase.no_baseline_message), w)
  /\
  RegressionExperimentBase.evaluate_predictions self labels predictions
    class_probabilities true w
  = (Raised (ValueError RegressionExperimentBase.no_baseline_message), w).
Proof.
  intros Hb _ Ht.
  assert (Hsel : forall no_baseline,
             (b <- ExperimentBase.get_baseline_value self ;;
              t <- lift (truth_value b) ;;
              if negb t then raise (ValueError no_baseline) else ret b) w
             = (Raised (ValueError no_baseline), w)).
  { intros no_baseline.
    unfold bind, ExperimentBase.get_baseline_value, lift.
    rewrite Hb. cbn. rewrite Ht. reflexivity. }
  split.
  - unfold ClassifierExperimentBase.evaluate_predictions,
      ClassifierExperimentBase.select_prediction.
    unfold bind at 1. now rewrite Hsel.
  - unfold RegressionExperimentBase.evaluate_predictions,
      RegressionExperimentBase.select_prediction.
    unfold bind at 1. now rewrite Hsel.
Qed.

(** The part of the baseline contract the code keeps: with no baseline
    configured (the [None] both constructors assign) the call fails before
    any metric is looked at. *)
Lemma no_baseline_fails_before_scoring
    (self : Experiment) (labels predictions class_probabilities : pyobj)
    (w : world) :
  baseline_value self = Some PyNone ->
  ClassifierExperimentBase.evaluate_predictions self labels predictions
    class_probabilities true w
  = (Raised (ValueError ClassifierExperimentBase.no_baseline_message), w)
  /\
  RegressionExperimentBase.evaluate_predictions self labels predictions
    class_probabilities true w
  = (Raised (ValueError RegressionExperimentBase.no_baseline_message), w).
Proof.
  intros Hb. now apply falsy_baseline_raises with PyNone.
Qed.

(** ... and a truthy baseline is scored in the place of the predictions. *)
Lemma truthy_baseline_is_scored
    (self : Experiment) (b labels predictions class_probabilities : pyobj)
    (w : world) :
  baseline_value self = Some b ->
  truth_value b = Returned true ->
  ClassifierExperimentBase.evaluate_predictions self labels predictions
    class_probabilities true w
  = ClassifierExperimentBase.evaluate_predictions self labels b
      class_probabilities false w
  /\
  RegressionExperimentBase.evaluate_predictions self labels predictions
    class_probabilities true w
  = RegressionExperimentBase.evaluate_predictions self labels b
      class_probabilities false w.
Proof.
  intros Hb Ht. split.
  - unfold ClassifierExperimentBase.evaluate_predictions, bind.
    rewrite (select_prediction_truthy self predictions w Hb Ht). reflexivity.
  - unfold RegressionExperimentBase.evaluate_predictions, bind.
    rewrite !select_prediction_same.
    rewrite (select_prediction_truthy self predictions w Hb Ht). reflexivity.
Qed.

(** C5, on the code: a configured baseline is not always the value scored.
    With the baseline set to the number 0 the call raises the "no baseline"
    error, and with it set to an array of two or more predictions the check
    itself raises numpy's "ambiguous truth value" error; in neither case is
    the baseline scored. *)
Theorem configured_baseline_can_be_rejected
    (self : Experiment) (labels predictions class_probabilities : pyobj)
    (x y : float64) (rest : list float64) (w : world) :
  (ClassifierExperimentBase.evaluate_predictions
     (ExperimentBase.set_baseline_value self (PyInt 0))
     labels predictions class_probabilities true w
   = (Raised (ValueError ClassifierExperimentBase.no_baseline_message), w)
   /\
   RegressionExperimentBase.evaluate_predictions
     (ExperimentBase.set_baseline_value self (PyInt 0))
     labels predictions class_probabilities true w
   = (Raised (ValueError RegressionExperimentBase.no_baseline_message), w))
  /\
  (exists msg,
     ClassifierExperimentBase.evaluate_predictions
       (ExperimentBase.set_baseline_value self (PyArray (x :: y :: rest)))
       labels predictions class_probabilities true w
     = (Raised (ValueError msg), w)
     /\
     RegressionExperimentBase.evaluate_predictions
       (ExperimentBase.set_baseline_value self (PyArray (x :: y :: rest)))
       labels predictions class_probabilities true w
     = (Raised (ValueError msg), w)).
Proof.
  split.
  - apply falsy_baseline_raises with (PyInt 0); reflexivity.
  - eexists. split; reflexivity.
Qed.

End BaselineFacts.

(** ** Strings and dictionaries *)

Section StringFacts.

Lemma length_append (a s : string) :
  String.length (a ++ s) = String.length a + String.length s.
Proof. induction a; cbn; congruence. Qed.

Lemma prefix_append (n a s : string) :
  String.prefix n a = true -> String.prefix n (a ++ s) = true.
Proof.
  revert a. induction n as [|c n IH]; intros a Hp;
    [destruct (a ++ s)%string; reflexivity|].
  destruct a as [|c' a]; cbn in Hp |- *; [discriminate|].
  destruct (ascii_dec c c'); [auto | discriminate].
Qed.

(** A name that contains a needle still contains it with a suffix added. *)
Lemma contains_append (n a s : string) :
  contains n a = true -> contains n (a ++ s) = true.
Proof.
  induction a as [|c a IH]; cbn [contains]; intros Hc.
  - destruct (String.prefix n "") eqn:Hp; [|discriminate].
    destruct n; [|discriminate]. destruct s; reflexivity.
  - destruct (String.prefix n (String c a)) eqn:Hp.
    + change (String c a ++ s)%string with (String c (a ++ s)).
      cbn [contains].
      change (String c (a ++ s)) with (String c a ++ s)%string.
      now rewrite (prefix_append _ _ s Hp).
    + change (String c a ++ s)%string with (String c (a ++ s)).
      cbn [contains].
      destruct (String.prefix n (String c (a ++ s))); auto.
Qed.

(** Two names with suffixes that agree: the shorter suffix ends the longer. *)
Lemma append_eq_suffix (a b s t : string) :
  (a ++ s = b ++ t)%string -> String.length s <= String.length t ->
  exists c, (t = c ++ s /\ a = b ++ c)%string.
Proof.
  revert a. induction b as [|y b IH]; intros a Heq Hlen.
  - exists a. cbn in Heq. auto.
  - destruct a as [|x a].
    + cbn in Heq. subst s. cbn in Hlen.
      rewrite length_append in Hlen. lia.
    + cbn in Heq. injection Heq as Hxy Heq.
      destruct (IH a Heq Hlen) as (c & Ht & Ha).
      exists c. cbn. subst. auto.
Qed.

Lemma append_nil_r (a : string) : (a ++ "")%string = a.
Proof. induction a; cbn; congruence. Qed.

Lemma append_same_length (a b s t : string) :
  (a ++ s = b ++ t)%string -> String.length s = String.length t ->
  a = b /\ s = t.
Proof.
  intros Heq Hlen.
  destruct (append_eq_suffix a b s t Heq) as (c & Ht & Ha); [lia|].
  assert (Hc : String.length c = 0).
  { rewrite Ht, length_append in Hlen. lia. }
  destruct c; [|discriminate]. cbn in Ht. rewrite append_nil_r in Ha. auto.
Qed.

Lemma macro_not_micro (a b : string) : (a ++ "_macro" <> b ++ "_micro")%string.
Proof.
  intros Heq. apply append_same_length in Heq; [|reflexivity].
  destruct Heq as [_ Heq]. discriminate.
Qed.

Lemma macro_not_weighted (a b : string) : (a ++ "_macro" <> b ++ "_weighted")%string.
Proof.
  intros Heq. apply append_eq_suffix in Heq; [|cbn; lia].
  destruct Heq as (c & Ht & _).
  destruct c as [|c1 [|c2 [|c3 [|c4 c]]]]; cbn in Ht; try congruence.
  apply (f_equal String.length) in Ht. cbn in Ht.
  rewrite length_append in Ht. cbn in Ht. lia.
Qed.

Lemma micro_not_weighted (a b : string) : (a ++ "_micro" <> b ++ "_weighted")%string.
Proof.
  intros Heq. apply append_eq_suffix in Heq; [|cbn; lia].
  destruct Heq as (c & Ht & _).
  destruct c as [|c1 [|c2 [|c3 [|c4 c]]]]; cbn in Ht; try congruence.
  apply (f_equal String.length) in Ht. cbn in Ht.
  rewrite length_append in Ht. cbn in Ht. lia.
Qed.

Lemma append_not_self (a s : string) : s <> "" -> (a <> a ++ s)%string.
Proof.
  intros Hs Heq. apply (f_equal String.length) in Heq.
  rewrite length_append in Heq. destruct s; [congruence|].
  cbn in Heq. lia.
Qed.

End StringFacts.

Section DictFacts.
Variable V : Type.

Lemma dict_get_set_eq (k : string) (v : V) (d : dict V) :
  dict_get k (dict_set k v d) = Some v.
Proof.
  induction d as [|[k' v'] d IH]; cbn.
  - now rewrite String.eqb_refl.
  - destruct (String.eqb k k') eqn:He; cbn; rewrite He; auto.
Qed.

Lemma dict_get_set_ne (k k' : string) (v : V) (d : dict V) :
  k <> k' -> dict_get k (dict_set k' v d) = dict_get k d.
Proof.
  intros Hne. induction d as [|[k0 v0] d IH]; cbn.
  - destruct (String.eqb k k') eqn:He; [|reflexivity].
    apply String.eqb_eq in He. contradiction.
  - destruct (String.eqb k' k0) eqn:He; cbn.
    + apply String.eqb_eq in He. subst k0.
      destruct (String.eqb k k') eqn:He'; [|reflexivity].
      apply String.eqb_eq in He'. contradiction.
    + destruct (String.eqb k k0); auto.
Qed.

(** The value a key holds after a sequence of assignments: the last one
    made to it, or the one it held. *)
Lemma dict_get_update_untouched (k : string) (ws : list (string * V))
    (d : dict V) :
  ~ In k (map fst ws) -> dict_get k (dict_update ws d) = dict_get k d.
Proof.
  revert d. induction ws as [|[k' v] ws IH]; intros d Hk; [reflexivity|].
  cbn in Hk |- *. unfold dict_update in IH. rewrite IH by tauto.
  apply dict_get_set_ne. intros ->. tauto.
Qed.

Lemma dict_update_app (ws1 ws2 : list (string * V)) (d : dict V) :
  dict_update (ws1 ++ ws2) d = dict_update ws2 (dict_update ws1 d).
Proof. unfold dict_update. apply fold_left_app. Qed.

Lemma dict_get_update_last (k : string) (v : V)
    (ws1 ws2 : list (string * V)) (d : dict V) :
  ~ In k (map fst ws2) ->
  dict_get k (dict_update (ws1 ++ (k, v) :: ws2) d) = Some v.
Proof.
  intros Hk. rewrite dict_update_app.
  change ((k, v) :: ws2) with ([(k, v)] ++ ws2). rewrite dict_update_app.
  rewrite dict_get_update_untouched by assumption.
  cbn. apply dict_get_set_eq.
Qed.

Lemma dict_get_in_keys (k : string) (d : dict V) :
  dict_get k d <> None <-> In k (keys d).
Proof.
  induction d as [|[k' v] d IH]; cbn.
  - tauto.
  - destruct (String.eqb k k') eqn:He.
    + apply String.eqb_eq in He. split; [auto | discriminate].
    + apply String.eqb_neq in He. rewrite IH. split; [auto|].
      intros [Hk|Hk]; [congruence | assumption].
Qed.

End DictFacts.

(** ** The metric loop of the classifier *)

Section ClassifierLoopFacts.
Context `{External}.
Variables labels ep probs : pyobj.

Lemma add_stdout_nil (w : world) : add_stdout [] w = w.
Proof. destruct w. unfold add_stdout. cbn. now rewrite app_nil_r. Qed.

Lemma add_stdout_app (o1 o2 : list string) (w : world) :
  add_stdout o2 (add_stdout o1 w) = add_stdout (o1 ++ o2) w.
Proof. unfold add_stdout. cbn. now rewrite app_assoc. Qed.

Lemma score_metric_writes (name : string) (m : metric) (d : dict pyobj)
    (w : world) :
  ClassifierExperimentBase.score_metric labels ep probs name m d w
  = match metric_writes labels ep probs name m with
    | Returned (ws, out) => (Returned (dict_update ws d), add_stdout out w)
    | Raised e => (Raised e, w)
    end.
Proof.
  unfold ClassifierExperimentBase.score_metric, metric_writes.
  destruct (contains "f1" name).
  - unfold bind, lift, ret.
    destruct (m labels ep (Some "macro")); [|reflexivity].
    destruct (m labels ep (Some "micro")); [|reflexivity].
    destruct (m labels ep (Some "weighted")); [|reflexivity].
    now rewrite add_stdout_nil.
  - unfold except_ValueError, bind, lift, ret, print.
    destruct (m labels ep None) as [v|e].
    { now rewrite add_stdout_nil. }
    destruct (is_ValueError e); [|reflexivity].
    destruct (m labels probs None) as [v|e'].
    { now rewrite add_stdout_nil. }
    destruct (is_ValueError e'); reflexivity.
Qed.

Lemma score_metrics_writes (items : dict metric) (d : dict pyobj)
    (w : world) :
  ClassifierExperimentBase.score_metrics labels ep probs items d w
  = (match fst (loop_writes labels ep probs items) with
     | Returned ws => Returned (dict_update ws d)
     | Raised e => Raised e
     end, add_stdout (snd (loop_writes labels ep probs items)) w).
Proof.
  revert d w. induction items as [|[name m] rest IH]; intros d w.
  - cbn. unfold ret. now rewrite add_stdout_nil.
  - cbn [ClassifierExperimentBase.score_metrics loop_writes].
    unfold bind. rewrite score_metric_writes.
    destruct (metric_writes labels ep probs name m) as [[ws out]|e].
    + rewrite IH. destruct (loop_writes labels ep probs rest) as [[ws'|e] out']; cbn.
      * now rewrite dict_update_app, add_stdout_app.
      * now rewrite add_stdout_app.
    + cbn. now rewrite add_stdout_nil.
Qed.

Lemma loop_writes_app (pre post : dict metric) (ws : list (string * pyobj))
    (out : list string) :
  loop_writes labels ep probs (pre ++ post) = (Returned ws, out) ->
  exists ws1 o1 ws2 o2,
    loop_writes labels ep probs pre = (Returned ws1, o1)
    /\ loop_writes labels ep probs post = (Returned ws2, o2)
    /\ ws = ws1 ++ ws2 /\ out = o1 ++ o2.
Proof.
  revert ws out. induction pre as [|[name m] pre IH]; intros ws out Hl.
  - cbn in Hl. exists [], [], ws, out. auto.
  - cbn in Hl |- *.
    destruct (metric_writes labels ep probs name m) as [[wsx ox]|e]; [|discriminate].
    destruct (loop_writes labels ep probs (pre ++ post)) as [[ws'|e] out'] eqn:Hrest;
      [|discriminate].
    injection Hl as <- <-.
    destruct (IH _ _ eq_refl) as (ws1 & o1 & ws2 & o2 & -> & Hpost & -> & ->).
    exists (wsx ++ ws1), (ox ++ o1), ws2, o2.
    rewrite !app_assoc. auto.
Qed.

(** An iteration only assigns to the keys of its metric's name. *)
Lemma metric_writes_keys (name : string) (m : metric)
    (ws : list (string * pyobj)) (out : list string) :
  metric_writes labels ep probs name m = Returned (ws, out) ->
  incl (map fst ws) (written_keys name).
Proof.
  unfold metric_writes, written_keys, f1_keys.
  destruct (contains "f1" name).
  - destruct (m labels ep (Some "macro")); [|discriminate].
    destruct (m labels ep (Some "micro")); [|discriminate].
    destruct (m labels ep (Some "weighted")); [|discriminate].
    intros Heq. injection Heq as <- <-. apply incl_refl.
  - destruct (m labels ep None) as [v|e].
    { intros Heq. injection Heq as <- <-. apply incl_refl. }
    destruct (is_ValueError e); [|discriminate].
    destruct (m labels probs None) as [v|e'].
    { intros Heq. injection Heq as <- <-. apply incl_refl. }
    destruct (is_ValueError e'); [|discriminate].
    intros Heq. injection Heq as <- <-. intros k [].
Qed.

Lemma loop_writes_keys (items : dict metric) (ws : list (string * pyobj))
    (out : list string) (k : string) :
  loop_writes labels ep probs items = (Returned ws, out) ->
  In k (map fst ws) ->
  exists name m, In (name, m) items /\ In k (written_keys name).
Proof.
  revert ws out. induction items as [|[name m] rest IH]; intros ws out Hl Hk.
  - cbn in Hl. injection Hl as <- <-. destruct Hk.
  - cbn in Hl.
    destruct (metric_writes labels ep probs name m) as [[wsx ox]|e] eqn:Hx; [|discriminate].
    destruct (loop_writes labels ep probs rest) as [[ws'|e] out'] eqn:Hrest; [|discriminate].
    injection Hl as <- <-. rewrite map_app, in_app_iff in Hk.
    destruct Hk as [Hk|Hk].
    + exists name, m. split; [now left|].
      now apply (metric_writes_keys _ _ Hx).
    + destruct (IH _ _ eq_refl Hk) as (n' & m' & Hin & Hw).
      exists n', m'. split; [now right | assumption].
Qed.

(** Two registered names never write to one key. *)
Lemma written_keys_disjoint (n n' k : string) :
  n <> n' -> In k (written_keys n) -> In k (written_keys n') -> False.
Proof.
  unfold written_keys, f1_keys. intros Hne.
  destruct (contains "f1" n) eqn:Hf, (contains "f1" n') eqn:Hf';
    cbn [In]; intros Hk Hk'.
  - destruct Hk as [<-|[<-|[<-|[]]]], Hk' as [Hk'|[Hk'|[Hk'|[]]]];
      try (apply append_same_length in Hk'; [|reflexivity];
           destruct Hk' as [Hk' _]; congruence);
      try (now apply macro_not_micro in Hk');
      try (symmetry in Hk'; now apply macro_not_micro in Hk');
      try (now apply macro_not_weighted in Hk');
      try (symmetry in Hk'; now apply macro_not_weighted in Hk');
      try (now apply micro_not_weighted in Hk');
      try (symmetry in Hk'; now apply micro_not_weighted in Hk').
  - destruct Hk' as [<-|[]].
    destruct Hk as [<-|[<-|[<-|[]]]];
      rewrite (contains_append _ _ _ Hf) in Hf'; discriminate.
  - destruct Hk as [<-|[]].
    destruct Hk' as [<-|[<-|[<-|[]]]];
      rewrite (contains_append _ _ _ Hf') in Hf; discriminate.
  - destruct Hk as [<-|[]], Hk' as [<-|[]]. congruence.
Qed.

End ClassifierLoopFacts.

Section ClassifierEvaluationFacts.
Context `{External}.
Variables labels ep probs : pyobj.

Lemma print_scores_lines (items : dict pyobj) (w : world) :
  ClassifierExperimentBase.print_scores items w
  = (Returned tt, add_stdout (map score_line items) w).
Proof.
  revert w. induction items as [|[name score] rest IH]; intros w.
  - cbn. unfold ret. now rewrite add_stdout_nil.
  - cbn [ClassifierExperimentBase.print_scores map]. unfold bind, print.
    rewrite IH.
    change (score_line (name, score) :: map score_line rest)
      with ([score_line (name, score)] ++ map score_line rest).
    rewrite <- add_stdout_app. reflexivity.
Qed.

(** [evaluate_predictions] in terms of the assignments of its loop. *)
Lemma evaluate_predictions_writes (self : Experiment) (predictions : pyobj)
    (baseline_prediction : bool) (w : world) :
  ClassifierExperimentBase.select_prediction self predictions
    baseline_prediction w = (Returned ep, w) ->
  ClassifierExperimentBase.evaluate_predictions self labels predictions
    probs baseline_prediction w
  = match fst (loop_writes labels ep probs (metric_dict self)) with
    | Returned ws =>
        (Returned (dict_update ws []),
         add_stdout (snd (loop_writes labels ep probs (metric_dict self))
                     ++ map score_line (dict_update ws [])) w)
    | Raised e =>
        (Raised e,
         add_stdout (snd (loop_writes labels ep probs (metric_dict self))) w)
    end.
Proof.
  intros Hsel. unfold ClassifierExperimentBase.evaluate_predictions.
  unfold bind at 1. rewrite Hsel.
  unfold bind at 1. rewrite score_metrics_writes.
  destruct (fst (loop_writes labels ep probs (metric_dict self)));
    [|reflexivity].
  unfold bind. rewrite print_scores_lines, add_stdout_app. reflexivity.
Qed.

Lemma well_behaved_writes (name : string) (m : metric) :
  well_behaved labels ep probs (name, m) = true ->
  exists ws out, metric_writes labels ep probs name m = Returned (ws, out).
Proof.
  unfold well_behaved, metric_writes.
  destruct (contains "f1" name).
  - destruct (m labels ep (Some "macro")); [|discriminate].
    destruct (m labels ep (Some "micro")); [|discriminate].
    destruct (m labels ep (Some "weighted")); [|discriminate].
    eauto.
  - destruct (m labels ep None) as [v|e]; [eauto|].
    cbn. destruct (is_ValueError e); [|discriminate].
    destruct (m labels probs None) as [v|e']; [eauto|].
    cbn. destruct (is_ValueError e'); [eauto | discriminate].
Qed.

(** A registry of well-behaved entries is scored to the end. *)
Lemma well_behaved_loop_returns (items : dict metric) :
  Forall (fun item => well_behaved labels ep probs item = true) items ->
  exists ws out, loop_writes labels ep probs items = (Returned ws, out).
Proof.
  induction 1 as [|[name m] rest Hx _ IH]; cbn.
  - eauto.
  - destruct (well_behaved_writes _ _ Hx) as (ws & out & ->).
    destruct IH as (ws' & out' & ->). eauto.
Qed.

(** The entry of a registered name splits the registry; by the uniqueness
    of keys, no entry after it writes to its keys. *)
Lemma registered_entry_writes (items : dict metric) (name : string)
    (m : metric) (ws : list (string * pyobj)) (out : list string) :
  NoDup (keys items) ->
  In (name, m) items ->
  loop_writes labels ep probs items = (Returned ws, out) ->
  exists ws1 wsx ws2 o1 ox o2,
    metric_writes labels ep probs name m = Returned (wsx, ox)
    /\ ws = ws1 ++ wsx ++ ws2
    /\ out = o1 ++ ox ++ o2
    /\ (forall k, In k (written_keys name) -> ~ In k (map fst ws1))
    /\ (forall k, In k (written_keys name) -> ~ In k (map fst ws2)).
Proof.
  intros Hnd Hin Hl.
  destruct (in_split _ _ Hin) as (pre & post & ->).
  unfold keys in Hnd. rewrite map_app in Hnd. cbn in Hnd.
  pose proof (NoDup_remove_2 _ _ _ Hnd) as Hfresh.
  rewrite in_app_iff in Hfresh.
  destruct (loop_writes_app _ _ _ _ _ Hl)
    as (ws1 & o1 & wsr & o_r & Hpre & Hrest & -> & ->).
  cbn in Hrest.
  destruct (metric_writes labels ep probs name m) as [[wsx ox]|e] eqn:Hx;
    [|discriminate].
  destruct (loop_writes labels ep probs post) as [[ws2|e] o2] eqn:Hpost;
    [|discriminate].
  injection Hrest as <- <-.
  exists ws1, wsx, ws2, o1, ox, o2. repeat split; try reflexivity.
  - intros k Hk Hk1.
    destruct (loop_writes_keys _ _ _ _ _ Hpre Hk1) as (n' & m' & Hin' & Hw').
    apply (@written_keys_disjoint name n' k);
      try assumption.
    intros ->. apply Hfresh. left.
    change n' with (fst (n', m')). now apply in_map.
  - intros k Hk Hk2.
    destruct (loop_writes_keys _ _ _ _ _ Hpost Hk2) as (n' & m' & Hin' & Hw').
    apply (@written_keys_disjoint name n' k);
      try assumption.
    intros ->. apply Hfresh. right.
    change n' with (fst (n', m')). now apply in_map.
Qed.

End ClassifierEvaluationFacts.

Section ClassifierTheorems.
Context `{External}.


(** The calls of an "f1" entry are not guarded: a [ValueError] of one of
    them ends the evaluation. *)
Lemma f1_failure_aborts_evaluation
    (self : Experiment) (labels predictions probs ep : pyobj)
    (baseline_prediction : bool) (w : world) (name : string) (m : metric)
    (rest : dict metric) (e : exn) :
  ClassifierExperimentBase.select_prediction self predictions
    baseline_prediction w = (Returned ep, w) ->
  metric_dict self = (name, m) :: rest ->
  contains "f1" name = true ->
  m labels ep (Some "macro") = Raised e ->
  ClassifierExperimentBase.evaluate_predictions self labels predictions
    probs baseline_prediction w = (Raised e, w).
Proof.
  intros Hsel Hreg Hf1 Hm.
  unfold ClassifierExperimentBase.evaluate_predictions.
  unfold bind at 1. rewrite Hsel, Hreg.
  cbn [ClassifierExperimentBase.score_metrics].
  unfold bind, ClassifierExperimentBase.score_metric, lift.
  now rewrite Hf1, Hm.
Qed.

(** C7 as the code has it: a registered metric whose name contains "f1"
    registers its macro, micro and weighted averages under the three
    suffixed names, which the returned mapping holds, and nothing under its
    own name; the mapping has no entry under that name unless the name is
    itself a suffixed name of another registered "f1" metric. *)
Theorem f1_metric_registers_three_averages
    (self : Experiment) (labels predictions probs ep : pyobj)
    (baseline_prediction : bool) (w w' : world) (r : dict pyobj)
    (name : string) (m : metric) :
  ClassifierExperimentBase.select_prediction self predictions
    baseline_prediction w = (Returned ep, w) ->
  NoDup (keys (metric_dict self)) ->
  In (name, m) (metric_dict self) ->
  contains "f1" name = true ->
  ClassifierExperimentBase.evaluate_predictions self labels predictions
    probs baseline_prediction w = (Returned r, w') ->
  exists macro micro weighted,
    m labels ep (Some "macro") = Returned macro
    /\ m labels ep (Some "micro") = Returned micro
    /\ m labels ep (Some "weighted") = Returned weighted
    /\ dict_get (name ++ "_macro") r = Some macro
    /\ dict_get (name ++ "_micro") r = Some micro
    /\ dict_get (name ++ "_weighted") r = Some weighted
    /\ (forall d w0,
          ClassifierExperimentBase.score_metric labels ep probs name m d w0
          = (Returned
               (dict_update [((name ++ "_macro")%string, macro);
                             ((name ++ "_micro")%string, micro);
                             ((name ++ "_weighted")%string, weighted)] d),
             w0))
    /\ ((forall other m', In (other, m') (metric_dict self) ->
           contains "f1" other = true -> ~ In name (f1_keys other)) ->
        dict_get name r = None).
Proof.
  intros Hsel Hnd Hin Hf1 Heval.
  rewrite (evaluate_predictions_writes labels probs self predictions
             baseline_prediction Hsel) in Heval.
  destruct (loop_writes labels ep probs (metric_dict self))
    as [[ws|e] out] eqn:Hloop; cbn [fst snd] in Heval; [|discriminate].
  injection Heval as <- <-.
  destruct (registered_entry_writes labels ep probs _ name m Hnd Hin Hloop)
    as (ws1 & wsx & ws2 & o1 & ox & o2 & Hx & Hws & -> & Hk1 & Hk2).
  assert (Hstep := fun d w0 => score_metric_writes labels ep probs name m d w0).
  unfold metric_writes in Hx. rewrite Hf1 in Hx.
  destruct (m labels ep (Some "macro")) as [macro|] eqn:Hmacro;
    [|discriminate].
  destruct (m labels ep (Some "micro")) as [micro|] eqn:Hmicro;
    [|discriminate].
  destruct (m labels ep (Some "weighted")) as [weighted|] eqn:Hweighted;
    [|discriminate].
  injection Hx as <- <-.
  assert (Hkeys : forall k, In k (f1_keys name) -> ~ In k (map fst ws2)).
  { intros k Hk. apply Hk2. unfold written_keys. now rewrite Hf1. }
  exists macro, micro, weighted. subst ws.
  repeat split; try reflexivity.
  - apply dict_get_update_last. cbn [map fst In app].
    intros [Hk|[Hk|Hk]].
    + symmetry in Hk. now apply macro_not_micro in Hk.
    + symmetry in Hk. now apply macro_not_weighted in Hk.
    + revert Hk. apply Hkeys. cbn. auto.
  - change (ws1 ++ [((name ++ "_macro")%string, macro);
                    ((name ++ "_micro")%string, micro);
                    ((name ++ "_weighted")%string, weighted)] ++ ws2)
      with (ws1 ++ [((name ++ "_macro")%string, macro)]
            ++ ((name ++ "_micro")%string, micro)
               :: ((name ++ "_weighted")%string, weighted) :: ws2).
    rewrite app_assoc. apply dict_get_update_last. cbn [map fst In].
    intros [Hk|Hk].
    + symmetry in Hk. now apply micro_not_weighted in Hk.
    + revert Hk. apply Hkeys. cbn. auto.
  - change (ws1 ++ [((name ++ "_macro")%string, macro);
                    ((name ++ "_micro")%string, micro);
                    ((name ++ "_weighted")%string, weighted)] ++ ws2)
      with (ws1 ++ [((name ++ "_macro")%string, macro);
                    ((name ++ "_micro")%string, micro)]
            ++ ((name ++ "_weighted")%string, weighted) :: ws2).
    rewrite app_assoc. apply dict_get_update_last.
    apply Hkeys. cbn. auto.
  - intros d w0. rewrite Hstep. unfold metric_writes.
    rewrite Hf1, Hmacro, Hmicro, Hweighted. now rewrite add_stdout_nil.
  - intros Hother.
    rewrite dict_get_update_untouched; [reflexivity|].
    intros Hk.
    destruct (loop_writes_keys _ _ _ _ _ Hloop Hk) as (n' & m' & Hin' & Hw').
    unfold written_keys in Hw'.
    destruct (contains "f1" n') eqn:Hf'.
    + exact (Hother n' m' Hin' Hf' Hw').
    + destruct Hw' as [->|[]]. congruence.
Qed.

End ClassifierTheorems.

(** ** Arithmetic on binary64 *)

Module Float64Facts.
Import Float64.

Lemma sub_diag x : is_finite x = true -> sub x x = pzero.
Proof.
  destruct x as [s|s| |s m e]; simpl; try discriminate; intros _.
  - destruct s; reflexivity.
  - unfold sub, SFsub. rewrite Z.sub_diag. reflexivity.
Qed.

(* shifting *)
Lemma iter_pos_shr_1_m p : forall mrs, (0 <= shr_m mrs)%Z ->
  shr_m (iter_pos shr_1 p mrs) = Z.shiftr (shr_m mrs) (Zpos p).
Proof.
  assert (H1 : forall mrs, (0 <= shr_m mrs)%Z -> shr_m (shr_1 mrs) = Z.div2 (shr_m mrs)).
  { intros [m r s]; simpl. destruct m as [|q|q]; simpl; try lia; destruct q; reflexivity. }
  assert (Hnn : forall mrs, (0 <= shr_m mrs)%Z -> (0 <= shr_m (shr_1 mrs))%Z).
  { intros mrs Hm. rewrite H1 by assumption. rewrite Z.div2_div. apply Z.div_pos; lia. }
  induction p; intros mrs Hm; cbn [iter_pos].
  - rewrite IHp, IHp, H1; auto.
    + rewrite Z.div2_spec. repeat (rewrite Z.shiftr_shiftr by lia).
      rewrite Pos2Z.inj_xI. f_equal. lia.
    + rewrite IHp by auto. apply Z.shiftr_nonneg. auto.
  - rewrite IHp, IHp; auto.
    rewrite IHp by auto. apply Z.shiftr_nonneg. auto.
  - rewrite H1 by auto. rewrite Z.div2_spec. reflexivity.
Qed.

Lemma digits2_log2 m : Zpos (digits2_pos m) = (Z.log2 (Zpos m) + 1)%Z.
Proof.
  induction m; cbn [digits2_pos].
  - rewrite Pos2Z.inj_succ, IHm. change (Zpos m~1) with (2 * Zpos m + 1)%Z.
    rewrite Z.log2_succ_double by lia. lia.
  - rewrite Pos2Z.inj_succ, IHm. change (Zpos m~0) with (2 * Zpos m)%Z.
    rewrite Z.log2_double by lia. lia.
  - reflexivity.
Qed.

(** Rounding a positive mantissa at an exponent no smaller than [emin]
    keeps it positive. *)
Lemma shr_fexp_pos m e l :
  (emin prec emax <= e)%Z ->
  let '(mrs, e') := shr_fexp prec emax (Zpos m) e l in
  (0 < shr_m mrs)%Z /\ (emin prec emax <= e')%Z.
Proof.
  intros He. unfold shr_fexp, shr.
  set (n := (fexp prec emax (Zdigits2 (Zpos m) + e) - e)%Z).
  assert (Hm0 : shr_m (shr_record_of_loc (Zpos m) l) = Zpos m).
  { destruct l as [|[| |]]; reflexivity. }
  destruct n as [|p|p] eqn:Hn.
  - rewrite Hm0. split; lia.
  - rewrite iter_pos_shr_1_m by (rewrite Hm0; lia). rewrite Hm0. split.
    + assert (Hlt : (Zpos p <= Z.log2 (Zpos m))%Z).
      { unfold n, fexp in Hn. cbn [Zdigits2] in Hn. rewrite digits2_log2 in Hn.
        unfold prec in *. lia. }
      assert (Hne : Z.shiftr (Zpos m) (Zpos p) <> 0%Z).
      { rewrite Z.shiftr_eq_0_iff. lia. }
      pose proof (Z.shiftr_nonneg (Zpos m) (Zpos p)). lia.
    + lia.
  - rewrite Hm0. split; lia.
Qed.

Lemma round_nearest_even_pos m l : (0 < m -> 0 < round_nearest_even m l)%Z.
Proof.
  intros Hm. destruct l as [|[| |]]; cbn [round_nearest_even]; try lia.
  destruct (Z.even m); lia.
Qed.

Lemma binary_round_aux_pos sx m e l :
  (emin prec emax <= e)%Z ->
  (exists m' e', binary_round_aux prec emax sx (Zpos m) e l = S754_finite sx m' e')
  \/ binary_round_aux prec emax sx (Zpos m) e l = S754_infinity sx.
Proof.
  intros He. unfold binary_round_aux.
  pose proof (shr_fexp_pos m l He) as H1.
  destruct (shr_fexp prec emax (Zpos m) e l) as [mrs' e'].
  destruct H1 as [Hm' He'].
  pose proof (round_nearest_even_pos (loc_of_shr_record mrs') Hm') as Hr.
  destruct (round_nearest_even (shr_m mrs') (loc_of_shr_record mrs')) as [|m2|m2]; try lia.
  pose proof (shr_fexp_pos m2 loc_Exact He') as H2.
  destruct (shr_fexp prec emax (Zpos m2) e' loc_Exact) as [mrs'' e''].
  destruct H2 as [Hm'' _].
  destruct (shr_m mrs'') as [|m3|m3]; try lia.
  destruct (Z.leb e'' (emax - prec)); eauto.
Qed.

Lemma of_nat_pos n : (0 < n)%nat ->
  (exists m e, of_nat n = S754_finite false m e) \/ of_nat n = S754_infinity false.
Proof.
  intros Hn. unfold of_nat. destruct (Z.of_nat n) as [|p|p] eqn:Hp; try lia.
  cbn [binary_normalize]. unfold binary_round.
  destruct (shl_align p 0 (fexp prec emax (Z.pos (digits2_pos p) + 0))) as [mz ez] eqn:Hs.
  apply binary_round_aux_pos.
  unfold shl_align in Hs.
  destruct (fexp prec emax (Z.pos (digits2_pos p) + 0) - 0)%Z eqn:Hd; inversion Hs; subst;
    unfold fexp, emin, prec, emax in *; lia.
Qed.

Lemma div_zero_of_nat n : (0 < n)%nat -> div pzero (of_nat n) = pzero.
Proof.
  intros Hn. destruct (of_nat_pos Hn) as [(m & e & ->)| ->]; reflexivity.
Qed.

Lemma mul_pzero : mul pzero pzero = pzero.
Proof. reflexivity. Qed.

Lemma abs_pzero : abs pzero = pzero.
Proof. reflexivity. Qed.

Lemma add_pzero : add pzero pzero = pzero.
Proof. reflexivity. Qed.

End Float64Facts.

(** ** The regression metrics on identical arrays *)

Section RegressionFacts.
Context `{External} `{SklearnRegression}.

Lemma squared_errors_self (ys : list float64) :
  all_finite ys = true -> all_pzero (squared_errors ys ys).
Proof.
  unfold all_pzero, squared_errors, all_finite.
  induction ys as [|y ys IH]; cbn; intros Hfin; [constructor|].
  apply andb_prop in Hfin. destruct Hfin as [Hy Hys].
  constructor; [|auto].
  rewrite (Float64Facts.sub_diag y Hy). reflexivity.
Qed.

Lemma absolute_errors_self (ys : list float64) :
  all_finite ys = true -> all_pzero (absolute_errors ys ys).
Proof.
  unfold all_pzero, absolute_errors, all_finite.
  induction ys as [|y ys IH]; cbn; intros Hfin; [constructor|].
  apply andb_prop in Hfin. destruct Hfin as [Hy Hys].
  constructor; [|auto].
  rewrite (Float64Facts.sub_diag y Hy). reflexivity.
Qed.

Lemma errors_length (ys : list float64) :
  List.length (squared_errors ys ys) = List.length ys
  /\ List.length (absolute_errors ys ys) = List.length ys.
Proof.
  unfold squared_errors, absolute_errors.
  rewrite !length_map, length_combine, Nat.min_id. auto.
Qed.

(** Zeros add up to zero, in whatever order. *)
Lemma reduces_to_pzero (l : list float64) (r : float64) :
  reduces_to l r -> all_pzero l -> r = Float64.pzero.
Proof.
  unfold all_pzero.
  induction 1 as [x|l l1 l2 a b Hp _ IH1 _ IH2]; intros Hz.
  - now inversion Hz.
  - apply (Permutation_Forall Hp) in Hz. apply Forall_app in Hz.
    destruct Hz as [Hz1 Hz2]. rewrite (IH1 Hz1), (IH2 Hz2). reflexivity.
Qed.

Lemma mean_of_zeros (l : list float64) :
  l <> [] -> all_pzero l -> mean_with np_sum l = Float64.pzero.
Proof.
  intros Hne Hz. unfold mean_with.
  rewrite (reduces_to_pzero (np_sum_reduces Hne) Hz).
  apply Float64Facts.div_zero_of_nat. destruct l; [congruence | cbn; lia].
Qed.

Lemma mean_of_mean_of_zeros (l : list float64) :
  l <> [] -> all_pzero l ->
  mean_with np_sum [mean_with np_sum l] = Float64.pzero.
Proof.
  intros Hne Hz. rewrite (mean_of_zeros Hne Hz).
  apply mean_of_zeros; [discriminate|]. repeat constructor.
Qed.

(** The regression loop never looks at [class_probabilities]. *)
Lemma regression_ignores_class_probabilities
    (self : Experiment) (labels predictions probs probs' : pyobj)
    (baseline_prediction : bool) (w : world) :
  RegressionExperimentBase.evaluate_predictions self labels predictions
    probs baseline_prediction w
  = RegressionExperimentBase.evaluate_predictions self labels predictions
      probs' baseline_prediction w.
Proof. reflexivity. Qed.

(** The two default metrics on a sequence and itself. *)
Lemma default_metrics_of_identical (labels : pyobj) (ys : list float64) :
  float_array labels = Some ys -> ys <> [] -> all_finite ys = true ->
  mean_squared_error labels labels None
  = Returned (PyFloat (S754_zero false))
  /\ mean_absolute_error labels labels None
     = Returned (PyFloat (S754_zero false)).
Proof.
  intros Hys Hne Hfin.
  rewrite (@mean_squared_error_spec _ labels labels ys ys Hys Hys eq_refl
             Hne Hfin Hfin).
  rewrite (@mean_absolute_error_spec _ labels labels ys ys Hys Hys eq_refl
             Hne Hfin Hfin).
  assert (Hsq : squared_errors ys ys <> []).
  { intros Heq. apply (f_equal (@List.length _)) in Heq.
    rewrite (proj1 (errors_length ys)) in Heq.
    destruct ys; [congruence | discriminate]. }
  assert (Hab : absolute_errors ys ys <> []).
  { intros Heq. apply (f_equal (@List.length _)) in Heq.
    rewrite (proj2 (errors_length ys)) in Heq.
    destruct ys; [congruence | discriminate]. }
  rewrite (mean_of_mean_of_zeros Hsq (squared_errors_self ys Hfin)).
  rewrite (mean_of_mean_of_zeros Hab (absolute_errors_self ys Hfin)).
  split; reflexivity.
Qed.

(** The evaluation on the registry of the regression constructor, read off
    the outcomes of its two metrics. *)
Lemma regression_default_evaluation
    (self : Experiment) (labels predictions probs : pyobj) (w : world) :
  metric_dict self
  = [("mse", mean_squared_error); ("mae", mean_absolute_error)] ->
  RegressionExperimentBase.evaluate_predictions self labels predictions
    probs false w
  = match mean_squared_error labels predictions None with
    | Raised e => (Raised e, w)
    | Returned mse =>
        match mean_absolute_error labels predictions None with
        | Raised e => (Raised e, add_stdout [regression_line ("mse", mse)] w)
        | Returned mae =>
            (Returned [("mse", mse); ("mae", mae)],
             add_stdout [regression_line ("mse", mse);
                         regression_line ("mae", mae)] w)
        end
    end.
Proof.
  intros Hreg.
  unfold RegressionExperimentBase.evaluate_predictions,
    RegressionExperimentBase.select_prediction, bind at 1, ret at 1.
  rewrite Hreg. cbn [RegressionExperimentBase.score_metrics].
  unfold bind, lift, print, ret, add_stdout, regression_line.
  destruct (mean_squared_error labels predictions None) as [mse|e];
    [|reflexivity].
  destruct (mean_absolute_error labels predictions None) as [mae|e]; cbn;
    [rewrite <- app_assoc|]; reflexivity.
Qed.


End RegressionFacts.

(** ** Split generators and the controller's random source *)

Section SplitFacts.
Context `{External}.

Lemma heap_store_lookup (r : nat) (s s0 : RandomState)
    (h : list RandomState) :
  nth_error h r = Some s0 -> nth_error (heap_store r s h) r = Some s.
Proof.
  revert r. induction h as [|x h IH]; intros [|r] Hr; cbn in *;
    try discriminate; auto.
Qed.

(** Every generator [cv_splits] returns refers to the one [RandomState]
    object of the controller. *)
Lemma cv_splits_random_state (self : Experiment) (n : Z) :
  random_state (ExperimentBase.cv_splits self n)
  = RandomState_instance (rnd self).
Proof. reflexivity. Qed.

(** Splitting with a generator on a [RandomState] object draws from the
    state the object is in and leaves it advanced. *)
Lemma split_on_instance (cv : StratifiedShuffleSplit) (r : nat)
    (y : pyobj) (s : RandomState) (w : world) :
  random_state cv = RandomState_instance r ->
  nth_error (heap w) r = Some s ->
  exists w',
    ExperimentBase.split cv y w
    = (fst (ExperimentBase.draw_folds (Z.to_nat (n_splits cv)) s
              (test_size cv) y), w')
    /\ nth_error (heap w') r
       = Some (snd (ExperimentBase.draw_folds (Z.to_nat (n_splits cv)) s
                      (test_size cv) y)).
Proof.
  intros Hrs Hs. unfold ExperimentBase.split. rewrite Hrs.
  unfold bind at 1, get_heap at 1. rewrite Hs.
  destruct (ExperimentBase.draw_folds _ s _ y) as [drawn s'].
  unfold bind, set_heap, lift. cbn.
  eexists. split; [reflexivity|]. cbn.
  now apply heap_store_lookup with s.
Qed.

(** Two generators obtained from one controller: the folds of the second
    are drawn from the state in which the first left the shared object, not
    from the seeded state again. *)
Lemma cv_splits_twice_continue_the_stream (self : Experiment) (n : Z)
    (y : pyobj) (s : RandomState) (w : world) :
  nth_error (heap w) (rnd self) = Some s ->
  let first := ExperimentBase.draw_folds (Z.to_nat n) s
                 (test_cv_split self) y in
  let second := ExperimentBase.draw_folds (Z.to_nat n) (snd first)
                  (test_cv_split self) y in
  exists w1 w2,
    ExperimentBase.split (ExperimentBase.cv_splits self n) y w
    = (fst first, w1)
    /\ ExperimentBase.split (ExperimentBase.cv_splits self n) y w1
       = (fst second, w2).
Proof.
  intros Hs first second.
  destruct (split_on_instance (ExperimentBase.cv_splits self n) y w
              (cv_splits_random_state self n) Hs) as (w1 & Hsplit1 & Hs1).
  destruct (split_on_instance (ExperimentBase.cv_splits self n) y w1
              (cv_splits_random_state self n) Hs1) as (w2 & Hsplit2 & _).
  exists w1, w2. split; assumption.
Qed.

(** A generator made with a seed draws the same folds at every call: what
    the docstring of [cv_splits] promises holds for seeds. *)
Lemma split_on_seed_is_reproducible (cv : StratifiedShuffleSplit)
    (seed : Z) (y : pyobj) (w w' : world) :
  random_state cv = RandomState_int seed ->
  fst (ExperimentBase.split cv y w) = fst (ExperimentBase.split cv y w').
Proof.
  intros Hrs. unfold ExperimentBase.split. rewrite Hrs.
  destruct (seed_in_range seed); reflexivity.
Qed.

End SplitFacts.

Module SampleFacts.
Import Sample.

Ltac distinct_keys :=
  repeat (constructor; [cbn; intuition discriminate|]); constructor.

Lemma sample_registry_keys : NoDup (keys sample_registry).
Proof. distinct_keys. Qed.

Lemma returned_evaluation (res : py_result (dict pyobj) * @world external) :
  returns_mapping (fst res) = true ->
  res = (Returned (returned_mapping res), snd res).
Proof.
  destruct res as [[r|e] w]; cbn; intros Hr; [reflexivity | discriminate].
Qed.

End SampleFacts.


(** ** Runs on the concrete instance *)

Module SampleRuns.
Import Sample.

(** C2, on the code: [cv_splits(2)] twice on one controller.  Both
    generators hold the controller's [RandomState] object; splitting the same
    ten labels with the first and then with the second gives different
    folds, the second continuing the stream of the first. *)
Theorem cv_splits_twice_yield_different_folds :
  fst seeded = Returned seeded_controller
  /\ ExperimentBase.cv_splits seeded_controller 2
     = {| n_splits := 2; test_size := float_0_4;
          random_state := RandomState_instance 0 |}
  /\ fst first_call
     = Returned [([7; 8; 9; 0; 1; 2], [3; 4; 5; 6]);
                 ([8; 9; 0; 1; 2; 3], [4; 5; 6; 7])]
  /\ fst second_call
     = Returned [([1; 2; 3; 4; 5; 6], [7; 8; 9; 0]);
                 ([0; 1; 2; 3; 4; 5], [6; 7; 8; 9])]
  /\ fst first_call <> fst second_call.
Proof.
  repeat split; try (vm_compute; reflexivity).
  vm_compute. discriminate.
Qed.

End SampleRuns.

(** ** The theorems at concrete inputs *)

Module Witnesses.
Import Sample SampleFacts.

(** The constructor at a custom loader and no storage function. *)
Example init_with_custom_loader :
  exists self w,
    @ExperimentBase.__init__ external setup setup 5 100 None None
      (Some "my_loader") "_development" "_development" empty_world
    = (Returned self, w)
    /\ store_model self = Some (custom_function "my_loader")
    /\ load_model self = None.
Proof.
  destruct (@base_init_returns external setup setup 5 100 None None
              (Some "my_loader") "_development" "_development" empty_world
              eq_refl)
    as (self & w & Hinit & _ & _ & _ & _ & _ & Hload & Hstore).
  exists self, w. auto.
Qed.

Lemma cv_search_without_standard_metric_witness :
  @ExperimentBase.cv_search external (controller [] "" PyNone) setup tt tt
    "grid_search" 5 empty_world
  = (Raised (NotImplementedError ExperimentBase.no_standard_metric_message),
     empty_world).
Proof.
  apply (@cv_search_without_standard_metric_fails_fast external
           (controller [] "" PyNone) setup tt tt "grid_search" 5 empty_world).
  reflexivity.
Defined.

Lemma evaluate_roc_metrics_record_count_witness :
  @ClassifierExperimentBase.evaluate_roc_metrics external
    (controller [] "f1_macro" PyNone) full_setup single_record tt empty_world
  = (Raised (ValueError
               "The class_probabilities passed to evaluate_roc_metrics is only 1 record class_probabilities.shape = (1, 2)"),
     empty_world)
  /\
  @ClassifierExperimentBase.evaluate_roc_metrics external
    (controller [] "f1_macro" PyNone) full_setup probabilities tt empty_world
  = @ClassifierExperimentBase.roc_binary_branch external full_setup
      probabilities tt empty_world.
Proof.
  split.
  - apply (proj1 (@evaluate_roc_metrics_needs_more_than_one_record external
                    (controller [] "f1_macro" PyNone) full_setup
                    single_record tt empty_world)).
    cbn. lia.
  - apply (proj2 (@evaluate_roc_metrics_needs_more_than_one_record external
                    (controller [] "f1_macro" PyNone) full_setup
                    probabilities tt empty_world)).
    cbn. lia.
Defined.

Lemma binary_roc_auc_column_one_witness :
  @ClassifierExperimentBase.evaluate_roc_metrics external
    (controller [] "f1_macro" PyNone) full_setup other_probabilities tt
    empty_world
  = @ClassifierExperimentBase.evaluate_roc_metrics external
      (controller [] "f1_macro" PyNone) full_setup probabilities tt
      empty_world
  /\ fst (@ClassifierExperimentBase.evaluate_roc_metrics external
            (controller [] "f1_macro" PyNone) full_setup probabilities tt
            empty_world)
     = Returned [("roc_auc_score", PyFloat half)]
  /\ effects
       (snd (@ClassifierExperimentBase.evaluate_roc_metrics external
               (controller [] "f1_macro" PyNone) full_setup probabilities tt
               empty_world))
     = [@RocCurveDisplay_from_estimator external tt; RocCurveDisplay_plot;
        plt_show].
Proof.
  destruct (@binary_roc_auc_uses_column_one_only external
              (controller [] "f1_macro" PyNone) full_setup probabilities
              tt empty_world (le_n 2)) as (Hsame & _ & Hreturns).
  split; [apply Hsame; reflexivity|].
  rewrite (Hreturns [half; one; S754_zero false] (PyFloat half)
             ltac:(cbn; lia) eq_refl eq_refl eq_refl).
  split; reflexivity.
Defined.

Lemma falsy_baseline_witness :
  @ClassifierExperimentBase.evaluate_predictions external
    (controller sample_registry "f1_macro" (PyInt 0))
    hard_labels hard_labels probability_rows true empty_world
  = (Raised (ValueError ClassifierExperimentBase.no_baseline_message),
     empty_world)
  /\
  @RegressionExperimentBase.evaluate_predictions external
    (controller [] "neg_root_mean_squared_error" (PyList []))
    hard_labels hard_labels PyNone true empty_world
  = (Raised (ValueError RegressionExperimentBase.no_baseline_message),
     empty_world).
Proof.
  split.
  - apply (proj1 (@falsy_baseline_raises_no_baseline_error external
                    (controller sample_registry "f1_macro" (PyInt 0))
                    (PyInt 0) hard_labels hard_labels probability_rows
                    empty_world eq_refl ltac:(discriminate) eq_refl)).
  - apply (proj2 (@falsy_baseline_raises_no_baseline_error external
                    (controller [] "neg_root_mean_squared_error" (PyList []))
                    (PyList []) hard_labels hard_labels PyNone
                    empty_world eq_refl ltac:(discriminate) eq_refl)).
Defined.


Lemma f1_metric_registers_three_averages_witness :
  exists r w',
    sample_evaluation = (Returned r, w')
    /\ dict_get "f1_macro" r = Some (PyFloat one)
    /\ dict_get "f1_micro" r = Some (PyFloat one)
    /\ dict_get "f1_weighted" r = Some (PyFloat one)
    /\ dict_get "f1" r = None.
Proof.
  assert (Heval : sample_evaluation
                  = (Returned (returned_mapping sample_evaluation),
                     snd sample_evaluation)).
  { vm_compute. reflexivity. }
  destruct (@f1_metric_registers_three_averages external
              (controller sample_registry "f1_macro" PyNone)
              hard_labels hard_labels probability_rows hard_labels false
              empty_world (snd sample_evaluation)
              (returned_mapping sample_evaluation) "f1"
              (constant_metric (PyFloat one))
              eq_refl sample_registry_keys ltac:(cbn; tauto) eq_refl Heval)
    as (macro & micro & weighted & Hmacro & Hmicro & Hweighted
        & Hgmacro & Hgmicro & Hgweighted & _ & Hown).
  exists (returned_mapping sample_evaluation), (snd sample_evaluation).
  injection Hmacro as <-. injection Hmicro as <-. injection Hweighted as <-.
  split; [exact Heval|].
  split; [exact Hgmacro|]. split; [exact Hgmicro|].
  split; [exact Hgweighted|].
  apply Hown. intros other m' Hin Hf1 Hk.
  cbn in Hin.
  destruct Hin as [Hin|[Hin|[Hin|[Hin|[]]]]]; injection Hin as <- <-;
    cbn in Hf1, Hk; try discriminate; intuition discriminate.
Defined.

(** C7 as stated fails: with "f1" and "f1_macro" both registered, the
    returned mapping has an entry under "f1_macro", the unsuffixed name of
    the second metric (the macro average of the first). *)
Lemma unsuffixed_f1_name_can_hold_a_result :
  ~ (forall (E : External) (self : Experiment)
            (labels predictions probs : pyobj) (w w' : world)
            (r : dict pyobj) (name : string) (m : metric),
       NoDup (keys (metric_dict self)) ->
       In (name, m) (metric_dict self) ->
       contains "f1" name = true ->
       ClassifierExperimentBase.evaluate_predictions self labels predictions
         probs false w = (Returned r, w') ->
       dict_get name r = None).
Proof.
  intros Hall.
  assert (Heval : clashing_evaluation
                  = (Returned (returned_mapping clashing_evaluation),
                     snd clashing_evaluation)).
  { vm_compute. reflexivity. }
  assert (Hkeys : NoDup (keys clashing_registry)) by distinct_keys.
  specialize (Hall external
                (controller clashing_registry "f1_macro" PyNone)
                hard_labels hard_labels probability_rows empty_world
                (snd clashing_evaluation)
                (returned_mapping clashing_evaluation) "f1_macro"
                (constant_metric (PyFloat half))
                Hkeys ltac:(cbn; tauto) eq_refl Heval).
  vm_compute in Hall. discriminate.
Qed.



End Witnesses.

(** * Further properties of the controller *)

(** ** The metric registry: [add_metric] and [remove_metric] *)

Section RegistryFacts.
Variable V : Type.

Lemma keys_dict_set_present (k : string) (v : V) (d : dict V) :
  In k (keys d) -> keys (dict_set k v d) = keys d.
Proof.
  induction d as [|[k' v'] d IH]; cbn; [tauto|]. intros Hin.
  destruct (String.eqb k k') eqn:He; cbn; [reflexivity|].
  apply String.eqb_neq in He. f_equal. apply IH.
  destruct Hin as [Hin|Hin]; [congruence | assumption].
Qed.

Lemma dict_set_absent (k : string) (v : V) (d : dict V) :
  ~ In k (keys d) -> dict_set k v d = d ++ [(k, v)].
Proof.
  induction d as [|[k' v'] d IH]; cbn; [reflexivity|]. intros Hin.
  destruct (String.eqb k k') eqn:He.
  - apply String.eqb_eq in He. subst. tauto.
  - f_equal. apply IH. tauto.
Qed.

Lemma keys_dict_set_unique (k : string) (v : V) (d : dict V) :
  NoDup (keys d) -> NoDup (keys (dict_set k v d)).
Proof.
  intros Hnd. destruct (in_dec string_dec k (keys d)) as [Hin|Hin].
  - now rewrite keys_dict_set_present.
  - rewrite dict_set_absent by assumption. unfold keys. rewrite map_app.
    cbn. apply NoDup_app; try assumption.
    + repeat constructor. intros [].
    + intros x Hx [<-|[]]. contradiction.
Qed.

Lemma dict_remove_absent (k : string) (d : dict V) :
  ~ In k (keys d) -> dict_remove k d = d.
Proof.
  induction d as [|[k' v'] d IH]; cbn; [reflexivity|]. intros Hin.
  destruct (String.eqb k k') eqn:He.
  - apply String.eqb_eq in He. subst. tauto.
  - f_equal. apply IH. tauto.
Qed.

Lemma keys_dict_remove_incl (k : string) (d : dict V) :
  incl (keys (dict_remove k d)) (keys d).
Proof.
  induction d as [|[k' v'] d IH]; cbn; [apply incl_refl|].
  destruct (String.eqb k k'); cbn.
  - apply incl_tl, incl_refl.
  - intros x [<-|Hx]; [now left | right; now apply IH].
Qed.

Lemma keys_dict_remove_unique (k : string) (d : dict V) :
  NoDup (keys d) -> NoDup (keys (dict_remove k d)).
Proof.
  induction d as [|[k' v'] d IH]; cbn; [auto|]. intros Hnd.
  inversion Hnd as [|? ? Hk' Hnd']; subst.
  destruct (String.eqb k k'); cbn; [assumption|].
  constructor; [|auto]. intros Hin. apply Hk'.
  now apply (keys_dict_remove_incl k d).
Qed.

Lemma dict_get_remove_other (k k' : string) (d : dict V) :
  k' <> k -> dict_get k' (dict_remove k d) = dict_get k' d.
Proof.
  intros Hne. induction d as [|[k0 v0] d IH]; cbn; [reflexivity|].
  destruct (String.eqb k k0) eqn:He; cbn.
  - apply String.eqb_eq in He. subst k0.
    destruct (String.eqb k' k) eqn:He'; [|reflexivity].
    apply String.eqb_eq in He'. contradiction.
  - now rewrite IH.
Qed.

Lemma dict_get_remove_same (k : string) (d : dict V) :
  NoDup (keys d) -> dict_get k (dict_remove k d) = None.
Proof.
  induction d as [|[k0 v0] d IH]; cbn; [reflexivity|]. intros Hnd.
  inversion Hnd as [|? ? Hk0 Hnd']; subst.
  destruct (String.eqb k k0) eqn:He; cbn.
  - apply String.eqb_eq in He. subst k0.
    destruct (dict_get k d) eqn:Hg; [|reflexivity].
    exfalso. apply Hk0. apply dict_get_in_keys. congruence.
  - rewrite He. auto.
Qed.

Lemma dict_remove_set_fresh (k : string) (v : V) (d : dict V) :
  ~ In k (keys d) -> dict_remove k (dict_set k v d) = d.
Proof.
  induction d as [|[k' v'] d IH]; cbn; intros Hin.
  - now rewrite String.eqb_refl.
  - destruct (String.eqb k k') eqn:He.
    + apply String.eqb_eq in He. subst. tauto.
    + cbn. rewrite He. f_equal. apply IH. tauto.
Qed.

End RegistryFacts.

Section RegistryTheorems.
Context `{External}.

Lemma set_metric_dict_same (self : Experiment) :
  ExperimentBase.set_metric_dict self (metric_dict self) = self.
Proof. destruct self. reflexivity. Qed.

(** X1: after [add_metric(metric, name)] the registry holds that metric
    under that name, whatever it held there before, and what it holds under
    every other name is unchanged. *)
Theorem add_metric_registers_last_write
    (self : Experiment) (m : metric) (name : string) :
  dict_get name (metric_dict (ExperimentBase.add_metric self m name))
  = Some m
  /\ forall other,
       other <> name ->
       dict_get other (metric_dict (ExperimentBase.add_metric self m name))
       = dict_get other (metric_dict self).
Proof.
  split.
  - apply dict_get_set_eq.
  - intros other Hne. now apply dict_get_set_ne.
Qed.

(** X2: [add_metric] keeps the names of the registry unique and the order
    of iteration stable: a name already registered keeps its place, a new
    one goes last. *)
Theorem add_metric_keeps_names_unique_and_ordered
    (self : Experiment) (m : metric) (name : string) :
  NoDup (keys (metric_dict self)) ->
  NoDup (keys (metric_dict (ExperimentBase.add_metric self m name)))
  /\ (In name (keys (metric_dict self)) ->
      keys (metric_dict (ExperimentBase.add_metric self m name))
      = keys (metric_dict self))
  /\ (~ In name (keys (metric_dict self)) ->
      metric_dict (ExperimentBase.add_metric self m name)
      = metric_dict self ++ [(name, m)]).
Proof.
  intros Hnd. split; [|split].
  - now apply keys_dict_set_unique.
  - apply keys_dict_set_present.
  - apply dict_set_absent.
Qed.

(** X3: [remove_metric(name)] raises [KeyError] for a name that is not
    registered; for a registered name it returns a controller whose registry
    has lost that name, keeps every other entry and keeps names unique. *)
Theorem remove_metric_deletes_or_raises_KeyError
    (self : Experiment) (name : string) :
  NoDup (keys (metric_dict self)) ->
  (~ In name (keys (metric_dict self)) ->
   ExperimentBase.remove_metric self name = Raised (KeyError name))
  /\
  (In name (keys (metric_dict self)) ->
   exists self',
     ExperimentBase.remove_metric self name = Returned self'
     /\ dict_get name (metric_dict self') = None
     /\ NoDup (keys (metric_dict self'))
     /\ forall other,
          other <> name ->
          dict_get other (metric_dict self')
          = dict_get other (metric_dict self)).
Proof.
  intros Hnd. unfold ExperimentBase.remove_metric, dict_del. split.
  - intros Hin. destruct (dict_get name (metric_dict self)) eqn:Hg;
      [|reflexivity].
    exfalso. apply Hin. apply dict_get_in_keys. congruence.
  - intros Hin. apply dict_get_in_keys in Hin.
    destruct (dict_get name (metric_dict self)) eqn:Hg; [|congruence].
    eexists. split; [reflexivity|]. cbn. split; [|split].
    + now apply dict_get_remove_same.
    + now apply keys_dict_remove_unique.
    + intros other Hne. now apply dict_get_remove_other.
Qed.

(** X4: registering a metric under a name that is not in the registry and
    removing that name again gives the controller back as it was. *)
Theorem add_then_remove_metric_restores_controller
    (self : Experiment) (m : metric) (name : string) :
  ~ In name (keys (metric_dict self)) ->
  ExperimentBase.remove_metric (ExperimentBase.add_metric self m name) name
  = Returned self.
Proof.
  intros Hin. unfold ExperimentBase.remove_metric, dict_del,
    ExperimentBase.add_metric.
  cbn [metric_dict ExperimentBase.set_metric_dict].
  rewrite dict_get_set_eq, dict_remove_set_fresh by assumption.
  destruct self. reflexivity.
Qed.

End RegistryTheorems.

(** ** The model directory and the default persistence *)

Section PersistenceTheorems.
Context `{External}.

(** X5: the constructor returns exactly for the seeds numpy takes (0 to
    2**32 - 1).  Then, whatever directory argument is given, the
    controller's model directory is the resolved base with the process tag
    appended, [None] and the empty string both resolving to
    [sys.path[-1] / ".models"], and no directory was created and no
    collaborator called.  For any other seed it raises numpy's [ValueError]
    before anything is logged or assigned. *)
Theorem model_dir_is_base_under_process_tag
    (train test : MLSetup) (n seed : Z) (dir : option dir_arg)
    (storage loading : option string) (mtag ptag : string) (w : world) :
  if seed_in_range seed then
    exists self w',
      ExperimentBase.__init__ train test n seed dir storage loading mtag
        ptag w = (Returned self, w')
      /\ model_dir self = Path_div (resolved_base dir) ptag
      /\ process_tag self = ptag
      /\ model_tag self = mtag
      /\ dirs w' = dirs w
      /\ effects w' = effects w
  else
    ExperimentBase.__init__ train test n seed dir storage loading mtag
      ptag w = (Raised (ValueError seed_message), w).
Proof.
  destruct (seed_in_range seed) eqn:Hseed;
    [|now apply base_init_refuses_seed].
  unfold ExperimentBase.__init__, bind, new_RandomState. rewrite Hseed.
  destruct storage as [g|], loading as [f|]; cbn [not_opt];
    unfold logger_info, ret; cbn [option_map fst snd];
    destruct dir as [[s|p]|]; cbn [not_dir resolved_base];
    try (destruct (String.eqb s ""));
    cbn; do 2 eexists; repeat split; reflexivity.
Qed.

Lemma make_storage_dir_spec (self : Experiment) (w : world) :
  exists w',
    ExperimentBase.make_storage_dir self w = (Returned tt, w')
    /\ dir_exists (model_dir self) w' = true
    /\ effects w'
       = effects w ++ (if dir_exists (model_dir self) w then []
                       else [make_directory (model_dir self)])
    /\ stdout w' = stdout w /\ logged w' = logged w /\ heap w' = heap w.
Proof.
  unfold ExperimentBase.make_storage_dir, bind, is_dir.
  fold (dir_exists (model_dir self) w).
  destruct (dir_exists (model_dir self) w) eqn:Hd; cbn.
  - eexists. split; [reflexivity|]. rewrite app_nil_r. auto.
  - unfold perform, add_dir. cbn. eexists. split; [reflexivity|].
    repeat split; try reflexivity.
    unfold dir_exists. cbn. rewrite existsb_app. cbn.
    destruct (list_eq_dec string_dec (model_dir self) (model_dir self));
      [apply orb_true_r | congruence].
Qed.

(** X6: [default_store_model], the creation of the directory and the
    writing of the file taken as succeeding, returns, leaves the model
    directory in existence, calls [make_directory] only when the directory
    was missing, and then makes the one call that writes the model; storing
    again adds that one call only. *)
Theorem default_store_model_creates_directory_once
    (self : Experiment) (model : estimator) (w : world) :
  exists w1,
    ExperimentBase.default_store_model self model w = (Returned tt, w1)
    /\ dir_exists (model_dir self) w1 = true
    /\ effects w1
       = effects w
         ++ (if dir_exists (model_dir self) w then []
             else [make_directory (model_dir self)])
         ++ [store_effect self model]
    /\ forall model2,
         effects (snd (ExperimentBase.default_store_model self model2 w1))
         = effects w1 ++ [store_effect self model2].
Proof.
  assert (Hstore : forall m w0,
    exists w1,
      ExperimentBase.default_store_model self m w0 = (Returned tt, w1)
      /\ dir_exists (model_dir self) w1 = true
      /\ effects w1
         = effects w0
           ++ (if dir_exists (model_dir self) w0 then []
               else [make_directory (model_dir self)])
           ++ [store_effect self m]).
  { intros m w0. unfold ExperimentBase.default_store_model.
    destruct (make_storage_dir_spec self w0)
      as (w' & Hmk & Hex & Heff & _ & _ & _).
    unfold bind at 1. rewrite Hmk.
    unfold store_effect, store_path.
    destruct (has_save_model m);
      unfold bind, perform, ret, logger_info; cbn;
      (eexists; split; [reflexivity|]; cbn; split;
       [exact Hex | rewrite Heff; now rewrite app_assoc]). }
  destruct (Hstore model w) as (w1 & Hrun & Hex & Heff).
  exists w1. repeat split; try assumption.
  intros model2. destruct (Hstore model2 w1) as (w2 & Hrun2 & _ & Heff2).
  rewrite Hrun2. cbn [snd]. rewrite Heff2, Hex. reflexivity.
Qed.

Lemma append_inv_head (a s t : string) : (a ++ s = a ++ t)%string -> s = t.
Proof. induction a; cbn; intros Heq; [assumption|]. injection Heq. auto. Qed.

(** X7: [default_load_model] reads one file whatever happens next.  Given
    the model that was stored, it reads the file [default_store_model] wrote
    when the model has both or neither of its native save and load methods;
    called without a model, it reads the [.joblib] file, which is not the
    [.json] file written for a model with a native save method. *)
Theorem default_load_model_path_matches_store
    (self : Experiment) (model : estimator) (w : world) :
  (forall given,
     effects (snd (ExperimentBase.default_load_model self given w))
     = effects w ++ [load_effect self given])
  /\ (has_save_model model = has_load_model model ->
      load_path self (Some model) = store_path self model)
  /\ (has_save_model model = true ->
      load_path self None <> store_path self model).
Proof.
  split; [|split].
  - intros given. unfold ExperimentBase.default_load_model, load_effect,
      load_path.
    destruct given as [m|].
    + destruct (has_load_model m);
        unfold bind, logger_info, perform, lift, ret; cbn.
      * destruct (native_load_result m _); reflexivity.
      * destruct (joblib_load_result _); reflexivity.
    + unfold bind, logger_info, perform, lift, ret; cbn.
      destruct (joblib_load_result _); reflexivity.
  - intros Heq. unfold load_path, store_path. now rewrite Heq.
  - intros Hsave Heq. unfold load_path, store_path, Path_div in Heq.
    rewrite Hsave in Heq. apply app_inv_head in Heq.
    injection Heq as Heq. apply append_inv_head in Heq. discriminate.
Qed.

End PersistenceTheorems.

(** ** Training *)

Section TrainingTheorems.
Context `{External} `{!ModelOps}.

(** X8: without a parameter space ([None] or an empty one) [train_model]
    fits the model on the training data directly, on any controller, and
    logs "Model trained" only when the fit returned; with a parameter space
    it is [cv_search] followed by that log line, so that on a controller
    without a standard metric it raises [NotImplementedError] and leaves the
    world untouched. *)
Theorem train_model_fits_directly_or_searches
    (self : Experiment) (model : estimator) (full_setup : ExperimentSetup)
    (cv_model : string) (cv_iterations : Z) (params : option param_space)
    (w : world) :
  (ExperimentBase.params_given params = false ->
   ExperimentBase.train_model self model full_setup cv_model cv_iterations
     params w
   = match fit_result model (obs (train_data full_setup))
             (labels (train_data full_setup)) with
     | Returned fitted =>
         (Returned fitted,
          add_logged ["Performing standard model training."; "Model trained"]
            w)
     | Raised e =>
         (Raised e, add_logged ["Performing standard model training."] w)
     end)
  /\
  (forall p,
     params = Some p -> params_truthy p = true ->
     ExperimentBase.train_model self model full_setup cv_model cv_iterations
       params w
     = match ExperimentBase.cv_search self (train_data full_setup) model p
               cv_model cv_iterations w with
       | (Returned best, w') => (Returned best, add_logged ["Model trained"] w')
       | (Raised e, w') => (Raised e, w')
       end)
  /\
  (ExperimentBase.params_given params = true ->
   standard_metric self = "" ->
   ExperimentBase.train_model self model full_setup cv_model cv_iterations
     params w
   = (Raised (NotImplementedError ExperimentBase.no_standard_metric_message),
      w)).
Proof.
  unfold ExperimentBase.train_model, ExperimentBase.params_given.
  split; [|split].
  - intros Hp.
    assert (Hfit :
      (model0 <- (logger_info "Performing standard model training." ;;;
                  lift (fit_result model (obs (train_data full_setup))
                          (labels (train_data full_setup)))) ;;
       logger_info "Model trained" ;;; ret model0) w
      = match fit_result model (obs (train_data full_setup))
                (labels (train_data full_setup)) with
        | Returned fitted =>
            (Returned fitted,
             add_logged ["Performing standard model training.";
                         "Model trained"] w)
        | Raised e =>
            (Raised e, add_logged ["Performing standard model training."] w)
        end).
    { unfold bind, logger_info, lift, ret, add_logged. cbn.
      destruct (fit_result _ _ _); cbn; [|reflexivity].
      now rewrite <- app_assoc. }
    destruct params as [p|]; [rewrite Hp|]; exact Hfit.
  - intros p -> Hp. rewrite Hp. unfold bind at 1.
    destruct (ExperimentBase.cv_search _ _ _ _ _ _ w) as [[best|e] w'];
      reflexivity.
  - intros Hp Hm. destruct params as [p|]; [|discriminate]. rewrite Hp.
    unfold bind at 1, ExperimentBase.cv_search. rewrite Hm. reflexivity.
Qed.

End TrainingTheorems.

(** ** More on the evaluation of the classifier *)

Section DictUpdateFacts.
Variable V : Type.

Lemma dict_update_keys_unique (ws : list (string * V)) (d : dict V) :
  NoDup (keys d) -> NoDup (keys (dict_update ws d)).
Proof.
  revert d. induction ws as [|[k v] ws IH]; intros d Hnd; [assumption|].
  cbn. apply IH. now apply keys_dict_set_unique.
Qed.

Lemma dict_update_keys_origin (ws : list (string * V)) (d : dict V)
    (k : string) :
  In k (keys (dict_update ws d)) -> In k (keys d) \/ In k (map fst ws).
Proof.
  intros Hin. destruct (in_dec string_dec k (map fst ws)) as [Hw|Hw];
    [now right|].
  left. apply dict_get_in_keys. apply dict_get_in_keys in Hin.
  now rewrite dict_get_update_untouched in Hin.
Qed.

(** What a key holds after a sequence of assignments depends on the
    dictionary through that key only. *)
Lemma dict_get_update_congr (ws : list (string * V)) (d d' : dict V)
    (k : string) :
  dict_get k d = dict_get k d' ->
  dict_get k (dict_update ws d) = dict_get k (dict_update ws d').
Proof.
  revert d d'. induction ws as [|[k' v] ws IH]; intros d d' Heq;
    [assumption|].
  cbn. apply IH. destruct (string_dec k k') as [->|Hne].
  - now rewrite !dict_get_set_eq.
  - now rewrite !dict_get_set_ne.
Qed.

Lemma dict_update_fresh (ws : list (string * V)) (d : dict V) :
  NoDup (keys d ++ map fst ws) -> dict_update ws d = d ++ ws.
Proof.
  revert d. induction ws as [|[k v] ws IH]; intros d Hnd; cbn.
  - now rewrite app_nil_r.
  - cbn in Hnd. rewrite dict_set_absent.
    + change (dict_update ws (d ++ [(k, v)]) = d ++ [(k, v)] ++ ws).
      rewrite app_assoc. apply IH. unfold keys. rewrite map_app. cbn.
      rewrite <- app_assoc. exact Hnd.
    + apply NoDup_remove_2 in Hnd. rewrite in_app_iff in Hnd. tauto.
Qed.

End DictUpdateFacts.

Section ClassifierMoreFacts.
Context `{External}.

(** The selection of the scored value returns in the world it was given. *)
Lemma select_prediction_cases (self : Experiment) (predictions : pyobj)
    (baseline_prediction : bool) (w : world) :
  (exists ep,
     ClassifierExperimentBase.select_prediction self predictions
       baseline_prediction w = (Returned ep, w))
  \/ (exists e,
        ClassifierExperimentBase.select_prediction self predictions
          baseline_prediction w = (Raised e, w)).
Proof.
  pose proof (select_prediction_world self predictions baseline_prediction w)
    as Hw.
  destruct (ClassifierExperimentBase.select_prediction self predictions
              baseline_prediction w) as [[ep|e] w0].
  - cbn in Hw. subst. eauto.
  - cbn in Hw. subst. eauto.
Qed.

(** An evaluation that returned: the value scored, the assignments of the
    loop, its diagnostics, and the lines printed at the end. *)
Lemma evaluate_predictions_returned (self : Experiment)
    (labels predictions probs : pyobj) (baseline_prediction : bool)
    (w w' : world) (r : dict pyobj) :
  ClassifierExperimentBase.evaluate_predictions self labels predictions
    probs baseline_prediction w = (Returned r, w') ->
  exists ep ws out,
    ClassifierExperimentBase.select_prediction self predictions
      baseline_prediction w = (Returned ep, w)
    /\ loop_writes labels ep probs (metric_dict self) = (Returned ws, out)
    /\ r = dict_update ws []
    /\ w' = add_stdout (out ++ map score_line r) w.
Proof.
  intros Heval.
  destruct (select_prediction_cases self predictions baseline_prediction w)
    as [[ep Hsel]|[e Hsel]].
  - rewrite (evaluate_predictions_writes labels probs self predictions
               baseline_prediction Hsel) in Heval.
    destruct (loop_writes labels ep probs (metric_dict self))
      as [[ws|e] out] eqn:Hloop; cbn [fst snd] in Heval; [|discriminate].
    injection Heval as <- <-. exists ep, ws, out. auto.
  - unfold ClassifierExperimentBase.evaluate_predictions in Heval.
    unfold bind at 1 in Heval. rewrite Hsel in Heval. discriminate.
Qed.

(** The lines the loop prints are diagnostics of registered names. *)
Lemma loop_writes_diagnostics (labels ep probs : pyobj)
    (items : dict metric) :
  Forall (is_diagnostic (keys items))
    (snd (loop_writes labels ep probs items)).
Proof.
  induction items as [|[name m] rest IH]; cbn; [constructor|].
  assert (Hrest : Forall (is_diagnostic (name :: keys rest))
                    (snd (loop_writes labels ep probs rest))).
  { eapply Forall_impl; [|exact IH].
    intros line (n & Hn & ->). exists n. split; [now right | reflexivity]. }
  unfold metric_writes.
  destruct (contains "f1" name).
  - destruct (m labels ep (Some "macro")); [|constructor].
    destruct (m labels ep (Some "micro")); [|constructor].
    destruct (m labels ep (Some "weighted")); [|constructor].
    destruct (loop_writes labels ep probs rest) as [r out']. exact Hrest.
  - destruct (m labels ep None) as [v|e].
    { destruct (loop_writes labels ep probs rest) as [r out']. exact Hrest. }
    destruct (is_ValueError e); [|constructor].
    destruct (m labels probs None) as [v|e'].
    { destruct (loop_writes labels ep probs rest) as [r out']. exact Hrest. }
    destruct (is_ValueError e'); [|constructor].
    destruct (loop_writes labels ep probs rest) as [r out']. cbn.
    constructor; [|exact Hrest].
    exists name. split; [now left | reflexivity].
Qed.

(** X9: [evaluate_predictions] of the classifier only prints: whatever it
    is given and however it ends, the log, the random sources, the
    directories and the calls to collaborators are as they were. *)
Theorem classifier_evaluation_only_prints
    (self : Experiment) (labels predictions probs : pyobj)
    (baseline_prediction : bool) (w : world) :
  exists out,
    snd (ClassifierExperimentBase.evaluate_predictions self labels
           predictions probs baseline_prediction w)
    = add_stdout out w.
Proof.
  destruct (select_prediction_cases self predictions baseline_prediction w)
    as [[ep Hsel]|[e Hsel]].
  - rewrite (evaluate_predictions_writes labels probs self predictions
               baseline_prediction Hsel).
    destruct (fst (loop_writes labels ep probs (metric_dict self)));
      cbn [snd]; eauto.
  - exists []. unfold ClassifierExperimentBase.evaluate_predictions.
    unfold bind at 1. rewrite Hsel. cbn [snd].
    now rewrite add_stdout_nil.
Qed.

(** X10: the mapping [evaluate_predictions] of the classifier returns has
    no key twice, each of its keys is a suffixed name of a registered "f1"
    metric or the name of another registered metric, and what was printed is
    diagnostics of registered names followed by one score line for each
    entry of the mapping, in its order. *)
Theorem classifier_mapping_keys_and_output
    (self : Experiment) (labels predictions probs : pyobj)
    (baseline_prediction : bool) (w w' : world) (r : dict pyobj) :
  ClassifierExperimentBase.evaluate_predictions self labels predictions
    probs baseline_prediction w = (Returned r, w') ->
  NoDup (keys r)
  /\ (forall k, In k (keys r) ->
        exists name m,
          In (name, m) (metric_dict self) /\ In k (written_keys name))
  /\ exists diagnostics,
       stdout w' = stdout w ++ diagnostics ++ map score_line r
       /\ Forall (is_diagnostic (keys (metric_dict self))) diagnostics.
Proof.
  intros Heval.
  destruct (evaluate_predictions_returned _ _ _ _ _ _ Heval)
    as (ep & ws & out & Hsel & Hloop & -> & ->).
  split; [|split].
  - apply dict_update_keys_unique. constructor.
  - intros k Hk. apply dict_update_keys_origin in Hk.
    destruct Hk as [[]|Hk].
    exact (loop_writes_keys _ _ _ _ _ Hloop Hk).
  - exists out. split.
    + cbn. reflexivity.
    + pose proof (loop_writes_diagnostics labels ep probs (metric_dict self))
        as Hd.
      now rewrite Hloop in Hd.
Qed.

End ClassifierMoreFacts.

Section ClassifierOrderFacts.
Context `{External}.
Variables labels ep probs : pyobj.

Lemma loop_writes_returns_iff (items : dict metric) :
  (exists ws out, loop_writes labels ep probs items = (Returned ws, out))
  <-> Forall (fun item =>
                exists ws out,
                  metric_writes labels ep probs (fst item) (snd item)
                  = Returned (ws, out)) items.
Proof.
  induction items as [|[name m] rest IH]; cbn.
  - split; [constructor | eauto].
  - split.
    + intros (ws & out & Hl).
      destruct (metric_writes labels ep probs name m) as [[wsx ox]|e] eqn:Hx;
        [|discriminate].
      destruct (loop_writes labels ep probs rest) as [[ws'|e] out'];
        [|discriminate].
      constructor; [eauto|]. apply IH. eauto.
    + intros Hall. inversion Hall as [|? ? (wsx & ox & Hx) Hrest]; subst.
      cbn in Hx. rewrite Hx.
      apply IH in Hrest. destruct Hrest as (ws' & out' & ->). eauto.
Qed.

(** With unique names, what the mapping holds under a key of a registered
    entry is what that entry alone would have put there. *)
Lemma loop_lookup_of_entry (items : dict metric) (name : string) (m : metric)
    (ws wsx : list (string * pyobj)) (out ox : list string) (k : string) :
  NoDup (keys items) ->
  In (name, m) items ->
  loop_writes labels ep probs items = (Returned ws, out) ->
  metric_writes labels ep probs name m = Returned (wsx, ox) ->
  In k (written_keys name) ->
  dict_get k (dict_update ws []) = dict_get k (dict_update wsx []).
Proof.
  intros Hnd Hin Hloop Hx Hk.
  destruct (registered_entry_writes labels ep probs _ name m Hnd Hin Hloop)
    as (ws1 & wsx' & ws2 & o1 & ox' & o2 & Hx' & -> & _ & Hk1 & Hk2).
  rewrite Hx in Hx'. injection Hx' as <- <-.
  rewrite !dict_update_app.
  rewrite dict_get_update_untouched by (now apply Hk2).
  apply dict_get_update_congr.
  now rewrite dict_get_update_untouched by (now apply Hk1).
Qed.

Lemma loop_writes_raises (pre post : dict metric) (name : string)
    (m : metric) (e : exn) :
  Forall (fun item => well_behaved labels ep probs item = true) pre ->
  metric_writes labels ep probs name m = Raised e ->
  fst (loop_writes labels ep probs (pre ++ (name, m) :: post)) = Raised e
  /\ snd (loop_writes labels ep probs (pre ++ (name, m) :: post))
     = snd (loop_writes labels ep probs pre).
Proof.
  intros Hpre Hx. induction Hpre as [|[n0 m0] pre Hwb _ IH]; cbn.
  - now rewrite Hx.
  - destruct (well_behaved_writes _ _ _ _ _ Hwb) as (ws0 & o0 & ->).
    destruct IH as [IH1 IH2].
    destruct (loop_writes labels ep probs (pre ++ (name, m) :: post))
      as [r out'].
    destruct (loop_writes labels ep probs pre) as [r0 out0].
    cbn in IH1, IH2 |- *. subst. auto.
Qed.

Lemma aborts_with_raises (name : string) (m : metric) (e : exn) :
  aborts_with labels ep probs name m e ->
  metric_writes labels ep probs name m = Raised e.
Proof.
  unfold aborts_with, metric_writes.
  intros [(-> & Hf)|(-> & He & Hn)].
  - destruct Hf as [->|[(Hmacro & ->)|(Hmacro & Hmicro & ->)]].
    + reflexivity.
    + destruct (m labels ep (Some "macro")); [reflexivity|discriminate].
    + destruct (m labels ep (Some "macro")); [|discriminate].
      destruct (m labels ep (Some "micro")); [reflexivity|discriminate].
  - destruct Hn as [->|(msg & -> & ->)]; cbn; now rewrite He.
Qed.

End ClassifierOrderFacts.

Section ClassifierOrderTheorems.
Context `{External}.

(** X11: with unique names, the order in which the metrics were registered
    does not change any value of the returned mapping: an evaluation that
    returns on a controller returns on the controller with its registry in
    another order, and the two mappings hold the same under every key. *)
Theorem classifier_mapping_ignores_registration_order
    (self : Experiment) (reordered : dict metric)
    (labels predictions probs : pyobj) (baseline_prediction : bool)
    (w w' : world) (r : dict pyobj) :
  Permutation (metric_dict self) reordered ->
  NoDup (keys (metric_dict self)) ->
  ClassifierExperimentBase.evaluate_predictions self labels predictions
    probs baseline_prediction w = (Returned r, w') ->
  exists r' w'',
    ClassifierExperimentBase.evaluate_predictions
      (ExperimentBase.set_metric_dict self reordered) labels predictions
      probs baseline_prediction w = (Returned r', w'')
    /\ forall k, dict_get k r' = dict_get k r.
Proof.
  intros Hperm Hnd Heval.
  destruct (evaluate_predictions_returned _ _ _ _ _ _ Heval)
    as (ep & ws & out & Hsel & Hloop & -> & ->).
  assert (Hsel' : ClassifierExperimentBase.select_prediction
                    (ExperimentBase.set_metric_dict self reordered)
                    predictions baseline_prediction w = (Returned ep, w))
    by exact Hsel.
  assert (Hnd' : NoDup (keys reordered)).
  { unfold keys. eapply Permutation_NoDup; [|exact Hnd].
    now apply Permutation_map. }
  assert (Hall : exists ws' out',
             loop_writes labels ep probs reordered = (Returned ws', out')).
  { apply loop_writes_returns_iff.
    eapply Permutation_Forall; [exact Hperm|].
    apply loop_writes_returns_iff. eauto. }
  destruct Hall as (ws' & out' & Hloop').
  rewrite (evaluate_predictions_writes labels probs _ predictions
             baseline_prediction Hsel').
  cbn [metric_dict ExperimentBase.set_metric_dict]. rewrite Hloop'.
  cbn [fst snd]. do 2 eexists. split; [reflexivity|].
  intros k.
  assert (Hentry : forall name m,
             In (name, m) (metric_dict self) -> In k (written_keys name) ->
             dict_get k (dict_update ws' []) = dict_get k (dict_update ws [])).
  { intros name m Hin Hk.
    assert (Hret : exists wsx ox,
               metric_writes labels ep probs name m = Returned (wsx, ox)).
    { assert (Hf := proj1 (loop_writes_returns_iff labels ep probs
                             (metric_dict self))
                      (ex_intro _ ws (ex_intro _ out Hloop))).
      rewrite Forall_forall in Hf. exact (Hf (name, m) Hin). }
    destruct Hret as (wsx & ox & Hx).
    rewrite (loop_lookup_of_entry labels ep probs _ name m k Hnd Hin
               Hloop Hx Hk).
    assert (Hin' : In (name, m) reordered)
      by now apply (Permutation_in _ Hperm).
    exact (loop_lookup_of_entry labels ep probs _ name m k Hnd' Hin'
             Hloop' Hx Hk). }
  destruct (in_dec string_dec k (map fst ws)) as [Hk|Hk].
  - destruct (loop_writes_keys _ _ _ _ _ Hloop Hk) as (n & m & Hin & Hw).
    now apply (Hentry n m).
  - destruct (in_dec string_dec k (map fst ws')) as [Hk'|Hk'].
    + destruct (loop_writes_keys _ _ _ _ _ Hloop' Hk') as (n & m & Hin & Hw).
      apply (Hentry n m); [|assumption].
      apply (Permutation_in _ (Permutation_sym Hperm)). exact Hin.
    + now rewrite !dict_get_update_untouched.
Qed.

(** X12: an exception that the loop of the classifier does not catch ends
    the evaluation: when the entries registered before are well behaved and
    a metric lets [e] out (an "f1" call raising anything, a guarded call
    raising something else than [ValueError]), the call raises [e], no
    mapping is returned and no score line is printed, only the diagnostics
    of earlier entries. *)
Theorem classifier_uncaught_exception_propagates
    (self : Experiment) (labels predictions probs ep : pyobj)
    (baseline_prediction : bool) (w : world) (pre post : dict metric)
    (name : string) (m : metric) (e : exn) :
  ClassifierExperimentBase.select_prediction self predictions
    baseline_prediction w = (Returned ep, w) ->
  metric_dict self = pre ++ (name, m) :: post ->
  Forall (fun item => well_behaved labels ep probs item = true) pre ->
  aborts_with labels ep probs name m e ->
  exists diagnostics,
    ClassifierExperimentBase.evaluate_predictions self labels predictions
      probs baseline_prediction w = (Raised e, add_stdout diagnostics w)
    /\ Forall (is_diagnostic (keys pre)) diagnostics.
Proof.
  intros Hsel Hreg Hpre Habort.
  rewrite (evaluate_predictions_writes labels probs self predictions
             baseline_prediction Hsel), Hreg.
  destruct (loop_writes_raises labels ep probs post name m Hpre
              (aborts_with_raises Habort)) as [Hfst Hsnd].
  rewrite Hfst, Hsnd. eexists. split; [reflexivity|].
  apply loop_writes_diagnostics.
Qed.

End ClassifierOrderTheorems.

(** ** More on the evaluation of the regression *)

Section RegressionMoreFacts.
Context `{External}.

Lemma regression_loop_prefix (labels ep : pyobj) (pre rest : dict metric)
    (scores : dict pyobj) (d : dict pyobj) (w : world) :
  Forall2 (scored_as labels ep) pre scores ->
  RegressionExperimentBase.score_metrics labels ep (pre ++ rest) d w
  = RegressionExperimentBase.score_metrics labels ep rest
      (dict_update scores d) (add_stdout (map regression_line scores) w).
Proof.
  intros Hall. revert d w.
  induction Hall as [|[name m] [name' score] pre scores [Hn Hs] _ IH];
    intros d w.
  - cbn. now rewrite add_stdout_nil.
  - cbn in Hn, Hs. subst name'.
    cbn [app RegressionExperimentBase.score_metrics].
    unfold bind at 1, lift at 1. rewrite Hs.
    unfold bind at 1, print at 1. rewrite IH.
    cbn [map dict_update fold_left fst snd].
    change (regression_line (name, score) :: map regression_line scores)
      with ([regression_line (name, score)] ++ map regression_line scores).
    rewrite <- add_stdout_app. reflexivity.
Qed.

(** X13: when every registered metric returns a score, the regression
    evaluation returns these scores under the registered names, in the order
    of the registry (names being unique), and prints one line for each, in
    that order. *)
Theorem regression_scores_every_metric_in_order
    (self : Experiment) (labels predictions probs ep : pyobj)
    (baseline_prediction : bool) (scores : dict pyobj) (w : world) :
  RegressionExperimentBase.select_prediction self predictions
    baseline_prediction w = (Returned ep, w) ->
  NoDup (keys (metric_dict self)) ->
  Forall2 (scored_as labels ep) (metric_dict self) scores ->
  RegressionExperimentBase.evaluate_predictions self labels predictions
    probs baseline_prediction w
  = (Returned scores, add_stdout (map regression_line scores) w).
Proof.
  intros Hsel Hnd Hall.
  unfold RegressionExperimentBase.evaluate_predictions.
  unfold bind at 1. rewrite Hsel.
  rewrite <- (app_nil_r (metric_dict self)).
  rewrite (regression_loop_prefix [] [] w Hall). cbn.
  unfold ret. f_equal. f_equal.
  rewrite dict_update_fresh; [reflexivity|]. cbn.
  assert (Hkeys : map fst scores = keys (metric_dict self)).
  { clear Hnd. induction Hall as [|item res ? ? [Hn _] _ IH]; cbn;
      [reflexivity|]. now rewrite Hn, IH. }
  now rewrite Hkeys.
Qed.

(** X14: the regression loop recovers from nothing: the first metric that
    raises ends the evaluation with its exception, after one line was
    printed for each metric scored before it. *)
Theorem regression_first_failure_propagates
    (self : Experiment) (labels predictions probs ep : pyobj)
    (baseline_prediction : bool) (pre post : dict metric)
    (scores : dict pyobj) (name : string) (m : metric) (e : exn)
    (w : world) :
  RegressionExperimentBase.select_prediction self predictions
    baseline_prediction w = (Returned ep, w) ->
  metric_dict self = pre ++ (name, m) :: post ->
  Forall2 (scored_as labels ep) pre scores ->
  m labels ep None = Raised e ->
  RegressionExperimentBase.evaluate_predictions self labels predictions
    probs baseline_prediction w
  = (Raised e, add_stdout (map regression_line scores) w).
Proof.
  intros Hsel Hreg Hall Hm.
  unfold RegressionExperimentBase.evaluate_predictions.
  unfold bind at 1. rewrite Hsel, Hreg.
  rewrite (regression_loop_prefix ((name, m) :: post) [] w Hall).
  cbn [RegressionExperimentBase.score_metrics].
  unfold bind, lift. now rewrite Hm.
Qed.

End RegressionMoreFacts.

(** ** More on ROC evaluation and the search *)

Section RocMoreFacts.
Context `{External}.

(** X15: a probability array of two or more records but a single column
    (or none) is taken for the binary case and then has no column 1:
    [evaluate_roc_metrics] raises [IndexError], having logged the branch but
    scored, printed and plotted nothing. *)
Theorem evaluate_roc_metrics_single_column_raises_IndexError
    (self : Experiment) (full_setup : ExperimentSetup)
    (class_probabilities : ndarray2) (model : estimator) (w : world) :
  1 < nd_len class_probabilities ->
  ncols class_probabilities <= 1 ->
  ClassifierExperimentBase.evaluate_roc_metrics self full_setup
    class_probabilities model w
  = (Raised IndexError,
     add_logged ["Computing the binary AU-ROC curve scores."] w).
Proof.
  intros Hlen Hcols.
  unfold ClassifierExperimentBase.evaluate_roc_metrics.
  apply Nat.leb_gt in Hlen. rewrite Hlen.
  assert (Hbin : Nat.leb (ncols class_probabilities) 2 = true)
    by (apply Nat.leb_le; lia).
  rewrite Hbin.
  unfold ClassifierExperimentBase.roc_binary_branch, bind, logger_info, lift,
    nd_column.
  apply Nat.leb_le in Hcols. rewrite Hcols. reflexivity.
Qed.

Lemma add_effects_nil (w : world) : add_effects [] w = w.
Proof. destruct w. unfold add_effects. cbn. now rewrite app_nil_r. Qed.

Lemma add_effects_app (a b : list effect) (w : world) :
  add_effects b (add_effects a w) = add_effects (a ++ b) w.
Proof. unfold add_effects. cbn. now rewrite app_assoc. Qed.

Lemma bind_perform {A : Type} (e : effect) (k : M A) (w : world) :
  bind (perform e) (fun _ => k) w = k (add_effects [e] w).
Proof. reflexivity. Qed.

Lemma plot_class_curves_calls (i : nat)
    (curves : list (list float64 * list float64 * float64)) (w : world) :
  ClassifierExperimentBase.plot_class_curves i curves w
  = (Returned tt, add_effects (curve_calls i curves) w).
Proof.
  revert i w. induction curves as [|[[fpr tpr] roc_auc] rest IH]; intros i w.
  - cbn. now rewrite add_effects_nil.
  - cbn [ClassifierExperimentBase.plot_class_curves curve_calls].
    rewrite bind_perform, IH. now rewrite add_effects_app.
Qed.

Lemma class_curves_length (dummies probabilities : ndarray2)
    (classes : list nat)
    (curves : list (list float64 * list float64 * float64)) :
  ClassifierExperimentBase.class_curves dummies probabilities classes
  = Returned curves ->
  List.length curves = List.length classes.
Proof.
  revert curves. induction classes as [|i rest IH]; intros curves; cbn.
  - intros Heq. injection Heq as <-. reflexivity.
  - destruct (nd_column i dummies) as [y_i|e]; [|discriminate].
    destruct (nd_column i probabilities) as [p_i|e]; [|discriminate].
    destruct (roc_curve y_i p_i) as [[fpr tpr]|e]; [|discriminate].
    destruct (auc fpr tpr) as [roc_auc|e]; [|discriminate].
    destruct (ClassifierExperimentBase.class_curves dummies probabilities
                rest) as [curves'|e]; [|discriminate].
    intros Heq. injection Heq as <-. cbn. f_equal. now apply IH.
Qed.

(** A class without an indicator column stops the first loop. *)
Lemma class_curves_missing_column (dummies probabilities : ndarray2)
    (classes : list nat) :
  In (ncols dummies) classes ->
  exists e,
    ClassifierExperimentBase.class_curves dummies probabilities classes
    = Raised e.
Proof.
  induction classes as [|i rest IH]; intros Hin; [destruct Hin|]. cbn.
  destruct (Nat.eq_dec i (ncols dummies)) as [->|Hne].
  - unfold nd_column at 1. rewrite Nat.leb_refl. eauto.
  - destruct Hin as [Heq|Hin]; [congruence|].
    destruct (IH Hin) as (e & He). rewrite He.
    destruct (nd_column i dummies) as [y_i|e1]; [|eauto].
    destruct (nd_column i probabilities) as [p_i|e2]; [|eauto].
    destruct (roc_curve y_i p_i) as [[fpr tpr]|e3]; [|eauto].
    destruct (auc fpr tpr) as [roc_auc|e4]; eauto.
Qed.

(** [plot_multiclass_roc], read off the outcome of its first loop. *)
Lemma plot_multiclass_roc_outcome (labels : pyobj)
    (class_probabilities : ndarray2) (fig_size : Z * Z) (w : world) :
  ClassifierExperimentBase.plot_multiclass_roc labels class_probabilities
    fig_size w
  = match get_dummies labels with
    | Raised e => (Raised e, w)
    | Returned dummies =>
        match ClassifierExperimentBase.class_curves dummies
                class_probabilities (seq 0 (ncols class_probabilities)) with
        | Raised e => (Raised e, w)
        | Returned curves =>
            (Returned tt, add_effects (multiclass_figure fig_size curves) w)
        end
    end.
Proof.
  unfold ClassifierExperimentBase.plot_multiclass_roc.
  unfold bind at 1, lift at 1.
  destruct (get_dummies labels) as [dummies|e]; [|reflexivity].
  unfold bind at 1, lift at 1.
  destruct (ClassifierExperimentBase.class_curves dummies class_probabilities
              (seq 0 (ncols class_probabilities))) as [curves|e];
    [|reflexivity].
  rewrite !bind_perform. unfold bind at 1.
  rewrite plot_class_curves_calls, !bind_perform.
  change (perform plt_show)
    with (fun w0 => (Returned tt, add_effects [plt_show] w0)).
  cbv beta. rewrite !add_effects_app. unfold multiclass_figure.
  do 2 f_equal.
Qed.

(** X16: whenever [evaluate_roc_metrics] returns, the mapping has the one
    entry "roc_auc_score", one line was printed, and no random source or
    directory was touched.  In the binary case the score is that of column
    1 and the calls made are [RocCurveDisplay.from_estimator], [dsp.plot()]
    and [plt.show()], in this order; in the multiclass case (more than two
    columns) the score is the weighted one-vs-rest score of the whole array
    and the calls are those of one figure of [plot_multiclass_roc], with
    one curve for each column of the array. *)
Theorem evaluate_roc_metrics_returns_one_score
    (self : Experiment) (full_setup : ExperimentSetup)
    (class_probabilities : ndarray2) (model : estimator) (w w' : world)
    (r : dict pyobj) :
  ClassifierExperimentBase.evaluate_roc_metrics self full_setup
    class_probabilities model w = (Returned r, w') ->
  exists score line,
    r = [("roc_auc_score", score)]
    /\ stdout w' = stdout w ++ [line]
    /\ heap w' = heap w
    /\ dirs w' = dirs w
    /\ (if Nat.leb (ncols class_probabilities) 2 then
          effects w'
          = effects w ++ [RocCurveDisplay_from_estimator model;
                          RocCurveDisplay_plot; plt_show]
          /\ exists y_score,
               nd_column 1 class_probabilities = Returned y_score
               /\ roc_auc_score (labels (test_data full_setup)) y_score
                  = Returned score
        else
          roc_auc_score_ovr_weighted (labels (test_data full_setup))
            class_probabilities = Returned score
          /\ exists dummies curves,
               get_dummies (labels (test_data full_setup)) = Returned dummies
               /\ ClassifierExperimentBase.class_curves dummies
                    class_probabilities (seq 0 (ncols class_probabilities))
                  = Returned curves
               /\ List.length curves = ncols class_probabilities
               /\ effects w'
                  = effects w ++ multiclass_figure (8, 8)%Z curves).
Proof.
  unfold ClassifierExperimentBase.evaluate_roc_metrics.
  destruct (Nat.leb (nd_len class_probabilities) 1); [discriminate|].
  destruct (Nat.leb (ncols class_probabilities) 2).
  - unfold ClassifierExperimentBase.roc_binary_branch, bind, logger_info,
      lift, print, perform, ret.
    destruct (nd_column 1 class_probabilities) as [y_score|e];
      [|discriminate].
    destruct (roc_auc_score (labels (test_data full_setup)) y_score)
      as [score|e] eqn:Hscore; [|discriminate].
    cbn.
    destruct (roc_curve_display model (obs (test_data full_setup))
                (labels (test_data full_setup))); [|discriminate].
    intros Heq. injection Heq as <- <-. cbn.
    do 2 eexists. split; [reflexivity|]. split; [reflexivity|].
    split; [reflexivity|]. split; [reflexivity|].
    split; [now rewrite <- !app_assoc|]. exists y_score. auto.
  - unfold ClassifierExperimentBase.roc_multiclass_branch.
    unfold bind at 1, logger_info at 1. unfold bind at 1, lift at 1.
    destruct (roc_auc_score_ovr_weighted (labels (test_data full_setup))
                class_probabilities) as [score|e]; [|discriminate].
    unfold bind at 1, print at 1. unfold bind at 1.
    rewrite plot_multiclass_roc_outcome.
    destruct (get_dummies (labels (test_data full_setup)))
      as [dummies|e]; [|discriminate].
    destruct (ClassifierExperimentBase.class_curves dummies
                class_probabilities (seq 0 (ncols class_probabilities)))
      as [curves|e] eqn:Hcurves; [|discriminate].
    unfold ret. intros Heq. injection Heq as <- <-. cbn.
    do 2 eexists. split; [reflexivity|]. split; [reflexivity|].
    split; [reflexivity|]. split; [reflexivity|].
    split; [reflexivity|]. exists dummies, curves.
    split; [reflexivity|]. split; [exact Hcurves|].
    split; [|reflexivity].
    rewrite (class_curves_length _ _ _ Hcurves). apply length_seq.
Qed.

(** X20: [plot_multiclass_roc] computes the curve of every class before it
    creates the figure.  It returns exactly when the indicator columns of
    the labels and every [roc_curve] and [auc] are obtained, and has then
    made the calls of one figure, with one curve for each column of the
    probability array, in the order of the columns; otherwise it raises and
    has drawn nothing.  Labels with fewer distinct values than the array
    has columns are such a case. *)
Theorem plot_multiclass_roc_draws_all_curves_or_nothing
    (labels : pyobj) (class_probabilities : ndarray2) (fig_size : Z * Z)
    (w : world) :
  ((exists curves,
      List.length curves = ncols class_probabilities
      /\ ClassifierExperimentBase.plot_multiclass_roc labels
           class_probabilities fig_size w
         = (Returned tt, add_effects (multiclass_figure fig_size curves) w))
   \/ (exists e,
         ClassifierExperimentBase.plot_multiclass_roc labels
           class_probabilities fig_size w = (Raised e, w)))
  /\ (forall dummies,
        get_dummies labels = Returned dummies ->
        ncols dummies < ncols class_probabilities ->
        exists e,
          ClassifierExperimentBase.plot_multiclass_roc labels
            class_probabilities fig_size w = (Raised e, w)).
Proof.
  rewrite plot_multiclass_roc_outcome. split.
  - destruct (get_dummies labels) as [dummies|e]; [|right; eauto].
    destruct (ClassifierExperimentBase.class_curves dummies
                class_probabilities (seq 0 (ncols class_probabilities)))
      as [curves|e] eqn:Hcurves; [|right; eauto].
    left. exists curves. split; [|reflexivity].
    rewrite (class_curves_length _ _ _ Hcurves). apply length_seq.
  - intros dummies Hd Hlt. rewrite Hd.
    destruct (class_curves_missing_column dummies class_probabilities
                (seq 0 (ncols class_probabilities))) as (e & He).
    + apply in_seq. lia.
    + rewrite He. eauto.
Qed.

(** X17: with a standard metric set, the first thing [cv_search] does is to
    build its search object: an exhaustive grid search exactly when
    [cv_model] is the string "grid_search", a randomized search with the
    given number of iterations for every other string; either scores with
    the controller's standard metric and splits [cv_split_count] times on
    the controller's random source. *)
Theorem cv_search_builds_grid_only_for_grid_search
    (self : Experiment) (data_setup : MLSetup) (ml_model : estimator)
    (parameters : param_space) (cv_model : string) (random_iterations : Z)
    (w : world) :
  standard_metric self <> "" ->
  exists rest,
    effects (snd (ExperimentBase.cv_search self data_setup ml_model
                    parameters cv_model random_iterations w))
    = effects w ++ search_built self cv_model random_iterations :: rest.
Proof.
  intros Hm.
  destruct (cv_search_first_effect self data_setup ml_model parameters
              cv_model random_iterations w Hm) as (rest & Heff).
  exists rest. exact Heff.
Qed.

End RocMoreFacts.

(** ** Controllers and their random sources *)

Section RandomSourceFacts.
Context `{External}.

Lemma heap_store_lookup_other (r r' : nat) (s : RandomState)
    (h : list RandomState) :
  r <> r' -> nth_error (heap_store r s h) r' = nth_error h r'.
Proof.
  revert r r'. induction h as [|x h IH]; intros [|r] [|r'] Hne; cbn;
    try reflexivity; try contradiction.
  apply IH. congruence.
Qed.

Lemma split_on_instance_heap (cv : StratifiedShuffleSplit) (r : nat)
    (y : pyobj) (s : RandomState) (w : world) :
  random_state cv = RandomState_instance r ->
  nth_error (heap w) r = Some s ->
  exists w',
    ExperimentBase.split cv y w
    = (fst (ExperimentBase.draw_folds (Z.to_nat (n_splits cv)) s
              (test_size cv) y), w')
    /\ heap w'
       = heap_store r
           (snd (ExperimentBase.draw_folds (Z.to_nat (n_splits cv)) s
                   (test_size cv) y)) (heap w).
Proof.
  intros Hrs Hs. unfold ExperimentBase.split. rewrite Hrs.
  unfold bind at 1, get_heap at 1. rewrite Hs.
  destruct (ExperimentBase.draw_folds _ s _ y) as [drawn s'].
  unfold bind, set_heap, lift. cbn.
  eexists. split; reflexivity.
Qed.

(** With a seed numpy takes, the constructor allocates a fresh generator,
    seeded with [rnd_int], and fixes the test share of the folds at 0.4. *)
Lemma base_init_random_source (train test : MLSetup) (n seed : Z)
    (dir : option dir_arg) (storage loading : option string)
    (mtag ptag : string) (w : world) :
  seed_in_range seed = true ->
  exists self w',
    ExperimentBase.__init__ train test n seed dir storage loading mtag ptag w
    = (Returned self, w')
    /\ rnd self = List.length (heap w)
    /\ heap w' = heap w ++ [RandomState_seed seed]
    /\ test_cv_split self = float_0_4.
Proof.
  intros Hseed.
  unfold ExperimentBase.__init__, bind, new_RandomState. rewrite Hseed.
  destruct storage as [g|], loading as [f|]; cbn [not_opt];
    unfold logger_info, ret; cbn [option_map fst snd];
    destruct (not_dir dir) eqn:Hd;
    try (destruct dir as [[s|p]|]; cbn in Hd; try discriminate);
    cbn; do 2 eexists; repeat split; reflexivity.
Qed.

(** X18: two controllers constructed with the same [rnd_int] (one that
    numpy takes) own two distinct random sources: splitting the same labels
    with a generator of the first and then with a generator of the second
    has the same outcome twice, the same folds or the same refusal of the
    labels, the draws of one controller leaving the other's source
    alone. *)
Theorem controllers_with_one_seed_draw_the_same_folds
    (train1 test1 train2 test2 : MLSetup) (n1 n2 seed : Z)
    (dir1 dir2 : option dir_arg)
    (storage1 loading1 storage2 loading2 : option string)
    (mtag1 ptag1 mtag2 ptag2 : string) (w : world) :
  seed_in_range seed = true ->
  exists self1 w1 self2 w2,
    ExperimentBase.__init__ train1 test1 n1 seed dir1 storage1 loading1
      mtag1 ptag1 w = (Returned self1, w1)
    /\ ExperimentBase.__init__ train2 test2 n2 seed dir2 storage2 loading2
         mtag2 ptag2 w1 = (Returned self2, w2)
    /\ rnd self1 <> rnd self2
    /\ forall (n : Z) (y : pyobj),
         exists outcome w3 w4,
           ExperimentBase.split (ExperimentBase.cv_splits self1 n) y w2
           = (outcome, w3)
           /\ ExperimentBase.split (ExperimentBase.cv_splits self2 n) y w3
              = (outcome, w4).
Proof.
  intros Hseed.
  destruct (base_init_random_source train1 test1 n1 seed dir1 storage1
              loading1 mtag1 ptag1 w Hseed)
    as (self1 & w1 & Hinit1 & Hr1 & Hh1 & Ht1).
  destruct (base_init_random_source train2 test2 n2 seed dir2 storage2
              loading2 mtag2 ptag2 w1 Hseed)
    as (self2 & w2 & Hinit2 & Hr2 & Hh2 & Ht2).
  exists self1, w1, self2, w2.
  assert (Hne : rnd self1 <> rnd self2).
  { rewrite Hr1, Hr2, Hh1, length_app. cbn. lia. }
  assert (Hs1 : nth_error (heap w2) (rnd self1)
                = Some (RandomState_seed seed)).
  { rewrite Hh2, Hh1, Hr1.
    rewrite nth_error_app1 by (rewrite length_app; cbn; lia).
    rewrite nth_error_app2 by lia. now rewrite Nat.sub_diag. }
  assert (Hs2 : nth_error (heap w2) (rnd self2)
                = Some (RandomState_seed seed)).
  { rewrite Hh2, Hr2. rewrite nth_error_app2 by lia.
    now rewrite Nat.sub_diag. }
  split; [exact Hinit1|]. split; [exact Hinit2|]. split; [exact Hne|].
  intros n y.
  destruct (split_on_instance_heap (ExperimentBase.cv_splits self1 n) y w2
              (cv_splits_random_state self1 n) Hs1) as (w3 & Hsp1 & Hh3).
  assert (Hs3 : nth_error (heap w3) (rnd self2)
                = Some (RandomState_seed seed)).
  { rewrite Hh3, heap_store_lookup_other by exact Hne. exact Hs2. }
  destruct (split_on_instance_heap (ExperimentBase.cv_splits self2 n) y w3
              (cv_splits_random_state self2 n) Hs3) as (w4 & Hsp2 & _).
  cbn [n_splits test_size ExperimentBase.cv_splits] in Hsp1, Hsp2.
  rewrite Ht1 in Hsp1. rewrite Ht2 in Hsp2.
  eexists _, w3, w4. split; [exact Hsp1 | exact Hsp2].
Qed.

End RandomSourceFacts.

(** ** The classifier controller as constructed *)

Section DefaultClassifierFacts.
Context `{External}.
Variables labels ep probs : pyobj.

Lemma existsb_eqb_In (k : string) (l : list string) :
  existsb (String.eqb k) l = true <-> In k l.
Proof.
  rewrite existsb_exists. split.
  - intros (x & Hin & Heq). apply String.eqb_eq in Heq. now subst.
  - intros Hin. exists k. split; [assumption | apply String.eqb_refl].
Qed.

(** Metrics whose names do not contain "f1" write under their own names,
    in the order of the registry, or not at all. *)
Lemma plain_loop_keys (items : dict metric) (ws : list (string * pyobj))
    (out : list string) :
  Forall (fun item => contains "f1" (fst item) = false) items ->
  NoDup (keys items) ->
  loop_writes labels ep probs items = (Returned ws, out) ->
  map fst ws
  = filter (fun k => existsb (String.eqb k) (map fst ws)) (keys items).
Proof.
  intros Hplain. revert ws out.
  induction Hplain as [|[name m] rest Hname _ IH]; intros ws out Hnd Hl.
  - cbn in Hl. injection Hl as <- <-. reflexivity.
  - cbn in Hname, Hnd. inversion Hnd as [|? ? Hfresh Hnd']; subst.
    cbn [loop_writes] in Hl.
    destruct (metric_writes labels ep probs name m) as [[wsx ox]|e] eqn:Hx;
      [|discriminate].
    destruct (loop_writes labels ep probs rest) as [[ws'|e] out'] eqn:Hrest;
      [|discriminate].
    injection Hl as <- <-.
    specialize (IH ws' out' Hnd' eq_refl).
    assert (Hsub : forall k, In k (map fst ws') -> In k (keys rest)).
    { intros k Hk. rewrite IH in Hk. now apply filter_In in Hk. }
    assert (Hcases : wsx = [] \/ exists score, wsx = [(name, score)]).
    { unfold metric_writes in Hx. rewrite Hname in Hx.
      destruct (m labels ep None) as [score|e].
      - injection Hx as <- <-. right. now exists score.
      - destruct (is_ValueError e); [|discriminate].
        destruct (m labels probs None) as [score|e'].
        + injection Hx as <- <-. right. now exists score.
        + destruct (is_ValueError e'); [|discriminate].
          injection Hx as <- <-. now left. }
    destruct Hcases as [->|[score ->]]; cbn [app map fst keys filter].
    + destruct (existsb (String.eqb name) (map fst ws')) eqn:Hin.
      * apply existsb_eqb_In in Hin. elim Hfresh. now apply Hsub.
      * exact IH.
    + cbn [existsb]. rewrite String.eqb_refl. cbn [orb]. f_equal.
      rewrite IH at 1. apply filter_ext_in. intros k Hk.
      assert (Hne : String.eqb k name = false).
      { apply String.eqb_neq. intros ->. contradiction. }
      now rewrite Hne.
Qed.

End DefaultClassifierFacts.

Section DefaultClassifierTheorems.
Context `{External}.

(** X19: a controller as the classifier constructor leaves it (the seed
    being one that numpy takes) has no baseline to evaluate, and every
    mapping its [evaluate_predictions] returns starts with the three
    averages of "f1" and goes on with the other five default metrics that
    could be scored, in the order of the constructor; there is no key
    "f1". *)
Theorem fresh_classifier_reports_default_metrics
    (train test : MLSetup) (n seed : Z) (dir : option dir_arg)
    (storage loading : option string) (mtag ptag : string) (w0 : world) :
  seed_in_range seed = true ->
  exists self w1,
    ClassifierExperimentBase.__init__ train test n seed dir storage loading
      mtag ptag w0 = (Returned self, w1)
    /\ forall (labels predictions probs : pyobj) (baseline_prediction : bool)
         (w w' : world) (r : dict pyobj),
         ClassifierExperimentBase.evaluate_predictions self labels
           predictions probs baseline_prediction w = (Returned r, w') ->
         baseline_prediction = false
         /\ keys r
            = ["f1_macro"; "f1_micro"; "f1_weighted"]
              ++ filter (fun k => existsb (String.eqb k) (keys r))
                   ["log_loss"; "balanced_accuracy"; "accuracy";
                    "confusion_matrix"; "classification_report"].
Proof.
  intros Hseed.
  destruct (classifier_init_returns train test n seed dir storage loading
              mtag ptag w0 Hseed) as (self & w1 & Hinit & _ & Hbase & Hreg).
  exists self, w1. split; [exact Hinit|].
  intros labels predictions probs baseline_prediction w w' r Heval.
  split.
  - destruct baseline_prediction; [|reflexivity].
    destruct (no_baseline_fails_before_scoring self labels predictions probs
                w Hbase) as [Hraise _].
    rewrite Hraise in Heval. discriminate.
  - destruct (evaluate_predictions_returned _ _ _ _ _ _ Heval)
      as (ep & ws & out & _ & Hloop & Hr & _).
    rewrite Hreg in Hloop.
    change (loop_writes labels ep probs
              ([("f1", f1_score)]
               ++ [("log_loss", log_loss);
                   ("balanced_accuracy", balanced_accuracy_score);
                   ("accuracy", accuracy_score);
                   ("confusion_matrix", confusion_matrix);
                   ("classification_report", classification_report)])
            = (Returned ws, out)) in Hloop.
    apply loop_writes_app in Hloop.
    destruct Hloop as (wsx & ox & ws' & out' & Hx & Hrest & -> & _).
    cbn [loop_writes] in Hx.
    destruct (metric_writes labels ep probs "f1" f1_score)
      as [[wsx0 ox0]|e] eqn:Hx0; [|discriminate].
    rewrite app_nil_r in Hx. injection Hx as <- _.
    rename wsx0 into wsx, Hx0 into Hx.
    assert (Hplain :
      map fst ws'
      = filter (fun k => existsb (String.eqb k) (map fst ws'))
          ["log_loss"; "balanced_accuracy"; "accuracy"; "confusion_matrix";
           "classification_report"]).
    { apply (plain_loop_keys labels ep probs) with (out := out')
        (items := [("log_loss", log_loss);
                   ("balanced_accuracy", balanced_accuracy_score);
                   ("accuracy", accuracy_score);
                   ("confusion_matrix", confusion_matrix);
                   ("classification_report", classification_report)]).
      - repeat (constructor; [reflexivity|]). constructor.
      - cbn. repeat (constructor; [cbn; intuition discriminate|]).
        constructor.
      - exact Hrest. }
    assert (Hsub : forall k, In k (map fst ws') ->
              In k ["log_loss"; "balanced_accuracy"; "accuracy";
                    "confusion_matrix"; "classification_report"]).
    { intros k Hk. rewrite Hplain in Hk. now apply filter_In in Hk. }
    assert (Hf1 : exists a b c,
              wsx = [("f1_macro", a); ("f1_micro", b); ("f1_weighted", c)]).
    { unfold metric_writes in Hx.
      change (contains "f1" "f1") with true in Hx. cbn iota in Hx.
      destruct (f1_score labels ep (Some "macro")) as [a|?]; [|discriminate].
      destruct (f1_score labels ep (Some "micro")) as [b|?]; [|discriminate].
      destruct (f1_score labels ep (Some "weighted")) as [c|?];
        [|discriminate].
      injection Hx as <- <-. now exists a, b, c. }
    destruct Hf1 as (a & b & c & ->).
    assert (Hfresh : forall k,
              In k ["f1_macro"; "f1_micro"; "f1_weighted"] ->
              ~ In k (map fst ws')).
    { intros k Hk Hin. apply Hsub in Hin. cbn in Hk, Hin.
      intuition (subst; discriminate). }
    assert (Hws : r = [("f1_macro", a); ("f1_micro", b); ("f1_weighted", c)]
                      ++ ws').
    { rewrite Hr. rewrite dict_update_fresh; [reflexivity|].
      cbn [keys map app fst].
      repeat (constructor;
              [ cbn [In]; intros Hin;
                repeat (destruct Hin as [Hin|Hin]; [discriminate|]);
                revert Hin; apply Hfresh; cbn; auto |]).
      rewrite Hplain. apply NoDup_filter.
      repeat (constructor; [cbn; intuition discriminate|]). constructor. }
    rewrite Hws. unfold keys. rewrite map_app. cbn [map fst app].
    do 3 f_equal. rewrite Hplain at 1.
    apply filter_ext_in. intros k Hk. cbn [existsb].
    assert (Hk' : ~ In k ["f1_macro"; "f1_micro"; "f1_weighted"]).
    { cbn in Hk |- *. intuition (subst; discriminate). }
    cbn [In] in Hk'.
    destruct (String.eqb k "f1_macro") eqn:E1;
      [apply String.eqb_eq in E1; subst k; elim Hk'; auto|].
    destruct (String.eqb k "f1_micro") eqn:E2;
      [apply String.eqb_eq in E2; subst k; elim Hk'; auto|].
    destruct (String.eqb k "f1_weighted") eqn:E3;
      [apply String.eqb_eq in E3; subst k; elim Hk'; auto|].
    reflexivity.
Qed.

End DefaultClassifierTheorems.

(** ** The further theorems at concrete inputs *)

Module MoreWitnesses.
Import Sample MoreSample SampleFacts.

Lemma add_metric_keeps_names_unique_witness :
  NoDup (keys (metric_dict
                 (ExperimentBase.add_metric
                    (controller sample_registry "f1_macro" PyNone)
                    (constant_metric PyNone) "r2")))
  /\ metric_dict (ExperimentBase.add_metric
                    (controller sample_registry "f1_macro" PyNone)
                    (constant_metric PyNone) "r2")
     = sample_registry ++ [("r2", constant_metric PyNone)].
Proof.
  destruct (@add_metric_keeps_names_unique_and_ordered external
              (controller sample_registry "f1_macro" PyNone)
              (constant_metric PyNone) "r2" sample_registry_keys)
    as (Hnd & _ & Hlast).
  split; [exact Hnd|]. apply Hlast. cbn. intuition discriminate.
Defined.

Lemma remove_metric_deletes_or_raises_witness :
  ExperimentBase.remove_metric
    (controller sample_registry "f1_macro" PyNone) "missing"
  = Raised (KeyError "missing")
  /\ exists self',
       ExperimentBase.remove_metric
         (controller sample_registry "f1_macro" PyNone) "broken"
       = Returned self'
       /\ dict_get "broken" (metric_dict self') = None.
Proof.
  split.
  - apply (proj1 (@remove_metric_deletes_or_raises_KeyError external
                    (controller sample_registry "f1_macro" PyNone) "missing"
                    sample_registry_keys)).
    cbn. intuition discriminate.
  - destruct (proj2 (@remove_metric_deletes_or_raises_KeyError external
                       (controller sample_registry "f1_macro" PyNone)
                       "broken" sample_registry_keys))
      as (self' & Hrem & Hget & _).
    + cbn. tauto.
    + exists self'. split; assumption.
Defined.

Lemma add_then_remove_metric_witness :
  ExperimentBase.remove_metric
    (ExperimentBase.add_metric
       (controller sample_registry "f1_macro" PyNone)
       (constant_metric PyNone) "r2") "r2"
  = Returned (controller sample_registry "f1_macro" PyNone).
Proof.
  apply (@add_then_remove_metric_restores_controller external
           (controller sample_registry "f1_macro" PyNone)
           (constant_metric PyNone) "r2").
  cbn. intuition discriminate.
Defined.

Lemma default_load_model_path_witness :
  load_path (controller [] "f1_macro" PyNone) (Some tt)
  = store_path (controller [] "f1_macro" PyNone) tt.
Proof.
  apply (proj1 (proj2 (@default_load_model_path_matches_store external
                         (controller [] "f1_macro" PyNone) tt empty_world))).
  reflexivity.
Defined.

Lemma train_model_witness :
  @ExperimentBase.train_model external model_ops
    (controller [] "" PyNone) tt full_setup "random_search" 20 None
    empty_world
  = (Returned tt,
     add_logged ["Performing standard model training."; "Model trained"]
       empty_world)
  /\
  @ExperimentBase.train_model external model_ops
    (controller [] "" PyNone) tt full_setup "random_search" 20 (Some tt)
    empty_world
  = (Raised (NotImplementedError ExperimentBase.no_standard_metric_message),
     empty_world).
Proof.
  split.
  - apply (proj1 (@train_model_fits_directly_or_searches external model_ops
                    (controller [] "" PyNone) tt full_setup "random_search"
                    20 None empty_world)).
    reflexivity.
  - apply (proj2 (proj2 (@train_model_fits_directly_or_searches external
                           model_ops (controller [] "" PyNone) tt full_setup
                           "random_search" 20 (Some tt) empty_world)));
      reflexivity.
Defined.

Lemma classifier_mapping_keys_witness :
  NoDup (keys (returned_mapping sample_evaluation))
  /\ exists diagnostics,
       stdout (snd sample_evaluation)
       = stdout empty_world ++ diagnostics
         ++ map (@score_line external) (returned_mapping sample_evaluation)
       /\ Forall (is_diagnostic (keys sample_registry)) diagnostics.
Proof.
  assert (Heval : sample_evaluation
                  = (Returned (returned_mapping sample_evaluation),
                     snd sample_evaluation)).
  { vm_compute. reflexivity. }
  destruct (@classifier_mapping_keys_and_output external
              (controller sample_registry "f1_macro" PyNone)
              hard_labels hard_labels probability_rows false empty_world
              (snd sample_evaluation) (returned_mapping sample_evaluation)
              Heval) as (Hnd & _ & Hout).
  split; assumption.
Defined.

Lemma classifier_mapping_order_witness :
  exists r' w'',
    @ClassifierExperimentBase.evaluate_predictions external
      (ExperimentBase.set_metric_dict
         (controller sample_registry "f1_macro" PyNone) reordered_registry)
      hard_labels hard_labels probability_rows false empty_world
    = (Returned r', w'')
    /\ forall k,
         dict_get k r' = dict_get k (returned_mapping sample_evaluation).
Proof.
  assert (Heval : sample_evaluation
                  = (Returned (returned_mapping sample_evaluation),
                     snd sample_evaluation)).
  { vm_compute. reflexivity. }
  apply (@classifier_mapping_ignores_registration_order external
           (controller sample_registry "f1_macro" PyNone) reordered_registry
           hard_labels hard_labels probability_rows false empty_world
           (snd sample_evaluation) (returned_mapping sample_evaluation)
           (perm_swap _ _ _) sample_registry_keys Heval).
Defined.

Lemma classifier_uncaught_exception_witness :
  exists diagnostics,
    @ClassifierExperimentBase.evaluate_predictions external
      (controller aborting_registry "f1_macro" PyNone)
      hard_labels hard_labels probability_rows false empty_world
    = (Raised TypeError, add_stdout diagnostics empty_world)
    /\ Forall (is_diagnostic ["broken"]) diagnostics.
Proof.
  apply (@classifier_uncaught_exception_propagates external
           (controller aborting_registry "f1_macro" PyNone)
           hard_labels hard_labels probability_rows hard_labels false
           empty_world
           [("broken", failing_metric (ValueError "unsupported target"))]
           [("accuracy", constant_metric (PyFloat one))]
           "report" (failing_metric TypeError) TypeError).
  - reflexivity.
  - reflexivity.
  - constructor; [reflexivity | constructor].
  - right. split; [reflexivity|]. split; [reflexivity|]. left. reflexivity.
Defined.

Lemma regression_scores_every_metric_witness :
  @RegressionExperimentBase.evaluate_predictions external
    (controller regression_registry "neg_root_mean_squared_error" PyNone)
    hard_labels hard_labels PyNone false empty_world
  = (Returned [("mse", PyFloat half); ("mae", PyFloat one)],
     add_stdout
       (map (@regression_line external) [("mse", PyFloat half); ("mae", PyFloat one)])
       empty_world).
Proof.
  apply (@regression_scores_every_metric_in_order external
           (controller regression_registry "neg_root_mean_squared_error"
              PyNone)
           hard_labels hard_labels PyNone hard_labels false
           [("mse", PyFloat half); ("mae", PyFloat one)] empty_world).
  - reflexivity.
  - distinct_keys.
  - repeat constructor.
Defined.

Lemma regression_first_failure_witness :
  @RegressionExperimentBase.evaluate_predictions external
    (controller failing_regression_registry "neg_root_mean_squared_error"
       PyNone)
    hard_labels hard_labels PyNone false empty_world
  = (Raised TypeError,
     add_stdout (map (@regression_line external) [("mse", PyFloat half)]) empty_world).
Proof.
  apply (@regression_first_failure_propagates external
           (controller failing_regression_registry
              "neg_root_mean_squared_error" PyNone)
           hard_labels hard_labels PyNone hard_labels false
           [("mse", constant_metric (PyFloat half))]
           [("mae", constant_metric (PyFloat one))]
           [("mse", PyFloat half)] "mape" (failing_metric TypeError)
           TypeError empty_world).
  - reflexivity.
  - reflexivity.
  - repeat constructor.
  - reflexivity.
Defined.

Lemma evaluate_roc_metrics_single_column_witness :
  @ClassifierExperimentBase.evaluate_roc_metrics external
    (controller [] "f1_macro" PyNone) full_setup single_column tt
    empty_world
  = (Raised IndexError,
     add_logged ["Computing the binary AU-ROC curve scores."] empty_world).
Proof.
  apply (@evaluate_roc_metrics_single_column_raises_IndexError external
           (controller [] "f1_macro" PyNone) full_setup single_column tt
           empty_world).
  - cbn. lia.
  - cbn. lia.
Defined.

Lemma evaluate_roc_metrics_one_score_witness :
  (exists score,
     returned_mapping roc_evaluation = [("roc_auc_score", score)]
     /\ effects (snd roc_evaluation)
        = [@RocCurveDisplay_from_estimator external tt; RocCurveDisplay_plot;
           plt_show])
  /\ exists curves,
       List.length curves = 3
       /\ effects
            (snd (@ClassifierExperimentBase.evaluate_roc_metrics external
                    (controller [] "f1_macro" PyNone) full_setup
                    three_class_probabilities tt empty_world))
          = @multiclass_figure external (8, 8)%Z curves.
Proof.
  split.
  - assert (Heval : roc_evaluation
                    = (Returned (returned_mapping roc_evaluation),
                       snd roc_evaluation)).
    { apply returned_evaluation. vm_compute. reflexivity. }
    destruct (@evaluate_roc_metrics_returns_one_score external
                (controller [] "f1_macro" PyNone) full_setup probabilities
                tt empty_world (snd roc_evaluation)
                (returned_mapping roc_evaluation) Heval)
      as (score & line & Hr & _ & _ & _ & Heff & _).
    exists score. split; [exact Hr | exact Heff].
  - pose proof (returned_evaluation
                  (@ClassifierExperimentBase.evaluate_roc_metrics external
                     (controller [] "f1_macro" PyNone) full_setup
                     three_class_probabilities tt empty_world)
                  ltac:(vm_compute; reflexivity)) as Heval.
    apply evaluate_roc_metrics_returns_one_score in Heval.
    destruct Heval as (score & line & _ & _ & _ & _ & Hif).
    cbn [Nat.leb ncols three_class_probabilities] in Hif.
    destruct Hif as (_ & dummies & curves & _ & _ & Hlen & Hfig).
    exists curves. split; [exact Hlen | exact Hfig].
Defined.

Lemma cv_search_builds_grid_witness :
  exists rest,
    effects (snd (@ExperimentBase.cv_search external
                    (controller [] "f1_macro" PyNone) setup tt tt
                    "grid_search" 20 empty_world))
    = build_GridSearchCV "f1_macro"
        {| n_splits := 5; test_size := float_0_4;
           random_state := RandomState_instance 0 |} :: rest.
Proof.
  apply (@cv_search_builds_grid_only_for_grid_search external
           (controller [] "f1_macro" PyNone) setup tt tt "grid_search" 20
           empty_world).
  discriminate.
Defined.

Lemma fresh_classifier_reports_witness :
  fresh_evaluation
  = (Returned (returned_mapping fresh_evaluation), snd fresh_evaluation)
  /\ keys (returned_mapping fresh_evaluation)
     = ["f1_macro"; "f1_micro"; "f1_weighted"]
       ++ filter (fun k =>
                    existsb (String.eqb k)
                      (keys (returned_mapping fresh_evaluation)))
            ["log_loss"; "balanced_accuracy"; "accuracy";
             "confusion_matrix"; "classification_report"].
Proof.
  assert (Heval : fresh_evaluation
                  = (Returned (returned_mapping fresh_evaluation),
                     snd fresh_evaluation)).
  { vm_compute. reflexivity. }
  split; [exact Heval|].
  destruct (@fresh_classifier_reports_default_metrics external setup setup 5
              100 None None None "_development" "_development" empty_world
              eq_refl)
    as (self & w1 & Hinit & Hev).
  assert (Hself : self = fresh_classifier).
  { unfold fresh_classifier, fresh_classifier_init. now rewrite Hinit. }
  subst self.
  exact (proj2 (Hev hard_labels hard_labels probability_rows false
                  empty_world (snd fresh_evaluation)
                  (returned_mapping fresh_evaluation) Heval)).
Defined.

Lemma controllers_with_one_seed_witness :
  exists self1 w1 self2 w2 w3 w4,
    @ExperimentBase.__init__ external setup setup 5 100 None None None
      "_development" "_development" empty_world = (Returned self1, w1)
    /\ @ExperimentBase.__init__ external setup setup 5 100 None None None
         "_development" "_development" w1 = (Returned self2, w2)
    /\ ExperimentBase.split (ExperimentBase.cv_splits self1 2) ten_labels w2
       = (Returned [([7; 8; 9; 0; 1; 2], [3; 4; 5; 6]);
                    ([8; 9; 0; 1; 2; 3], [4; 5; 6; 7])], w3)
    /\ ExperimentBase.split (ExperimentBase.cv_splits self2 2) ten_labels w3
       = (Returned [([7; 8; 9; 0; 1; 2], [3; 4; 5; 6]);
                    ([8; 9; 0; 1; 2; 3], [4; 5; 6; 7])], w4).
Proof.
  destruct (@controllers_with_one_seed_draw_the_same_folds external
              setup setup setup setup 5 5 100 None None None None None None
              "_development" "_development" "_development" "_development"
              empty_world eq_refl)
    as (self1 & w1 & self2 & w2 & Hinit1 & Hinit2 & _ & Hsplits).
  destruct (Hsplits 2%Z ten_labels) as (outcome & w3 & w4 & Hsp1 & Hsp2).
  exists self1, w1, self2, w2, w3, w4.
  split; [exact Hinit1|]. split; [exact Hinit2|].
  assert (Hself : self1 = seeded_controller).
  { unfold seeded_controller, seeded. now rewrite Hinit1. }
  assert (Hw1 : w1 = snd seeded).
  { unfold seeded. now rewrite Hinit1. }
  assert (Hw2 : w2 = snd second_seeded).
  { unfold second_seeded. rewrite <- Hw1. now rewrite Hinit2. }
  assert (Hout : fst (ExperimentBase.split
                        (ExperimentBase.cv_splits seeded_controller 2)
                        ten_labels (snd second_seeded))
                 = Returned [([7; 8; 9; 0; 1; 2], [3; 4; 5; 6]);
                             ([8; 9; 0; 1; 2; 3], [4; 5; 6; 7])]).
  { vm_compute. reflexivity. }
  rewrite <- Hself, <- Hw2, Hsp1 in Hout. cbn [fst] in Hout.
  rewrite <- Hout. split; [exact Hsp1 | exact Hsp2].
Defined.

Lemma plot_multiclass_roc_witness :
  exists e,
    @ClassifierExperimentBase.plot_multiclass_roc external ten_labels
      wide_probabilities (8, 8)%Z empty_world = (Raised e, empty_world).
Proof.
  apply (proj2 (@plot_multiclass_roc_draws_all_curves_or_nothing external
                  ten_labels wide_probabilities (8, 8)%Z empty_world)
           {| nd_rows := [[S754_zero false; S754_zero false;
                           S754_zero false]];
              ncols := 3 |} eq_refl).
  cbn. lia.
Defined.

End MoreWitnesses.
